(** * thalesians.tsa.processes: a shallow embedding and its verification

    The development follows [src/main/python/thalesians/tsa/processes.py]:
    the class hierarchy [Process] / [ItoProcess] / [SolvedItoProcess] /
    [MarkovProcess] / [SolvedItoMarkovProcess], and the two closed-form
    processes [WienerProcess] and [OrnsteinUhlenbeckProcess].

    - Python exceptions are values of [exn]; a call either returns or raises
      ([result]).  Methods that touch the caches of an instance run in the
      monad [M St A = St -> result A * St]: the state survives a raised
      exception, as the fields of a Python object do.
    - numpy 2-D arrays are a shape and a row-major buffer ([ndarray]);
      elementwise operators broadcast as numpy does and raise [ValueError]
      on incompatible shapes.
    - Numbers are kept abstract ([Scalar]): no algebraic law is assumed of
      [+], [*], [sqrt], ...; only that [==] decides equality.  IEEE corner
      cases (NaN, signed zeros, rounding) are outside the model.
    - [scipy.linalg.expm], [numpy.linalg.inv] and [numpy.linalg.cholesky]
      are oracles ([LinAlg]): each may raise, and otherwise returns an array
      of the shape of its square argument.
    - The helpers of [numpyutils], [numpychecks] and [distrs] are not part
      of the file; those that the methods call are modelled from their
      description in the specification, each marked as such.

    Left out: the [drift] and [diffusion] closures of [ItoProcess], the
    [__str__] methods, the convenience constructors [create_2d] and
    [create_from_cov], and the [KalmanProcess] stub, whose constructor sets
    no field. *)

From Stdlib Require Import ZArith List String Bool Arith Lia PeanoNat.
From Stdlib Require QArith Qreduction Reals Lra.
Import ListNotations.

Set Implicit Arguments.
Local Open Scope string_scope.
Local Open Scope nat_scope.

(** ** Python exceptions and results *)

Inductive exn : Type :=
| NotImplementedError (msg : string)
| ValueError (msg : string)
| TypeError (msg : string)
| AttributeError (msg : string)
| ZeroDivisionError (msg : string)
| LinAlgError (msg : string)
| ConfigurationError (msg : string).

Inductive result (A : Type) : Type :=
| Ok (a : A)
| Raise (e : exn).

Arguments Ok {A} a.
Arguments Raise {A} e.

Definition rbind {A B} (r : result A) (k : A -> result B) : result B :=
  match r with
  | Ok a => k a
  | Raise e => Raise e
  end.

(** State-and-exception monad: the state is returned in both outcomes. *)
Definition M (St A : Type) : Type := St -> result A * St.

Definition ret {St A} (a : A) : M St A := fun s => (Ok a, s).

Definition raise {St A} (e : exn) : M St A := fun s => (Raise e, s).

Definition bind {St A B} (c : M St A) (k : A -> M St B) : M St B :=
  fun s =>
    match c s with
    | (Ok a, s') => k a s'
    | (Raise e, s') => (Raise e, s')
    end.

Definition get_state {St} : M St St := fun s => (Ok s, s).

Definition modify {St} (f : St -> St) : M St unit := fun s => (Ok tt, f s).

Definition lift {St A} (r : result A) : M St A := fun s => (r, s).

Declare Scope py_scope.
Delimit Scope py_scope with py.
Notation "x <- c ;; k" := (bind c (fun x => k))
  (at level 100, c at next level, right associativity) : py_scope.
Notation "c ;;; k" := (bind c (fun _ => k))
  (at level 100, right associativity) : py_scope.
Notation "x <~ r ;; k" := (rbind r (fun x => k))
  (at level 100, r at next level, right associativity) : py_scope.
Local Open Scope py_scope.

(** ** Scalars *)

Class Scalar : Type := {
  F : Type;
  f0 : F;
  f1 : F;
  fadd : F -> F -> F;
  fsub : F -> F -> F;
  fmul : F -> F -> F;
  fdiv : F -> F -> F;
  fneg : F -> F;
  fsqrt : F -> F;
  of_Z : Z -> F;
  feqb : F -> F -> bool;
  feqb_eq : forall x y, feqb x y = true <-> x = y
}.

(** ** numpy arrays (two-dimensional) *)

Record ndarray (A : Type) : Type := mk_ndarray {
  nrow : nat;
  ncol : nat;
  data : list A
}.

Arguments mk_ndarray {A} nrow ncol data.

Definition size {A} (a : ndarray A) : nat := nrow a * ncol a.

Definition wf {A} (a : ndarray A) : Prop := List.length (data a) = size a.

Definition has_shape {A} (a : ndarray A) (r c : nat) : Prop :=
  nrow a = r /\ ncol a = c /\ wf a.

(** [a[i, j]] in the row-major buffer. *)
Definition get {A} (d : A) (a : ndarray A) (i j : nat) : A :=
  nth (i * ncol a + j) (data a) d.

Definition tabulate {A} (r c : nat) (f : nat -> nat -> A) : ndarray A :=
  mk_ndarray r c (map (fun k => f (k / c) (k mod c)) (seq 0 (r * c))).

Definition amap {A B} (f : A -> B) (a : ndarray A) : ndarray B :=
  mk_ndarray (nrow a) (ncol a) (map f (data a)).

(** numpy's broadcasting rule on one axis. *)
Definition broadcast_dim (m n : nat) : option nat :=
  if m =? n then Some m
  else if m =? 1 then Some n
  else if n =? 1 then Some m
  else None.

(** Index used on an axis of length [dim] when broadcasting. *)
Definition bidx (dim i : nat) : nat := if dim =? 1 then 0 else i.

Definition broadcast_msg : string := "operands could not be broadcast together".

Definition np_broadcast2 {A B C} (da : A) (db : B) (op : A -> B -> C)
  (a : ndarray A) (b : ndarray B) : result (ndarray C) :=
  match broadcast_dim (nrow a) (nrow b), broadcast_dim (ncol a) (ncol b) with
  | Some r, Some c =>
      Ok (tabulate r c (fun i j =>
            op (get da a (bidx (nrow a) i) (bidx (ncol a) j))
               (get db b (bidx (nrow b) i) (bidx (ncol b) j))))
  | _, _ => Raise (ValueError broadcast_msg)
  end.

(** [bool(array)]: the element of a one-element array; an array of two
    elements or more has no truth value.  (For an empty array NumPy raises
    as well since 2.2 and answered [False] with a warning before; nothing
    below depends on that case.) *)
Definition ambiguous_msg : string :=
  "The truth value of an array with more than one element is ambiguous. Use a.any() or a.all()".

Definition np_bool (a : ndarray bool) : result bool :=
  match data a with
  | [b] => Ok b
  | _ => Raise (ValueError ambiguous_msg)
  end.

Section Numpy.
Context {SC : Scalar}.

Definition arr : Type := ndarray F.

Definition aget (a : arr) (i j : nat) : F := get f0 a i j.

Definition fsum (l : list F) : F := fold_left fadd l f0.

(** [a + b], [a - b] and [a == b] on arrays.  (On shapes that do not
    broadcast, [==] raises since NumPy 1.25 and answered [False] with a
    warning before; nothing below depends on that case.) *)
Definition np_add (a b : arr) : result arr := np_broadcast2 f0 f0 fadd a b.

Definition np_sub (a b : arr) : result arr := np_broadcast2 f0 f0 fsub a b.

Definition np_eq (a b : arr) : result (ndarray bool) := np_broadcast2 f0 f0 feqb a b.

(** [a * x] and [x * a] for a Python number [x]. *)
Definition np_mul_scalar (a : arr) (x : F) : arr := amap (fun e => fmul e x) a.

Definition np_scalar_mul (x : F) (a : arr) : arr := amap (fun e => fmul x e) a.

(** [-a]. *)
Definition np_neg (a : arr) : arr := amap fneg a.

(** [a.T]. *)
Definition np_T (a : arr) : arr := tabulate (ncol a) (nrow a) (fun i j => aget a j i).

(** [np.eye(n)]. *)
Definition np_eye (n : nat) : arr := tabulate n n (fun i j => if i =? j then f1 else f0).

(** [np.dot(a, b)] on 2-D arrays. *)
Definition np_dot (a b : arr) : result arr :=
  if ncol a =? nrow b then
    Ok (tabulate (nrow a) (ncol b) (fun i j =>
          fsum (map (fun k => fmul (aget a i k) (aget b k j)) (seq 0 (ncol a)))))
  else Raise (ValueError "shapes not aligned").

(** Structural equality of arrays, used for value comparison of
    distributions. *)
Fixpoint list_feqb (l l' : list F) : bool :=
  match l, l' with
  | [], [] => true
  | x :: t, y :: t' => feqb x y && list_feqb t t'
  | _, _ => false
  end.

Definition arr_eqb (a b : arr) : bool :=
  (nrow a =? nrow b) && (ncol a =? ncol b) && list_feqb (data a) (data b).

(** *** Matrix algebra of the specification

    The textbook operations, defined entry by entry on conformable
    arguments; the numpy operators above are compared with them. *)

Definition mat_add (a b : arr) : arr :=
  tabulate (nrow a) (ncol a) (fun i j => fadd (aget a i j) (aget b i j)).

Definition mat_sub (a b : arr) : arr :=
  tabulate (nrow a) (ncol a) (fun i j => fsub (aget a i j) (aget b i j)).

Definition mat_rscale (a : arr) (x : F) : arr :=
  tabulate (nrow a) (ncol a) (fun i j => fmul (aget a i j) x).

Definition mat_lscale (x : F) (a : arr) : arr :=
  tabulate (nrow a) (ncol a) (fun i j => fmul x (aget a i j)).

Definition mat_mul (a b : arr) : arr :=
  tabulate (nrow a) (ncol b) (fun i j =>
    fsum (map (fun k => fmul (aget a i k) (aget b k j)) (seq 0 (ncol a)))).

Definition mat_T (a : arr) : arr :=
  tabulate (ncol a) (nrow a) (fun i j => aget a j i).

Definition mat_I (n : nat) : arr :=
  tabulate n n (fun i j => if i =? j then f1 else f0).

End Numpy.

(** ** Linear-algebra oracles

    [scipy.linalg.expm], [numpy.linalg.inv], [numpy.linalg.cholesky]: the
    entries they compute are left to an oracle; the shape discipline (a
    square argument, a result of the same shape) is the libraries'. *)

Class LinAlg {SC : Scalar} : Type := {
  expm_entries : arr -> result (nat -> nat -> F);
  inv_entries : arr -> result (nat -> nat -> F);
  cholesky_entries : arr -> result (nat -> nat -> F)
}.

Section LinAlgCalls.
Context {SC : Scalar} {LA : LinAlg}.

Definition square_call (e : exn) (oracle : arr -> result (nat -> nat -> F))
  (a : arr) : result arr :=
  if nrow a =? ncol a then
    f <~ oracle a ;; Ok (tabulate (nrow a) (ncol a) f)
  else Raise e.

Definition la_expm : arr -> result arr :=
  square_call (ValueError "expected a square matrix") expm_entries.

Definition np_linalg_inv : arr -> result arr :=
  square_call (LinAlgError "Last 2 dimensions of the array must be square") inv_entries.

Definition np_linalg_cholesky : arr -> result arr :=
  square_call (LinAlgError "Last 2 dimensions of the array must be square") cholesky_entries.

End LinAlgCalls.

(** ** thalesians.tsa.numpyutils *)

Module npu.
Section Npu.
Context {SC : Scalar}.

(** What a caller may pass where an array is expected: a number, a 1-D
    sequence, or a 2-D array. *)
Inductive array_like : Type :=
| AScalar (x : F)
| AVec (l : list F)
| AMat (a : arr).

(** Modelled from the spec: [npu.to_ndim_2] is missing from the sources;
    the spec describes it as the shape coercion between 1-D and
    column-vector forms.  A number becomes a 1x1 array, a 1-D sequence a
    column (or a row when [ndim_1_to_col] is false), a 2-D array is kept. *)
Definition to_ndim_2 (x : array_like) (ndim_1_to_col : bool) : arr :=
  match x with
  | AScalar v => mk_ndarray 1 1 [v]
  | AVec l => if ndim_1_to_col then mk_ndarray (List.length l) 1 l
              else mk_ndarray 1 (List.length l) l
  | AMat a => a
  end.

(** Modelled from the spec: the zero builder [npu.col_of(n, 0.)]. *)
Definition col_of (n : nat) (v : F) : arr := tabulate n 1 (fun _ _ => v).

(** [np.kron]. *)
Definition kron (a b : arr) : arr :=
  tabulate (nrow a * nrow b) (ncol a * ncol b) (fun i j =>
    fmul (aget a (i / nrow b) (j / ncol b)) (aget b (i mod nrow b) (j mod ncol b))).

(** Modelled from the spec: [npu.kron_sum] is missing from the sources; the
    spec defines the Kronecker sum of A and B as A (x) I + I (x) B. *)
Definition kron_sum (a b : arr) : result arr :=
  np_add (kron a (np_eye (nrow b))) (kron (np_eye (nrow a)) b).

(** Modelled from the spec: [npu.vec] is missing from the sources; the
    vectorisation of a matrix stacks its columns into one column. *)
Definition vec (a : arr) : arr :=
  tabulate (size a) 1 (fun k _ => aget a (k mod nrow a) (k / nrow a)).

(** Modelled from the spec: [npu.unvec] is missing from the sources; it
    undoes [vec] for a matrix of [n] rows. *)
Definition unvec (v : arr) (n : nat) : arr :=
  tabulate n (size v / n) (fun i j => aget v (j * n + i) 0).

End Npu.
End npu.

(** ** thalesians.tsa.numpychecks *)

Module npc.
Section Npc.
Context {SC : Scalar}.

(** Modelled from the spec: the validation helpers are missing from the
    sources; they are shape assertions that fail with a descriptive error
    on violation (the spec's ConfigurationError). *)
Definition check_col (a : arr) : result unit :=
  if ncol a =? 1 then Ok tt else Raise (ConfigurationError "not a column").

Definition check_nrow (a : arr) (n : nat) : result unit :=
  if nrow a =? n then Ok tt else Raise (ConfigurationError "unexpected number of rows").

Definition check_square (a : arr) : result unit :=
  if nrow a =? ncol a then Ok tt else Raise (ConfigurationError "not a square matrix").

End Npc.
End npc.

(** ** thalesians.tsa.distrs *)

Module distrs.
Section Distrs.
Context {SC : Scalar}.

(** Modelled from the spec: the distribution type is missing from the
    sources; it is a value exposing [mean] and [cov], with structural
    equality, a Gaussian constructor and a Dirac-delta constructor. *)
Record NormalDistr : Type := mkNormalDistr {
  mean : arr;
  cov : arr
}.

Definition eqb (d d' : NormalDistr) : bool :=
  arr_eqb (mean d) (mean d') && arr_eqb (cov d) (cov d').

Definition create_dirac_delta (value : arr) : NormalDistr :=
  mkNormalDistr value (tabulate (nrow value) (nrow value) (fun _ _ => f0)).

End Distrs.
End distrs.

(** ** Times and elapsed time

    A time coordinate is a number or a [datetime] (microseconds since the
    epoch); a difference of times is a number or a [timedelta]
    (microseconds). *)

Section Time.
Context {SC : Scalar}.

Inductive pytime : Type :=
| TNum (x : F)
| TDate (us : Z).

Inductive pydelta : Type :=
| DNum (x : F)
| DDelta (us : Z).

(** [time == time0]. *)
Definition time_eqb (t t' : pytime) : bool :=
  match t, t' with
  | TNum x, TNum y => feqb x y
  | TDate a, TDate b => Z.eqb a b
  | _, _ => false
  end.

(** [delta == delta']. *)
Definition delta_eqb (d d' : pydelta) : bool :=
  match d, d' with
  | DNum x, DNum y => feqb x y
  | DDelta a, DDelta b => Z.eqb a b
  | _, _ => false
  end.

(** [time - time0]. *)
Definition time_sub (t t' : pytime) : result pydelta :=
  match t, t' with
  | TNum x, TNum y => Ok (DNum (fsub x y))
  | TDate a, TDate b => Ok (DDelta (a - b)%Z)
  | _, _ => Raise (TypeError "unsupported operand type(s) for -")
  end.

(** [timedelta.total_seconds()]. *)
Definition total_seconds (us : Z) : F := fdiv (of_Z us) (of_Z 1000000).

(** [x / y] on Python floats. *)
Definition py_truediv (x y : F) : result F :=
  if feqb y f0 then Raise (ZeroDivisionError "float division by zero")
  else Ok (fdiv x y).

(** [cached is None or cached != x]. *)
Definition none_or_ne {A} (eqb : A -> A -> bool) (cached : option A) (x : A) : bool :=
  match cached with
  | None => true
  | Some y => negb (eqb y x)
  end.

(** [dt.timedelta(days=1)], in microseconds. *)
Definition one_day : Z := 86400000000%Z.

End Time.

(** ** class SolvedItoProcess(ItoProcess) *)

Module SolvedItoProcess.
Section SolvedItoProcess.
Context {SC : Scalar}.

(** [ItoProcess.__init__]: the dimensions of the process and of its noise;
    [noise_dim] defaults to [process_dim]. *)
Record t : Type := mk {
  _process_dim : nat;
  _noise_dim : nat
}.

Definition __init__ (process_dim : nat) (noise_dim : option nat) : t :=
  mk process_dim (match noise_dim with None => process_dim | Some n => n end).

(** The abstract [propagate]. *)
Definition propagate (self : t) (time : pytime) (variate : npu.array_like)
  (time0 : pytime) (value0 : npu.array_like) : result arr :=
  Raise (NotImplementedError "").

End SolvedItoProcess.
End SolvedItoProcess.

(** ** class MarkovProcess(Process) *)

Module MarkovProcess.
Section MarkovProcess.
Context {SC : Scalar}.

(** The fields set once by [__init__]. *)
Record t : Type := mk {
  _process_dim : nat;
  _time_unit : Z
}.

(** The mutable fields of an instance: the single-slot cache, and the state
    [ext] that a subclass adds.  [impl_calls] is not a field of the Python
    object: it records, in order, the arguments of every call that
    [propagate_distr] makes to [_propagate_distr_impl], so that
    "recomputation" can be observed. *)
Record state (X : Type) : Type := mk_state {
  _cached_time : option pytime;
  _cached_time0 : option pytime;
  _cached_distr0 : option distrs.NormalDistr;
  _cached_distr : option distrs.NormalDistr;
  impl_calls : list (F * distrs.NormalDistr);
  ext : X
}.

(** [time_unit] defaults to [dt.timedelta(days=1)]. *)
Definition __init__ (process_dim : nat) (time_unit : option Z) : t :=
  mk process_dim (match time_unit with Some u => u | None => one_day end).

(** The cache after [__init__]. *)
Definition fresh {X} (x : X) : state X :=
  mk_state None None None None [] x.

Definition set_cached_time {X} (v : option pytime) (s : state X) : state X :=
  mk_state v (_cached_time0 s) (_cached_distr0 s) (_cached_distr s) (impl_calls s) (ext s).

Definition set_cached_time0 {X} (v : option pytime) (s : state X) : state X :=
  mk_state (_cached_time s) v (_cached_distr0 s) (_cached_distr s) (impl_calls s) (ext s).

Definition set_cached_distr0 {X} (v : option distrs.NormalDistr) (s : state X) : state X :=
  mk_state (_cached_time s) (_cached_time0 s) v (_cached_distr s) (impl_calls s) (ext s).

Definition set_cached_distr {X} (v : option distrs.NormalDistr) (s : state X) : state X :=
  mk_state (_cached_time s) (_cached_time0 s) (_cached_distr0 s) v (impl_calls s) (ext s).

Definition record_call {X} (c : F * distrs.NormalDistr) (s : state X) : state X :=
  mk_state (_cached_time s) (_cached_time0 s) (_cached_distr0 s) (_cached_distr s)
           (impl_calls s ++ [c]) (ext s).

(** A method of the subclass runs on the subclass's own fields. *)
Definition on_ext {X A} (c : M X A) : M (state X) A :=
  fun s =>
    let (r, x') := c (ext s) in
    (r, mk_state (_cached_time s) (_cached_time0 s) (_cached_distr0 s)
                 (_cached_distr s) (impl_calls s) x').

(** The abstract [_propagate_distr_impl]. *)
Definition _propagate_distr_impl {X} (time_delta : F) (distr0 : distrs.NormalDistr)
  : M X distrs.NormalDistr :=
  raise (NotImplementedError "").

(** Lines 70-72: the elapsed step. *)
Definition elapsed_step (self : t) (time time0 : pytime) : result F :=
  time_delta <~ time_sub time time0 ;;
  match time_delta with
  | DDelta us => py_truediv (total_seconds us) (total_seconds (_time_unit self))
  | DNum x => Ok x
  end.

(** The test of line 69. *)
Definition cache_miss {X} (s : state X) (time time0 : pytime)
  (distr0 : distrs.NormalDistr) : bool :=
  none_or_ne time_eqb (_cached_time s) time
  || none_or_ne time_eqb (_cached_time0 s) time0
  || none_or_ne distrs.eqb (_cached_distr0 s) distr0.

(** [propagate_distr]; [impl] is the [_propagate_distr_impl] that the
    class of [self] resolves to.  The value returned is the content of
    [self._cached_distr], [None] included. *)
Definition propagate_distr {X} (self : t)
  (impl : F -> distrs.NormalDistr -> M X distrs.NormalDistr)
  (time time0 : pytime) (distr0 : distrs.NormalDistr)
  : M (state X) (option distrs.NormalDistr) :=
  if time_eqb time time0 then ret (Some distr0)
  else
    s <- get_state ;;
    (if cache_miss s time time0 distr0 then
       time_delta <- lift (elapsed_step self time time0) ;;
       modify (record_call (time_delta, distr0)) ;;;
       d <- on_ext (impl time_delta distr0) ;;
       modify (set_cached_distr (Some d)) ;;;
       modify (set_cached_time (Some time)) ;;;
       modify (set_cached_time0 (Some time0)) ;;;
       modify (set_cached_distr0 (Some distr0))
     else ret tt) ;;;
    s' <- get_state ;;
    ret (_cached_distr s').

End MarkovProcess.
End MarkovProcess.

(** ** class SolvedItoMarkovProcess(MarkovProcess, SolvedItoProcess) *)

Module SolvedItoMarkovProcess.
Section SolvedItoMarkovProcess.
Context {SC : Scalar} {LA : LinAlg}.

Record t : Type := mk {
  markov : MarkovProcess.t;
  ito : SolvedItoProcess.t
}.

Definition process_dim (self : t) : nat := SolvedItoProcess._process_dim (ito self).

Definition noise_dim (self : t) : nat := SolvedItoProcess._noise_dim (ito self).

(** The keyword arguments go up the chain of constructors: [time_unit] to
    [MarkovProcess.__init__], the dimensions to [ItoProcess.__init__]. *)
Definition __init__ (process_dim : nat) (noise_dim : option nat)
  (time_unit : option Z) : t :=
  mk (MarkovProcess.__init__ process_dim time_unit)
     (SolvedItoProcess.__init__ process_dim noise_dim).

Definition not_implemented_msg : string :=
  "Cannot utilise the propagate_distr of the Markov process in propagate if noise_dim != process_dim; provide a custom implementation".

(** The generic [propagate], built on [propagate_distr]. *)
Definition propagate {X} (self : t)
  (impl : F -> distrs.NormalDistr -> M X distrs.NormalDistr)
  (time : pytime) (variate : npu.array_like) (time0 : pytime)
  (value0 : npu.array_like) : M (MarkovProcess.state X) arr :=
  if negb (noise_dim self =? process_dim self) then
    raise (NotImplementedError not_implemented_msg)
  else if time_eqb time time0 then ret (npu.to_ndim_2 value0 true)
  else
    let value0 := npu.to_ndim_2 value0 true in
    let variate := npu.to_ndim_2 variate true in
    distr <- MarkovProcess.propagate_distr (markov self) impl time time0
               (distrs.create_dirac_delta value0) ;;
    match distr with
    | None => raise (AttributeError "'NoneType' object has no attribute 'mean'")
    | Some d =>
        l <- lift (np_linalg_cholesky (distrs.cov d)) ;;
        x <- lift (np_dot l variate) ;;
        lift (np_add (distrs.mean d) x)
    end.

End SolvedItoMarkovProcess.
End SolvedItoMarkovProcess.

(** ** Truth values of comparisons

    [a == b] on arrays is an array of booleans; [x and y] returns [x] when
    [bool(x)] is false and [y] otherwise, so [__eq__] may return either a
    Python [bool] or an array. *)

Inductive pytruth : Type :=
| PyBool (b : bool)
| PyBoolArr (a : ndarray bool).

Definition truth (v : pytruth) : result bool :=
  match v with
  | PyBool b => Ok b
  | PyBoolArr a => np_bool a
  end.

(** ** class WienerProcess(SolvedItoMarkovProcess) *)

Module WienerProcess.
Section WienerProcess.
Context {SC : Scalar}.

Record t : Type := mk {
  base : SolvedItoMarkovProcess.t;
  _mean : arr;
  _vol : arr;
  _cov : arr
}.

Definition process_dim (self : t) : nat := SolvedItoMarkovProcess.process_dim (base self).

Definition noise_dim (self : t) : nat := SolvedItoMarkovProcess.noise_dim (base self).

Definition __init__ (mean vol : option npu.array_like) : result t :=
  let '(mean, vol) :=
    match mean, vol with
    | None, None => (Some (npu.AScalar f0), Some (npu.AScalar f1))
    | _, _ => (mean, vol)
    end in
  let mean2 := option_map (fun m => npu.to_ndim_2 m true) mean in
  let vol2 := option_map (fun v => npu.to_ndim_2 v true) vol in
  process_dim <~
    match vol2, mean2 with
    | Some v, _ => Ok (nrow v)
    | None, Some m => Ok (nrow m)
    | None, None => Raise (TypeError "process_dim referenced before assignment")
    end ;;
  let mean2 := match mean2 with Some m => m | None => npu.col_of process_dim f0 end in
  let vol2 := match vol2 with Some v => v | None => np_eye process_dim end in
  _ <~ npc.check_col mean2 ;;
  _ <~ npc.check_nrow mean2 process_dim ;;
  _ <~ npc.check_nrow vol2 process_dim ;;
  let noise_dim := ncol vol2 in
  cov2 <~ np_dot vol2 (np_T vol2) ;;
  Ok (mk (SolvedItoMarkovProcess.__init__ process_dim (Some noise_dim) None) mean2 vol2 cov2).

(** The closures that [__init__] hands to [ItoProcess]:
    [drift=lambda t, x: self._mean], [diffusion=lambda t, x: self._vol]. *)
Definition drift (self : t) (t0 : pytime) (x : arr) : arr := _mean self.

Definition diffusion (self : t) (t0 : pytime) (x : arr) : arr := _vol self.

Definition propagate (self : t) (time : pytime) (variate : npu.array_like)
  (time0 : pytime) (value0 : npu.array_like) : result arr :=
  if time_eqb time time0 then Ok (npu.to_ndim_2 value0 true)
  else
    let value0 := npu.to_ndim_2 value0 true in
    let variate := npu.to_ndim_2 variate true in
    time_delta <~ time_sub time time0 ;;
    match time_delta with
    | DNum dt =>
        a <~ np_add value0 (np_mul_scalar (_mean self) dt) ;;
        b <~ np_dot (_vol self) (np_scalar_mul (fsqrt dt) variate) ;;
        np_add a b
    | DDelta _ =>
        (* an array of floats and a timedelta do not add up *)
        Raise (TypeError "unsupported operand type(s) for +: 'float' and 'datetime.timedelta'")
    end.

Definition _propagate_distr_impl (self : t) (time_delta : F)
  (distr0 : distrs.NormalDistr) : result distrs.NormalDistr :=
  mean <~ np_add (distrs.mean distr0) (np_mul_scalar (_mean self) time_delta) ;;
  cov <~ np_add (distrs.cov distr0) (np_scalar_mul time_delta (_cov self)) ;;
  Ok (distrs.mkNormalDistr mean cov).

(** [propagate_distr], inherited from [MarkovProcess]. *)
Definition propagate_distr (self : t) (time time0 : pytime)
  (distr0 : distrs.NormalDistr) : M (MarkovProcess.state unit) (option distrs.NormalDistr) :=
  MarkovProcess.propagate_distr (SolvedItoMarkovProcess.markov (base self))
    (fun time_delta d => lift (_propagate_distr_impl self time_delta d))
    time time0 distr0.

(** [other] is [Some q] when [isinstance(other, self.__class__)] holds. *)
Definition __eq__ (self : t) (other : option t) : result pytruth :=
  match other with
  | Some other =>
      m <~ np_eq (_mean self) (_mean other) ;;
      b <~ np_bool m ;;
      if b then
        v <~ np_eq (_vol self) (_vol other) ;; Ok (PyBoolArr v)
      else Ok (PyBoolArr m)
  | None => Ok (PyBool false)
  end.

Definition __ne__ (self : t) (other : option t) : result bool :=
  r <~ __eq__ self other ;;
  b <~ truth r ;;
  Ok (negb b).

End WienerProcess.
End WienerProcess.

(** ** class OrnsteinUhlenbeckProcess(SolvedItoMarkovProcess) *)

Module OrnsteinUhlenbeckProcess.
Section OrnsteinUhlenbeckProcess.
Context {SC : Scalar} {LA : LinAlg}.

Record t : Type := mk {
  base : SolvedItoMarkovProcess.t;
  _transition : arr;
  _mean : arr;
  _vol : arr;
  _transition_x_2 : arr;
  _transition_x_2_inverse : arr;
  _cov : arr;
  _cov_vec : arr
}.

(** The two single-slot memos of an instance. *)
Record caches : Type := mk_caches {
  _cached_mean_reversion_factor : option arr;
  _cached_mean_reversion_factor_time_delta : option pydelta;
  _cached_mean_reversion_factor_squared : option arr;
  _cached_mean_reversion_factor_squared_time_delta : option pydelta
}.

Definition fresh : caches := mk_caches None None None None.

Definition set_mrf (v : option arr) (s : caches) : caches :=
  mk_caches v (_cached_mean_reversion_factor_time_delta s)
            (_cached_mean_reversion_factor_squared s)
            (_cached_mean_reversion_factor_squared_time_delta s).

Definition set_mrf_time_delta (v : option pydelta) (s : caches) : caches :=
  mk_caches (_cached_mean_reversion_factor s) v
            (_cached_mean_reversion_factor_squared s)
            (_cached_mean_reversion_factor_squared_time_delta s).

Definition set_mrfsq (v : option arr) (s : caches) : caches :=
  mk_caches (_cached_mean_reversion_factor s)
            (_cached_mean_reversion_factor_time_delta s) v
            (_cached_mean_reversion_factor_squared_time_delta s).

Definition set_mrfsq_time_delta (v : option pydelta) (s : caches) : caches :=
  mk_caches (_cached_mean_reversion_factor s)
            (_cached_mean_reversion_factor_time_delta s)
            (_cached_mean_reversion_factor_squared s) v.

Definition process_dim (self : t) : nat := SolvedItoMarkovProcess.process_dim (base self).

Definition noise_dim (self : t) : nat := SolvedItoMarkovProcess.noise_dim (base self).

Definition __init__ (transition mean vol : option npu.array_like) : result t :=
  let '(transition, mean, vol) :=
    match transition, mean, vol with
    | None, None, None =>
        (Some (npu.AScalar f1), Some (npu.AScalar f0), Some (npu.AScalar f1))
    | _, _, _ => (transition, mean, vol)
    end in
  let transition2 := option_map (fun x => npu.to_ndim_2 x true) transition in
  let mean2 := option_map (fun x => npu.to_ndim_2 x true) mean in
  let vol2 := option_map (fun x => npu.to_ndim_2 x true) vol in
  process_dim <~
    match vol2, mean2, transition2 with
    | Some v, _, _ => Ok (nrow v)
    | None, Some m, _ => Ok (nrow m)
    | None, None, Some a => Ok (nrow a)
    | None, None, None => Raise (TypeError "process_dim referenced before assignment")
    end ;;
  let transition2 := match transition2 with Some a => a | None => np_eye process_dim end in
  let mean2 := match mean2 with Some m => m | None => npu.col_of process_dim f0 end in
  let vol2 := match vol2 with Some v => v | None => np_eye process_dim end in
  _ <~ npc.check_square transition2 ;;
  _ <~ npc.check_nrow transition2 process_dim ;;
  _ <~ npc.check_col mean2 ;;
  _ <~ npc.check_nrow mean2 process_dim ;;
  _ <~ npc.check_nrow vol2 process_dim ;;
  let noise_dim := ncol vol2 in
  transition_x_2 <~ npu.kron_sum transition2 transition2 ;;
  transition_x_2_inverse <~ np_linalg_inv transition_x_2 ;;
  cov2 <~ np_dot vol2 (np_T vol2) ;;
  let cov_vec := npu.vec cov2 in
  Ok (mk (SolvedItoMarkovProcess.__init__ process_dim (Some noise_dim) None)
         transition2 mean2 vol2 transition_x_2 transition_x_2_inverse cov2 cov_vec).

(** [la.expm(a * (-time_delta))].  With a timedelta the product is an array
    of Python objects, which the matrix exponential rejects. *)
Definition expm_neg_scaled (a : arr) (time_delta : pydelta) : result arr :=
  match time_delta with
  | DNum dt => la_expm (np_mul_scalar a (fneg dt))
  | DDelta _ => Raise (TypeError "expm: unsupported array of objects")
  end.

Definition mean_reversion_factor (self : t) (time_delta : pydelta)
  : M caches (option arr) :=
  s <- get_state ;;
  (if none_or_ne delta_eqb (_cached_mean_reversion_factor_time_delta s) time_delta then
     modify (set_mrf_time_delta (Some time_delta)) ;;;
     m <- lift (expm_neg_scaled (_transition self) time_delta) ;;
     modify (set_mrf (Some m))
   else ret tt) ;;;
  s' <- get_state ;;
  ret (_cached_mean_reversion_factor s').

Definition mean_reversion_factor_squared (self : t) (time_delta : pydelta)
  : M caches (option arr) :=
  s <- get_state ;;
  (if none_or_ne delta_eqb (_cached_mean_reversion_factor_squared_time_delta s) time_delta then
     modify (set_mrfsq_time_delta (Some time_delta)) ;;;
     m <- lift (expm_neg_scaled (_transition_x_2 self) time_delta) ;;
     modify (set_mrfsq (Some m))
   else ret tt) ;;;
  s' <- get_state ;;
  ret (_cached_mean_reversion_factor_squared s').

(** What [np.eye(n) - x] raises when the memo returned [None] for [x]. *)
Definition none_operand : exn :=
  TypeError "unsupported operand type(s) for -: 'float' and 'NoneType'".

Definition noise_covariance (self : t) (time_delta : pydelta) : M caches arr :=
  mrfsquared <- mean_reversion_factor_squared self time_delta ;;
  match mrfsquared with
  | None => raise none_operand
  | Some mrfsquared =>
      eyeminusmrfsquared <- lift (np_sub (np_eye (process_dim self)) mrfsquared) ;;
      lift (x <~ np_dot (_transition_x_2_inverse self) eyeminusmrfsquared ;;
            y <~ np_dot x (_cov_vec self) ;;
            Ok (npu.unvec y (process_dim self)))
  end.

(** The closures that [__init__] hands to [ItoProcess]:
    [drift=lambda t, x: -np.dot(self._transition, x - self._mean)],
    [diffusion=lambda t, x: self._vol]. *)
Definition drift (self : t) (t0 : pytime) (x : arr) : result arr :=
  r <~ np_sub x (_mean self) ;;
  d <~ np_dot (_transition self) r ;;
  Ok (np_neg d).

Definition diffusion (self : t) (t0 : pytime) (x : arr) : arr := _vol self.

Definition propagate (self : t) (time : pytime) (variate : npu.array_like)
  (time0 : pytime) (value0 : npu.array_like) : M caches arr :=
  if time_eqb time time0 then ret (npu.to_ndim_2 value0 true)
  else
    let value0 := npu.to_ndim_2 value0 true in
    let variate := npu.to_ndim_2 variate true in
    time_delta <- lift (time_sub time time0) ;;
    mrf <- mean_reversion_factor self time_delta ;;
    match mrf with
    | None => raise none_operand
    | Some mrf =>
        eyeminusmrf <- lift (np_sub (np_eye (process_dim self)) mrf) ;;
        m <- lift (a <~ np_dot mrf value0 ;;
                   b <~ np_dot eyeminusmrf (_mean self) ;;
                   np_add a b) ;;
        c <- noise_covariance self time_delta ;;
        lift (l <~ np_linalg_cholesky c ;;
              x <~ np_dot l variate ;;
              np_add m x)
    end.

Definition _propagate_distr_impl (self : t) (time_delta : F)
  (distr0 : distrs.NormalDistr) : M caches distrs.NormalDistr :=
  let value0 := distrs.mean distr0 in
  mrf <- mean_reversion_factor self (DNum time_delta) ;;
  match mrf with
  | None => raise none_operand
  | Some mrf =>
      eyeminusmrf <- lift (np_sub (np_eye (process_dim self)) mrf) ;;
      m <- lift (a <~ np_dot mrf value0 ;;
                 b <~ np_dot eyeminusmrf (_mean self) ;;
                 np_add a b) ;;
      c1 <- lift (x <~ np_dot mrf (distrs.cov distr0) ;; np_dot x (np_T mrf)) ;;
      c2 <- noise_covariance self (DNum time_delta) ;;
      c <- lift (np_add c1 c2) ;;
      ret (distrs.mkNormalDistr m c)
  end.

(** [propagate_distr], inherited from [MarkovProcess]. *)
Definition propagate_distr (self : t) (time time0 : pytime)
  (distr0 : distrs.NormalDistr)
  : M (MarkovProcess.state caches) (option distrs.NormalDistr) :=
  MarkovProcess.propagate_distr (SolvedItoMarkovProcess.markov (base self))
    (_propagate_distr_impl self) time time0 distr0.

(** [other] is [Some q] when [isinstance(other, self.__class__)] holds. *)
Definition __eq__ (self : t) (other : option t) : result pytruth :=
  match other with
  | Some other =>
      m <~ np_eq (_mean self) (_mean other) ;;
      b <~ np_bool m ;;
      if b then
        v <~ np_eq (_vol self) (_vol other) ;; Ok (PyBoolArr v)
      else Ok (PyBoolArr m)
  | None => Ok (PyBool false)
  end.

Definition __ne__ (self : t) (other : option t) : result bool :=
  r <~ __eq__ self other ;;
  b <~ truth r ;;
  Ok (negb b).

End OrnsteinUhlenbeckProcess.
End OrnsteinUhlenbeckProcess.

(** ** Two interpretations of the scalars

    [Rational]: exact rationals kept in lowest terms, on which the model
    runs by computation.  [Real]: the real numbers, for statements that
    involve [exp] and [ln]. *)

Module Rational.
Import QArith Qreduction.

Definition Qeqb_struct (x y : Q) : bool :=
  Z.eqb (Qnum x) (Qnum y) && Pos.eqb (Qden x) (Qden y).

Lemma Qeqb_struct_eq (x y : Q) : Qeqb_struct x y = true <-> x = y.
Proof.
  destruct x as [a b], y as [c d]; unfold Qeqb_struct; simpl.
  rewrite andb_true_iff, Z.eqb_eq, Pos.eqb_eq.
  split; [intros [-> ->]; reflexivity | intros [= -> ->]; auto].
Qed.

(** The root of numerator and denominator, exact on squares of rationals. *)
Definition Qsqrt_floor (x : Q) : Q := Qred (Z.sqrt (Qnum x) # Pos.sqrt (Qden x)).

Definition QScalar : Scalar := {|
  F := Q;
  f0 := 0%Q;
  f1 := 1%Q;
  fadd := fun x y => Qred (x + y);
  fsub := fun x y => Qred (x - y);
  fmul := fun x y => Qred (x * y);
  fdiv := fun x y => Qred (x / y);
  fneg := fun x => Qred (- x);
  fsqrt := Qsqrt_floor;
  of_Z := inject_Z;
  feqb := Qeqb_struct;
  feqb_eq := Qeqb_struct_eq
|}.

Local Open Scope nat_scope.

Definition is_diagonal (a : ndarray Q) : bool :=
  forallb (fun k => (k / ncol a =? k mod ncol a) || Qeqb_struct (nth k (data a) 0%Q) 0%Q)
          (seq 0 (size a)).

Definition diagonal_nonzero (a : ndarray Q) : bool :=
  forallb (fun i => negb (Qeqb_struct (get 0%Q a i i) 0%Q)) (seq 0 (nrow a)).

Definition is_zero (a : ndarray Q) : bool :=
  forallb (fun x => Qeqb_struct x 0%Q) (data a).

(** A linear-algebra oracle over the rationals: the inverse and the
    Cholesky factor of a diagonal matrix, the exponential of a zero matrix
    (the only one with rational entries); every other argument is
    rejected. *)
Definition Qexpm_entries (a : ndarray Q) : result (nat -> nat -> Q) :=
  if is_zero a then Ok (fun i j => if i =? j then 1%Q else 0%Q)
  else Raise (ValueError "expm: result not representable").

Definition Qinv_entries (a : ndarray Q) : result (nat -> nat -> Q) :=
  if is_diagonal a then
    if diagonal_nonzero a then
      Ok (fun i j => if i =? j then Qred (1 / get 0%Q a i i) else 0%Q)
    else Raise (LinAlgError "Singular matrix")
  else Raise (LinAlgError "inv: not a diagonal matrix").

Definition Qcholesky_entries (a : ndarray Q) : result (nat -> nat -> Q) :=
  if is_diagonal a then
    Ok (fun i j => if i =? j then Qsqrt_floor (get 0%Q a i i) else 0%Q)
  else Raise (LinAlgError "cholesky: not a diagonal matrix").

Definition QLinAlg : @LinAlg QScalar :=
  @Build_LinAlg QScalar Qexpm_entries Qinv_entries Qcholesky_entries.

End Rational.

Module Real.
Import Reals.

Definition Reqb (x y : R) : bool := if Req_dec_T x y then true else false.

Lemma Reqb_eq (x y : R) : Reqb x y = true <-> x = y.
Proof.
  unfold Reqb; destruct (Req_dec_T x y); split; intros; auto; discriminate.
Qed.

Definition RScalar : Scalar := {|
  F := R;
  f0 := 0%R;
  f1 := 1%R;
  fadd := Rplus;
  fsub := Rminus;
  fmul := Rmult;
  fdiv := Rdiv;
  fneg := Ropp;
  fsqrt := sqrt;
  of_Z := IZR;
  feqb := Reqb;
  feqb_eq := Reqb_eq
|}.

Definition is_1x1 (a : ndarray R) : bool := (nrow a =? 1) && (ncol a =? 1).

Definition one_by_one_only : exn := NotImplementedError "oracle: 1x1 matrices only".

(** A linear-algebra oracle over the reals, exact on 1x1 matrices: there
    the exponential, the inverse and the Cholesky factor are the scalar
    exponential, reciprocal and square root. *)
Definition Rexpm_entries (a : ndarray R) : result (nat -> nat -> R) :=
  if is_1x1 a then Ok (fun _ _ => exp (get 0%R a 0 0))
  else Raise one_by_one_only.

Definition Rinv_entries (a : ndarray R) : result (nat -> nat -> R) :=
  if is_1x1 a then
    if Reqb (get 0%R a 0 0) 0%R then Raise (LinAlgError "Singular matrix")
    else Ok (fun _ _ => (/ get 0%R a 0 0)%R)
  else Raise one_by_one_only.

Definition Rcholesky_entries (a : ndarray R) : result (nat -> nat -> R) :=
  if is_1x1 a then
    if Rlt_dec 0%R (get 0%R a 0 0) then Ok (fun _ _ => sqrt (get 0%R a 0 0))
    else Raise (LinAlgError "Matrix is not positive definite")
  else Raise one_by_one_only.

Definition RLinAlg : @LinAlg RScalar :=
  @Build_LinAlg RScalar Rexpm_entries Rinv_entries Rcholesky_entries.

End Real.

(** * Verification *)

Unset Implicit Arguments.
Local Close Scope string_scope.

(** ** Arrays *)

Section ArrayFacts.
Context {A : Type}.

Lemma tabulate_wf (r c : nat) (f : nat -> nat -> A) : wf (tabulate r c f).
Proof.
  unfold wf, size, tabulate; simpl.
  now rewrite length_map, length_seq.
Qed.

Lemma tabulate_has_shape (r c : nat) (f : nat -> nat -> A) :
  has_shape (tabulate r c f) r c.
Proof. repeat split; apply tabulate_wf. Qed.

Lemma flat_index (c i j : nat) : j < c -> (i * c + j) / c = i /\ (i * c + j) mod c = j.
Proof.
  intros Hj. split.
  - rewrite Nat.div_add_l by lia. rewrite Nat.div_small by assumption. lia.
  - rewrite Nat.add_comm, Nat.Div0.mod_add. now apply Nat.mod_small.
Qed.

Lemma get_tabulate (d : A) (r c : nat) (f : nat -> nat -> A) (i j : nat) :
  i < r -> j < c -> get d (tabulate r c f) i j = f i j.
Proof.
  intros Hi Hj. unfold get, tabulate; simpl.
  assert (Hk : i * c + j < r * c) by nia.
  rewrite nth_indep with (d' := (fun k => f (k / c) (k mod c)) 0)
    by now rewrite length_map, length_seq.
  rewrite (map_nth (fun k => f (k / c) (k mod c)) (seq 0 (r * c)) 0 (i * c + j)).
  rewrite seq_nth by assumption. simpl.
  destruct (flat_index c i j Hj) as [-> ->]. reflexivity.
Qed.

Lemma tabulate_ext (r c : nat) (f g : nat -> nat -> A) :
  (forall i j, i < r -> j < c -> f i j = g i j) -> tabulate r c f = tabulate r c g.
Proof.
  intros H. unfold tabulate. f_equal.
  apply map_ext_in. intros k Hk. apply in_seq in Hk.
  destruct c as [|c]; [lia|].
  apply H.
  - apply Nat.Div0.div_lt_upper_bound. lia.
  - apply Nat.mod_upper_bound. lia.
Qed.

(** A well-formed array is the table of its entries. *)
Lemma tabulate_get (d : A) (a : ndarray A) :
  wf a -> a = tabulate (nrow a) (ncol a) (get d a).
Proof.
  destruct a as [r c l]; unfold wf, size, tabulate, get; simpl. intros Hl.
  f_equal.
  apply nth_ext with (d := d) (d' := (fun k => nth (k / c * c + k mod c) l d) 0).
  - now rewrite length_map, length_seq.
  - intros k Hk. rewrite Hl in Hk.
    rewrite (map_nth (fun k => nth (k / c * c + k mod c) l d) (seq 0 (r * c)) 0 k).
    rewrite seq_nth by assumption. simpl.
    f_equal. rewrite (Nat.div_mod_eq k c) at 1. lia.
Qed.

End ArrayFacts.

Lemma amap_tabulate {A B} (d : A) (f : A -> B) (a : ndarray A) :
  wf a -> amap f a = tabulate (nrow a) (ncol a) (fun i j => f (get d a i j)).
Proof.
  intros Hwf. rewrite (tabulate_get d a Hwf) at 1.
  unfold amap, tabulate; simpl. now rewrite map_map.
Qed.

Lemma amap_has_shape {A B} (f : A -> B) (a : ndarray A) (r c : nat) :
  has_shape a r c -> has_shape (amap f a) r c.
Proof.
  intros (Hr & Hc & Hwf). repeat split; auto.
  unfold wf, size, amap in *; simpl. now rewrite length_map.
Qed.

Lemma broadcast_dim_same (n : nat) : broadcast_dim n n = Some n.
Proof. unfold broadcast_dim. now rewrite Nat.eqb_refl. Qed.

Lemma bidx_lt (dim i : nat) : i < dim -> bidx dim i = i.
Proof.
  unfold bidx. intros Hi. destruct (Nat.eqb_spec dim 1); [lia | reflexivity].
Qed.

(** On arguments of one shape, broadcasting is the entrywise operation. *)
Lemma np_broadcast2_same {A B C} (da : A) (db : B) (op : A -> B -> C)
  (a : ndarray A) (b : ndarray B) :
  nrow a = nrow b -> ncol a = ncol b ->
  np_broadcast2 da db op a b =
  Ok (tabulate (nrow a) (ncol a) (fun i j => op (get da a i j) (get db b i j))).
Proof.
  intros Hr Hc. unfold np_broadcast2.
  rewrite <- Hr, <- Hc, !broadcast_dim_same. f_equal.
  apply tabulate_ext. intros i j Hi Hj. now rewrite !bidx_lt.
Qed.

(** Shapes that numpy refuses to broadcast. *)
Lemma broadcast_dim_square (d : nat) : 2 <= d -> broadcast_dim d (d * d) = None.
Proof.
  intros Hd. unfold broadcast_dim.
  destruct (Nat.eqb_spec d (d * d)); [nia|].
  destruct (Nat.eqb_spec d 1); [lia|].
  destruct (Nat.eqb_spec (d * d) 1); [nia | reflexivity].
Qed.

(** ** Results *)

Lemma rbind_ok {A B} (r : result A) (k : A -> result B) (b : B) :
  rbind r k = Ok b -> exists a, r = Ok a /\ k a = Ok b.
Proof. destruct r; simpl; intros H; [eauto | discriminate]. Qed.

Ltac rbind_inv H :=
  let a := fresh "a" in
  let Ha := fresh "Ha" in
  apply rbind_ok in H; destruct H as (a & Ha & H).

Ltac check_inv H :=
  unfold npc.check_col, npc.check_nrow, npc.check_square in H;
  match type of H with
  | (if ?x =? ?y then _ else _) = Ok _ =>
      destruct (Nat.eqb_spec x y); [clear H | discriminate H]
  end.

(** ** numpy operators against the matrix algebra *)

Section NumpyFacts.
Context {SC : Scalar}.

Lemma feqb_refl (x : F) : feqb x x = true.
Proof. now apply feqb_eq. Qed.

Lemma time_eqb_eq (t t' : pytime) : time_eqb t t' = true <-> t = t'.
Proof.
  destruct t, t'; simpl; try (split; [discriminate | intros [=]]).
  - rewrite feqb_eq. split; [now intros -> | now intros [=]].
  - rewrite Z.eqb_eq. split; [now intros -> | now intros [=]].
Qed.

Lemma time_eqb_refl (t : pytime) : time_eqb t t = true.
Proof. now apply time_eqb_eq. Qed.

Lemma delta_eqb_eq (d d' : pydelta) : delta_eqb d d' = true <-> d = d'.
Proof.
  destruct d, d'; simpl; try (split; [discriminate | intros [=]]).
  - rewrite feqb_eq. split; [now intros -> | now intros [=]].
  - rewrite Z.eqb_eq. split; [now intros -> | now intros [=]].
Qed.

Lemma delta_eqb_refl (d : pydelta) : delta_eqb d d = true.
Proof. now apply delta_eqb_eq. Qed.

Lemma list_feqb_eq (l l' : list F) : list_feqb l l' = true <-> l = l'.
Proof.
  revert l'. induction l as [|x l IH]; intros [|y l']; simpl;
    try (split; [discriminate | intros [=]]); [tauto |].
  rewrite andb_true_iff, feqb_eq, IH.
  split; [intros [-> ->]; reflexivity | intros [= -> ->]; auto].
Qed.

Lemma arr_eqb_eq (a b : arr) : arr_eqb a b = true <-> a = b.
Proof.
  destruct a as [r c l], b as [r' c' l']; unfold arr_eqb; simpl.
  rewrite !andb_true_iff, !Nat.eqb_eq, list_feqb_eq.
  split; [intros [[-> ->] ->]; reflexivity | intros [= -> -> ->]; auto].
Qed.

Lemma distr_eqb_eq (d d' : distrs.NormalDistr) : distrs.eqb d d' = true <-> d = d'.
Proof.
  destruct d as [m c], d' as [m' c']; unfold distrs.eqb; simpl.
  rewrite andb_true_iff, !arr_eqb_eq.
  split; [intros [-> ->]; reflexivity | intros [= -> ->]; auto].
Qed.

Lemma np_add_same (a b : arr) :
  nrow a = nrow b -> ncol a = ncol b -> np_add a b = Ok (mat_add a b).
Proof. intros Hr Hc. apply np_broadcast2_same; assumption. Qed.

Lemma np_sub_same (a b : arr) :
  nrow a = nrow b -> ncol a = ncol b -> np_sub a b = Ok (mat_sub a b).
Proof. intros Hr Hc. apply np_broadcast2_same; assumption. Qed.

Lemma np_dot_conformable (a b : arr) :
  ncol a = nrow b -> np_dot a b = Ok (mat_mul a b).
Proof.
  intros H. unfold np_dot. now rewrite (proj2 (Nat.eqb_eq _ _) H).
Qed.

Lemma np_dot_ok (a b c : arr) :
  np_dot a b = Ok c -> ncol a = nrow b /\ c = mat_mul a b.
Proof.
  unfold np_dot. destruct (Nat.eqb_spec (ncol a) (nrow b)); [|discriminate].
  intros [= <-]. now split.
Qed.

Lemma np_mul_scalar_wf (a : arr) (x : F) : wf a -> np_mul_scalar a x = mat_rscale a x.
Proof. intros H. apply (amap_tabulate f0 (fun e => fmul e x) a H). Qed.

Lemma np_scalar_mul_wf (x : F) (a : arr) : wf a -> np_scalar_mul x a = mat_lscale x a.
Proof. intros H. apply (amap_tabulate f0 (fun e => fmul x e) a H). Qed.

Definition wf_like (x : npu.array_like) : Prop :=
  match x with
  | npu.AMat a => wf a
  | _ => True
  end.

Definition wf_opt (x : option npu.array_like) : Prop :=
  match x with
  | Some x => wf_like x
  | None => True
  end.

Lemma to_ndim_2_wf (x : npu.array_like) (b : bool) : wf_like x -> wf (npu.to_ndim_2 x b).
Proof.
  destruct x as [v|l|a]; simpl; auto; unfold wf, size; simpl; [lia|].
  destruct b; simpl; lia.
Qed.

Lemma to_ndim_2_array (a : arr) (b : bool) : npu.to_ndim_2 (npu.AMat a) b = a.
Proof. reflexivity. Qed.

End NumpyFacts.

(** ** The caching engine of [MarkovProcess] *)

Section MarkovFacts.
Context {SC : Scalar} {X : Type}.
Variable self : MarkovProcess.t.
Variable impl : F -> distrs.NormalDistr -> M X distrs.NormalDistr.

Local Abbreviation propagate_distr := (MarkovProcess.propagate_distr self impl).

(** The cache holds the entry [(t, t0, d0) |-> d]. *)
Definition holds (s : MarkovProcess.state X) (t t0 : pytime)
  (d0 d : distrs.NormalDistr) : Prop :=
  MarkovProcess._cached_time s = Some t /\
  MarkovProcess._cached_time0 s = Some t0 /\
  MarkovProcess._cached_distr0 s = Some d0 /\
  MarkovProcess._cached_distr s = Some d.

(** The state left by a call that went to [_propagate_distr_impl]. *)
Definition after_call (s : MarkovProcess.state X) (dt : F) (distr0 : distrs.NormalDistr)
  (x' : X) : MarkovProcess.state X :=
  MarkovProcess.mk_state
    (MarkovProcess._cached_time s) (MarkovProcess._cached_time0 s)
    (MarkovProcess._cached_distr0 s) (MarkovProcess._cached_distr s)
    (MarkovProcess.impl_calls s ++ [(dt, distr0)]) x'.

Definition stored (s : MarkovProcess.state X) (time time0 : pytime)
  (dt : F) (distr0 d : distrs.NormalDistr) (x' : X) : MarkovProcess.state X :=
  MarkovProcess.mk_state (Some time) (Some time0) (Some distr0) (Some d)
    (MarkovProcess.impl_calls s ++ [(dt, distr0)]) x'.

Lemma cache_miss_false (s : MarkovProcess.state X) (time time0 : pytime)
  (distr0 : distrs.NormalDistr) :
  MarkovProcess.cache_miss s time time0 distr0 = false <->
  MarkovProcess._cached_time s = Some time /\
  MarkovProcess._cached_time0 s = Some time0 /\
  MarkovProcess._cached_distr0 s = Some distr0.
Proof.
  unfold MarkovProcess.cache_miss, none_or_ne.
  destruct s as [[t|] [t0|] [d0|] d calls x]; simpl.
  all: rewrite ?orb_true_r, ?orb_false_iff, ?negb_false_iff.
  all: rewrite ?time_eqb_eq, ?distr_eqb_eq.
  all: split; intros H; try discriminate H.
  all: repeat match goal with
         | H : _ /\ _ |- _ => destruct H
         | H : Some _ = Some _ |- _ => injection H as H; subst
         | H : None = Some _ |- _ => discriminate H
         | H : true = false |- _ => discriminate H
         end; subst; auto.
Qed.

Lemma propagate_distr_equal_times (time time0 : pytime) (distr0 : distrs.NormalDistr)
  (s : MarkovProcess.state X) :
  time_eqb time time0 = true ->
  propagate_distr time time0 distr0 s = (Ok (Some distr0), s).
Proof. intros H. unfold MarkovProcess.propagate_distr. now rewrite H. Qed.

Lemma propagate_distr_hit (time time0 : pytime) (distr0 : distrs.NormalDistr)
  (s : MarkovProcess.state X) :
  time_eqb time time0 = false ->
  MarkovProcess.cache_miss s time time0 distr0 = false ->
  propagate_distr time time0 distr0 s = (Ok (MarkovProcess._cached_distr s), s).
Proof.
  intros Hne Hhit. unfold MarkovProcess.propagate_distr, bind, get_state, ret.
  now rewrite Hne, Hhit.
Qed.

Lemma propagate_distr_step_raise (time time0 : pytime) (distr0 : distrs.NormalDistr)
  (s : MarkovProcess.state X) (e : exn) :
  time_eqb time time0 = false ->
  MarkovProcess.cache_miss s time time0 distr0 = true ->
  MarkovProcess.elapsed_step self time time0 = Raise e ->
  propagate_distr time time0 distr0 s = (Raise e, s).
Proof.
  intros Hne Hmiss Hdt.
  unfold MarkovProcess.propagate_distr, bind, get_state, ret, lift.
  now rewrite Hne, Hmiss, Hdt.
Qed.

Lemma propagate_distr_miss (time time0 : pytime) (distr0 d : distrs.NormalDistr)
  (s : MarkovProcess.state X) (dt : F) (x' : X) :
  time_eqb time time0 = false ->
  MarkovProcess.cache_miss s time time0 distr0 = true ->
  MarkovProcess.elapsed_step self time time0 = Ok dt ->
  impl dt distr0 (MarkovProcess.ext s) = (Ok d, x') ->
  propagate_distr time time0 distr0 s = (Ok (Some d), stored s time time0 dt distr0 d x').
Proof.
  intros Hne Hmiss Hdt Himpl.
  unfold MarkovProcess.propagate_distr, bind, get_state, ret, lift, modify,
    MarkovProcess.on_ext.
  rewrite Hne, Hmiss, Hdt. simpl. now rewrite Himpl.
Qed.

Lemma propagate_distr_miss_raise (time time0 : pytime) (distr0 : distrs.NormalDistr)
  (s : MarkovProcess.state X) (dt : F) (x' : X) (e : exn) :
  time_eqb time time0 = false ->
  MarkovProcess.cache_miss s time time0 distr0 = true ->
  MarkovProcess.elapsed_step self time time0 = Ok dt ->
  impl dt distr0 (MarkovProcess.ext s) = (Raise e, x') ->
  propagate_distr time time0 distr0 s = (Raise e, after_call s dt distr0 x').
Proof.
  intros Hne Hmiss Hdt Himpl.
  unfold MarkovProcess.propagate_distr, bind, get_state, ret, lift, modify,
    MarkovProcess.on_ext.
  rewrite Hne, Hmiss, Hdt. simpl. now rewrite Himpl.
Qed.

End MarkovFacts.

(** ** WienerProcess *)

Section WienerFacts.
Context {SC : Scalar}.

(** What the constructor establishes. *)
Record wiener_valid (p : WienerProcess.t) : Prop := {
  wv_mean : has_shape (WienerProcess._mean p) (WienerProcess.process_dim p) 1;
  wv_vol : has_shape (WienerProcess._vol p) (WienerProcess.process_dim p)
             (WienerProcess.noise_dim p);
  wv_cov : WienerProcess._cov p =
           mat_mul (WienerProcess._vol p) (mat_T (WienerProcess._vol p));
  wv_unit : MarkovProcess._time_unit
              (SolvedItoMarkovProcess.markov (WienerProcess.base p)) = one_day
}.

Lemma WienerProcess_init_valid (mean vol : option npu.array_like) (p : WienerProcess.t) :
  wf_opt mean -> wf_opt vol ->
  WienerProcess.__init__ mean vol = Ok p -> wiener_valid p.
Proof.
  intros Hm Hv H. unfold WienerProcess.__init__ in H.
  destruct mean as [m|], vol as [v|]; simpl in H.
  all: repeat (let a := fresh "a" in let Ha := fresh "Ha" in
               apply rbind_ok in H; destruct H as (a & Ha & H)).
  all: injection H as <-.
  all: repeat match goal with
         | H : npc.check_col _ = Ok _ |- _ => check_inv H
         | H : npc.check_nrow _ _ = Ok _ |- _ => check_inv H
         | H : npc.check_square _ = Ok _ |- _ => check_inv H
         | H : np_dot _ _ = Ok _ |- _ => apply np_dot_ok in H; destruct H as [_ ->]
         end.
  all: constructor; simpl; try reflexivity.
  all: unfold has_shape; repeat split; auto.
  all: try (apply to_ndim_2_wf; assumption).
  all: try apply tabulate_wf.
  all: try (symmetry; assumption).
Qed.

Lemma WienerProcess_impl_formula (p : WienerProcess.t) (dt : F) (distr0 : distrs.NormalDistr) :
  wiener_valid p ->
  has_shape (distrs.mean distr0) (WienerProcess.process_dim p) 1 ->
  has_shape (distrs.cov distr0) (WienerProcess.process_dim p) (WienerProcess.process_dim p) ->
  WienerProcess._propagate_distr_impl p dt distr0 =
  Ok (distrs.mkNormalDistr
        (mat_add (distrs.mean distr0) (mat_rscale (WienerProcess._mean p) dt))
        (mat_add (distrs.cov distr0)
           (mat_lscale dt (mat_mul (WienerProcess._vol p) (mat_T (WienerProcess._vol p)))))).
Proof.
  intros [(Hmr & Hmc & Hmw) (Hvr & Hvc & Hvw) Hcov _] (Hr0 & Hc0 & _) (Hr1 & Hc1 & _).
  unfold WienerProcess._propagate_distr_impl.
  rewrite np_mul_scalar_wf by assumption.
  rewrite np_add_same by (simpl; lia). simpl.
  rewrite Hcov, np_scalar_mul_wf by apply tabulate_wf.
  rewrite np_add_same by (simpl; lia). reflexivity.
Qed.

(** The states an instance goes through: [propagate_distr] is the only
    method of a Wiener process that writes to its fields. *)
Inductive wiener_reachable (p : WienerProcess.t) : MarkovProcess.state unit -> Prop :=
| wr_fresh : wiener_reachable p (MarkovProcess.fresh tt)
| wr_call s time time0 distr0 :
    wiener_reachable p s ->
    wiener_reachable p (snd (WienerProcess.propagate_distr p time time0 distr0 s)).

(** A complete cache entry is the transition of its own key. *)
Definition wiener_sound (p : WienerProcess.t) (s : MarkovProcess.state unit) : Prop :=
  forall t t0 d0,
    MarkovProcess._cached_time s = Some t ->
    MarkovProcess._cached_time0 s = Some t0 ->
    MarkovProcess._cached_distr0 s = Some d0 ->
    exists dt d,
      MarkovProcess.elapsed_step (SolvedItoMarkovProcess.markov (WienerProcess.base p)) t t0 = Ok dt /\
      WienerProcess._propagate_distr_impl p dt d0 = Ok d /\
      MarkovProcess._cached_distr s = Some d.

Lemma wiener_reachable_sound (p : WienerProcess.t) (s : MarkovProcess.state unit) :
  wiener_reachable p s -> wiener_sound p s.
Proof.
  induction 1 as [|s time time0 distr0 Hs IH].
  - intros t t0 d0 H; discriminate H.
  - unfold WienerProcess.propagate_distr.
    destruct (time_eqb time time0) eqn:Hne.
    { now rewrite propagate_distr_equal_times. }
    destruct (MarkovProcess.cache_miss s time time0 distr0) eqn:Hmiss.
    2:{ now rewrite propagate_distr_hit. }
    destruct (MarkovProcess.elapsed_step
                (SolvedItoMarkovProcess.markov (WienerProcess.base p)) time time0)
      as [dt|e] eqn:Hdt.
    2:{ now rewrite (propagate_distr_step_raise _ _ _ _ _ _ e Hne Hmiss Hdt). }
    destruct (WienerProcess._propagate_distr_impl p dt distr0) as [d|e] eqn:Himpl.
    + rewrite (propagate_distr_miss _ _ _ _ _ d s dt (MarkovProcess.ext s) Hne Hmiss Hdt)
        by (unfold lift; now rewrite Himpl).
      intros t t0 d0 [= <-] [= <-] [= <-]. simpl. eauto.
    + rewrite (propagate_distr_miss_raise _ _ _ _ _ s dt (MarkovProcess.ext s) e Hne Hmiss Hdt)
        by (unfold lift; now rewrite Himpl).
      exact IH.
Qed.

(** C3.  For a Wiener process built by the constructor with drift [mean]
    and volatility [vol], in any state the instance can reach, a call of
    [propagate_distr] with [time != time0] and elapsed step [dt], on a
    prior of mean [m0] (a column of [process_dim] rows) and covariance [C0]
    (square, of [process_dim] rows), returns the Gaussian of mean
    [m0 + mean * dt] and covariance [C0 + dt * (vol . vol^T)]. *)
Theorem WienerProcess_propagate_distr_formula
  (mean vol : option npu.array_like) (p : WienerProcess.t)
  (s : MarkovProcess.state unit) (time time0 : pytime) (dt : F)
  (distr0 : distrs.NormalDistr) :
  wf_opt mean -> wf_opt vol ->
  WienerProcess.__init__ mean vol = Ok p ->
  wiener_reachable p s ->
  time_eqb time time0 = false ->
  MarkovProcess.elapsed_step (SolvedItoMarkovProcess.markov (WienerProcess.base p))
    time time0 = Ok dt ->
  has_shape (distrs.mean distr0) (WienerProcess.process_dim p) 1 ->
  has_shape (distrs.cov distr0) (WienerProcess.process_dim p) (WienerProcess.process_dim p) ->
  fst (WienerProcess.propagate_distr p time time0 distr0 s) =
  Ok (Some (distrs.mkNormalDistr
              (mat_add (distrs.mean distr0) (mat_rscale (WienerProcess._mean p) dt))
              (mat_add (distrs.cov distr0)
                 (mat_lscale dt
                    (mat_mul (WienerProcess._vol p) (mat_T (WienerProcess._vol p))))))).
Proof.
  intros Hm Hv Hinit Hs Hne Hdt Hm0 Hc0.
  pose proof (WienerProcess_init_valid mean vol p Hm Hv Hinit) as Hp.
  pose proof (WienerProcess_impl_formula p dt distr0 Hp Hm0 Hc0) as Himpl.
  unfold WienerProcess.propagate_distr.
  destruct (MarkovProcess.cache_miss s time time0 distr0) eqn:Hmiss.
  - rewrite (propagate_distr_miss _ _ _ _ _ _ s dt (MarkovProcess.ext s) Hne Hmiss Hdt)
      by (unfold lift; now rewrite Himpl).
    reflexivity.
  - rewrite propagate_distr_hit by assumption. simpl.
    apply cache_miss_false in Hmiss. destruct Hmiss as (Ht & Ht0 & Hd0).
    destruct (wiener_reachable_sound p s Hs _ _ _ Ht Ht0 Hd0) as (dt' & d & Hdt' & Hd & ->).
    congruence.
Qed.

(** X22.  For a Wiener process built by the constructor and numeric times
    [t != t0], [propagate] on a start value of [process_dim] rows and a
    variate of [noise_dim] rows returns
    [value0 + mean * dt + vol . (sqrt dt * variate)] with [dt = t - t0]. *)
Theorem WienerProcess_propagate_formula
  (mean vol : option npu.array_like) (p : WienerProcess.t)
  (t t0 : F) (variate value0 : npu.array_like) :
  wf_opt mean -> wf_opt vol ->
  WienerProcess.__init__ mean vol = Ok p ->
  t <> t0 ->
  has_shape (npu.to_ndim_2 value0 true) (WienerProcess.process_dim p) 1 ->
  has_shape (npu.to_ndim_2 variate true) (WienerProcess.noise_dim p) 1 ->
  WienerProcess.propagate p (TNum t) variate (TNum t0) value0 =
  Ok (mat_add
        (mat_add (npu.to_ndim_2 value0 true)
                 (mat_rscale (WienerProcess._mean p) (fsub t t0)))
        (mat_mul (WienerProcess._vol p)
                 (mat_lscale (fsqrt (fsub t t0)) (npu.to_ndim_2 variate true)))).
Proof.
  intros Hm Hv Hinit Hne (Hr0 & Hc0 & Hw0) (Hr1 & Hc1 & Hw1).
  destruct (WienerProcess_init_valid mean vol p Hm Hv Hinit)
    as [(Hmr & Hmc & Hmw) (Hvr & Hvc & Hvw) _ _].
  unfold WienerProcess.propagate. simpl.
  destruct (feqb t t0) eqn:E; [apply feqb_eq in E; contradiction|].
  rewrite np_mul_scalar_wf by assumption.
  rewrite np_add_same by (simpl; lia). simpl.
  rewrite np_scalar_mul_wf by assumption.
  rewrite np_dot_conformable by (simpl; lia). simpl.
  rewrite np_add_same by (simpl; lia). reflexivity.
Qed.


End WienerFacts.

(** ** Claims on the caching engine *)

Section CacheClaims.
Context {SC : Scalar} {X : Type}.
Variable self : MarkovProcess.t.
Variable impl : F -> distrs.NormalDistr -> M X distrs.NormalDistr.

Local Abbreviation propagate_distr := (MarkovProcess.propagate_distr self impl).

Lemma cache_miss_empty (s : MarkovProcess.state X) (time time0 : pytime)
  (distr0 : distrs.NormalDistr) :
  MarkovProcess._cached_time s = None ->
  MarkovProcess.cache_miss s time time0 distr0 = true.
Proof. intros H. unfold MarkovProcess.cache_miss. now rewrite H. Qed.

Lemma cache_miss_differs (s : MarkovProcess.state X) (time time0 t t0 : pytime)
  (distr0 d0 d : distrs.NormalDistr) :
  holds s t t0 d0 d ->
  time_eqb t time = false \/ time_eqb t0 time0 = false \/ distrs.eqb d0 distr0 = false ->
  MarkovProcess.cache_miss s time time0 distr0 = true.
Proof.
  intros (Ht & Ht0 & Hd0 & _) H. unfold MarkovProcess.cache_miss.
  rewrite Ht, Ht0, Hd0. simpl.
  destruct H as [-> | [-> | ->]]; simpl; rewrite ?orb_true_r; reflexivity.
Qed.

Lemma cache_miss_holds (s : MarkovProcess.state X) (time time0 t t0 : pytime)
  (distr0 d0 d : distrs.NormalDistr) :
  holds s t t0 d0 d ->
  time_eqb t time = true -> time_eqb t0 time0 = true -> distrs.eqb d0 distr0 = true ->
  MarkovProcess.cache_miss s time time0 distr0 = false.
Proof.
  intros (Ht & Ht0 & Hd0 & _) H1 H2 H3. unfold MarkovProcess.cache_miss.
  rewrite Ht, Ht0, Hd0. simpl. now rewrite H1, H2, H3.
Qed.

(** The outcome of a call that misses the cache. *)
Lemma propagate_distr_miss_outcome (time time0 : pytime) (distr0 : distrs.NormalDistr)
  (s : MarkovProcess.state X) (dt : F) :
  time_eqb time time0 = false ->
  MarkovProcess.cache_miss s time time0 distr0 = true ->
  MarkovProcess.elapsed_step self time time0 = Ok dt ->
  match impl dt distr0 (MarkovProcess.ext s) with
  | (Ok d, x') =>
      propagate_distr time time0 distr0 s = (Ok (Some d), stored s time time0 dt distr0 d x')
  | (Raise e, x') =>
      propagate_distr time time0 distr0 s = (Raise e, after_call s dt distr0 x')
  end.
Proof.
  intros Hne Hmiss Hdt.
  destruct (impl dt distr0 (MarkovProcess.ext s)) as [[d|e] x'] eqn:Himpl.
  - now apply propagate_distr_miss.
  - now apply propagate_distr_miss_raise.
Qed.

(** C6, as amended.  For every Markov process and every call of
    [propagate_distr] with [time != time0]:
    (a) when the cache holds an entry whose three keys equal the arguments
    by value, the cached distribution is returned and nothing changes, the
    record of calls to [_propagate_distr_impl] included;
    (b) when the call returns, a second call with a triple equal by value
    returns the same distribution and leaves the state, and so the record of
    calls, as the first call left it;
    (c) when the cache is empty, or holds an entry that differs from the
    arguments in at least one key by value, the elapsed step is computed;
    if that raises, the exception goes to the caller and the state is left
    as it was, nothing being recomputed; otherwise
    [_propagate_distr_impl] is called on the elapsed step; if it returns,
    its result is returned and the single entry is replaced by the new
    one; if it raises, the exception goes to the caller and the entry is
    not replaced. *)
Theorem propagate_distr_cache
  (time time0 : pytime) (distr0 : distrs.NormalDistr) (s : MarkovProcess.state X) :
  time_eqb time time0 = false ->
  (forall t t0 d0 d,
      holds s t t0 d0 d ->
      time_eqb t time = true -> time_eqb t0 time0 = true -> distrs.eqb d0 distr0 = true ->
      propagate_distr time time0 distr0 s = (Ok (Some d), s))
  /\
  (forall r s1 time' time0' distr0',
      propagate_distr time time0 distr0 s = (Ok r, s1) ->
      time_eqb time time' = true -> time_eqb time0 time0' = true ->
      distrs.eqb distr0 distr0' = true ->
      propagate_distr time' time0' distr0' s1 = (Ok r, s1))
  /\
  ((MarkovProcess._cached_time s = None \/
    exists t t0 d0 d,
      holds s t t0 d0 d /\
      (time_eqb t time = false \/ time_eqb t0 time0 = false \/
       distrs.eqb d0 distr0 = false)) ->
   match MarkovProcess.elapsed_step self time time0 with
   | Raise e => propagate_distr time time0 distr0 s = (Raise e, s)
   | Ok dt =>
       match impl dt distr0 (MarkovProcess.ext s) with
       | (Ok d, x') =>
           propagate_distr time time0 distr0 s =
           (Ok (Some d), stored s time time0 dt distr0 d x')
       | (Raise e, x') =>
           propagate_distr time time0 distr0 s = (Raise e, after_call s dt distr0 x')
       end
   end).
Proof.
  intros Hne. split; [|split].
  - intros t t0 d0 d Hh H1 H2 H3.
    rewrite propagate_distr_hit; auto.
    + destruct Hh as (_ & _ & _ & ->). reflexivity.
    + eapply cache_miss_holds; eauto.
  - intros r s1 time' time0' distr0' Hcall H1 H2 H3.
    apply time_eqb_eq in H1, H2. apply distr_eqb_eq in H3. subst time' time0' distr0'.
    destruct (MarkovProcess.cache_miss s time time0 distr0) eqn:Hmiss.
    + destruct (MarkovProcess.elapsed_step self time time0) as [dt|e] eqn:Hdt.
      2:{ rewrite (propagate_distr_step_raise _ _ _ _ _ _ e Hne Hmiss Hdt) in Hcall.
          discriminate Hcall. }
      pose proof (propagate_distr_miss_outcome time time0 distr0 s dt Hne Hmiss Hdt) as Hout.
      destruct (impl dt distr0 (MarkovProcess.ext s)) as [[d|e] x'].
      * rewrite Hout in Hcall. injection Hcall as <- <-.
        rewrite propagate_distr_hit; auto.
        apply cache_miss_false. simpl. auto.
      * rewrite Hout in Hcall. discriminate Hcall.
    + rewrite propagate_distr_hit in Hcall by assumption.
      injection Hcall as <- <-. now apply propagate_distr_hit.
  - intros Hdiff.
    assert (Hmiss : MarkovProcess.cache_miss s time time0 distr0 = true).
    { destruct Hdiff as [Hnone | (t & t0 & d0 & d & Hh & Hd)].
      - now apply cache_miss_empty.
      - eapply cache_miss_differs; eauto. }
    destruct (MarkovProcess.elapsed_step self time time0) as [dt|e] eqn:Hdt.
    + now apply propagate_distr_miss_outcome.
    + now apply propagate_distr_step_raise.
Qed.

(** What a call makes of the outcome of [_propagate_distr_impl] at the
    step [dt]: the distribution it returns is returned and stored under
    the keys of the call, the exception it raises goes to the caller. *)
Definition transition_outcome (time time0 : pytime) (distr0 : distrs.NormalDistr)
  (s : MarkovProcess.state X) (dt : F) : Prop :=
  match impl dt distr0 (MarkovProcess.ext s) with
  | (Ok d, x') =>
      propagate_distr time time0 distr0 s =
      (Ok (Some d), stored s time time0 dt distr0 d x')
  | (Raise e, x') =>
      propagate_distr time time0 distr0 s = (Raise e, after_call s dt distr0 x')
  end.

(** C7.  For every Markov process, a call of [propagate_distr] with
    [time != time0] that misses the cache computes the analytic formula
    [_propagate_distr_impl] at this elapsed step, and its outcome is the
    outcome of the formula there: for numeric times, the difference
    [time - time0] unchanged; for datetimes, the timedelta [time - time0]
    divided by [time_unit] (both taken in seconds), a dimensionless
    number.  The record of calls grows by that step and the prior. *)
Theorem propagate_distr_elapsed_step
  (time time0 : pytime) (distr0 : distrs.NormalDistr) (s : MarkovProcess.state X) :
  time_eqb time time0 = false ->
  MarkovProcess.cache_miss s time time0 distr0 = true ->
  (forall x y, time = TNum x -> time0 = TNum y ->
     MarkovProcess.elapsed_step self time time0 = Ok (fsub x y) /\
     transition_outcome time time0 distr0 s (fsub x y) /\
     MarkovProcess.impl_calls (snd (propagate_distr time time0 distr0 s)) =
     MarkovProcess.impl_calls s ++ [(fsub x y, distr0)])
  /\
  (forall a b, time = TDate a -> time0 = TDate b ->
     total_seconds (MarkovProcess._time_unit self) <> f0 ->
     let step := fdiv (total_seconds (a - b))
                      (total_seconds (MarkovProcess._time_unit self)) in
     MarkovProcess.elapsed_step self time time0 = Ok step /\
     transition_outcome time time0 distr0 s step /\
     MarkovProcess.impl_calls (snd (propagate_distr time time0 distr0 s)) =
     MarkovProcess.impl_calls s ++ [(step, distr0)]).
Proof.
  intros Hne Hmiss.
  assert (Hcalls : forall dt, MarkovProcess.elapsed_step self time time0 = Ok dt ->
            transition_outcome time time0 distr0 s dt /\
            MarkovProcess.impl_calls (snd (propagate_distr time time0 distr0 s)) =
            MarkovProcess.impl_calls s ++ [(dt, distr0)]).
  { intros dt Hdt.
    pose proof (propagate_distr_miss_outcome time time0 distr0 s dt Hne Hmiss Hdt) as Hout.
    split; [exact Hout|].
    destruct (impl dt distr0 (MarkovProcess.ext s)) as [[d|e] x']; now rewrite Hout. }
  split.
  - intros x y -> ->. split; [reflexivity|]. now apply Hcalls.
  - intros a b -> -> Hunit step.
    assert (Hdt : MarkovProcess.elapsed_step self (TDate a) (TDate b) = Ok step).
    { unfold MarkovProcess.elapsed_step, py_truediv. simpl.
      destruct (feqb (total_seconds (MarkovProcess._time_unit self)) f0) eqn:E;
        [apply feqb_eq in E; contradiction | reflexivity]. }
    split; [assumption | now apply Hcalls].
Qed.

End CacheClaims.

(** ** Equal times and unsupported operations *)

Section PropagateClaims.
Context {SC : Scalar} {LA : LinAlg}.

(** C5, as amended.  [propagate_distr(t, t, d)] returns [d] for every
    Markov process and leaves the state, cache included, untouched.
    [propagate(t, v, t, v0)] returns [v0], coerced to a two-dimensional
    array (a column for a 1-D value, [v0] itself when it is 2-D), for a
    Wiener process, for an Ornstein-Uhlenbeck process, and for a solved
    Markov process that inherits the generic [propagate] and has
    [noise_dim = process_dim]. *)
Theorem identity_on_equal_times :
  (forall (X : Type) (self : MarkovProcess.t)
          (impl : F -> distrs.NormalDistr -> M X distrs.NormalDistr)
          (t : pytime) (d : distrs.NormalDistr) (s : MarkovProcess.state X),
      MarkovProcess.propagate_distr self impl t t d s = (Ok (Some d), s))
  /\
  (forall (X : Type) (self : SolvedItoMarkovProcess.t)
          (impl : F -> distrs.NormalDistr -> M X distrs.NormalDistr)
          (t : pytime) (v v0 : npu.array_like) (s : MarkovProcess.state X),
      SolvedItoMarkovProcess.noise_dim self = SolvedItoMarkovProcess.process_dim self ->
      SolvedItoMarkovProcess.propagate self impl t v t v0 s =
      (Ok (npu.to_ndim_2 v0 true), s))
  /\
  (forall (p : WienerProcess.t) (t : pytime) (v v0 : npu.array_like),
      WienerProcess.propagate p t v t v0 = Ok (npu.to_ndim_2 v0 true))
  /\
  (forall (p : OrnsteinUhlenbeckProcess.t) (t : pytime) (v v0 : npu.array_like)
          (s : OrnsteinUhlenbeckProcess.caches),
      OrnsteinUhlenbeckProcess.propagate p t v t v0 s = (Ok (npu.to_ndim_2 v0 true), s))
  /\
  (forall (a : arr), npu.to_ndim_2 (npu.AMat a) true = a).
Proof.
  repeat split.
  - intros. apply propagate_distr_equal_times, time_eqb_refl.
  - intros X self impl t v v0 s Hdim.
    unfold SolvedItoMarkovProcess.propagate.
    now rewrite Hdim, Nat.eqb_refl, time_eqb_refl.
  - intros. unfold WienerProcess.propagate. now rewrite time_eqb_refl.
  - intros. unfold OrnsteinUhlenbeckProcess.propagate. now rewrite time_eqb_refl.
Qed.

(** C8.  On a solved Markov process with [noise_dim != process_dim] the
    generic [propagate] raises [NotImplementedError] with a message that
    names the cause; the state is left as it was, so no distribution was
    propagated.  [propagate] of the abstract solved Ito process raises
    [NotImplementedError] as well. *)
Theorem propagate_unsupported
  (X : Type) (self : SolvedItoMarkovProcess.t)
  (impl : F -> distrs.NormalDistr -> M X distrs.NormalDistr)
  (q : SolvedItoProcess.t)
  (time time0 : pytime) (variate value0 : npu.array_like) (s : MarkovProcess.state X) :
  SolvedItoMarkovProcess.noise_dim self <> SolvedItoMarkovProcess.process_dim self ->
  SolvedItoMarkovProcess.propagate self impl time variate time0 value0 s =
  (Raise (NotImplementedError
     "Cannot utilise the propagate_distr of the Markov process in propagate if noise_dim != process_dim; provide a custom implementation"),
   s)
  /\
  SolvedItoProcess.propagate q time variate time0 value0 = Raise (NotImplementedError "").
Proof.
  intros Hdim. split; [|reflexivity].
  unfold SolvedItoMarkovProcess.propagate.
  destruct (Nat.eqb_spec (SolvedItoMarkovProcess.noise_dim self)
                         (SolvedItoMarkovProcess.process_dim self)); [contradiction|].
  reflexivity.
Qed.

End PropagateClaims.

(** ** OrnsteinUhlenbeckProcess *)

Lemma bind_raise {St A B} (c : M St A) (k : A -> M St B) (s s' : St) (e : exn) :
  c s = (Raise e, s') -> bind c k s = (Raise e, s').
Proof. intros H. unfold bind. now rewrite H. Qed.

Lemma bind_ok {St A B} (c : M St A) (k : A -> M St B) (s s' : St) (a : A) :
  c s = (Ok a, s') -> bind c k s = k a s'.
Proof. intros H. unfold bind. now rewrite H. Qed.

Section OUFacts.
Context {SC : Scalar} {LA : LinAlg}.

Lemma square_call_ok (e : exn) (oracle : arr -> result (nat -> nat -> F)) (a b : arr) :
  square_call e oracle a = Ok b -> nrow b = nrow a /\ ncol b = ncol a /\ wf b.
Proof.
  unfold square_call. destruct (nrow a =? ncol a); [|discriminate].
  destruct (oracle a) as [f|e']; simpl; [|discriminate].
  intros [= <-]. repeat split. apply tabulate_wf.
Qed.

Lemma kron_sum_square (a : arr) (d : nat) :
  nrow a = d -> ncol a = d ->
  exists k, npu.kron_sum a a = Ok k /\ has_shape k (d * d) (d * d).
Proof.
  intros Hr Hc. unfold npu.kron_sum.
  rewrite np_add_same by (simpl; lia).
  eexists; split; [reflexivity|].
  unfold mat_add; simpl. rewrite Hr, Hc. apply tabulate_has_shape.
Qed.

(** What the constructor establishes. *)
Record ou_valid (p : OrnsteinUhlenbeckProcess.t) : Prop := {
  ov_transition :
    has_shape (OrnsteinUhlenbeckProcess._transition p)
      (OrnsteinUhlenbeckProcess.process_dim p) (OrnsteinUhlenbeckProcess.process_dim p);
  ov_mean :
    has_shape (OrnsteinUhlenbeckProcess._mean p) (OrnsteinUhlenbeckProcess.process_dim p) 1;
  ov_vol :
    has_shape (OrnsteinUhlenbeckProcess._vol p) (OrnsteinUhlenbeckProcess.process_dim p)
      (OrnsteinUhlenbeckProcess.noise_dim p);
  ov_x2 :
    npu.kron_sum (OrnsteinUhlenbeckProcess._transition p)
                 (OrnsteinUhlenbeckProcess._transition p) =
    Ok (OrnsteinUhlenbeckProcess._transition_x_2 p);
  ov_x2_shape :
    has_shape (OrnsteinUhlenbeckProcess._transition_x_2 p)
      (OrnsteinUhlenbeckProcess.process_dim p * OrnsteinUhlenbeckProcess.process_dim p)
      (OrnsteinUhlenbeckProcess.process_dim p * OrnsteinUhlenbeckProcess.process_dim p);
  ov_inv :
    np_linalg_inv (OrnsteinUhlenbeckProcess._transition_x_2 p) =
    Ok (OrnsteinUhlenbeckProcess._transition_x_2_inverse p);
  ov_inv_shape :
    has_shape (OrnsteinUhlenbeckProcess._transition_x_2_inverse p)
      (OrnsteinUhlenbeckProcess.process_dim p * OrnsteinUhlenbeckProcess.process_dim p)
      (OrnsteinUhlenbeckProcess.process_dim p * OrnsteinUhlenbeckProcess.process_dim p);
  ov_cov :
    OrnsteinUhlenbeckProcess._cov p =
    mat_mul (OrnsteinUhlenbeckProcess._vol p) (mat_T (OrnsteinUhlenbeckProcess._vol p));
  ov_cov_vec :
    OrnsteinUhlenbeckProcess._cov_vec p = npu.vec (OrnsteinUhlenbeckProcess._cov p);
  ov_unit :
    MarkovProcess._time_unit
      (SolvedItoMarkovProcess.markov (OrnsteinUhlenbeckProcess.base p)) = one_day
}.

Lemma OrnsteinUhlenbeckProcess_init_valid
  (transition mean vol : option npu.array_like) (p : OrnsteinUhlenbeckProcess.t) :
  wf_opt transition -> wf_opt mean -> wf_opt vol ->
  OrnsteinUhlenbeckProcess.__init__ transition mean vol = Ok p -> ou_valid p.
Proof.
  intros Ht Hm Hv H. unfold OrnsteinUhlenbeckProcess.__init__ in H.
  destruct transition as [a|], mean as [m|], vol as [v|];
    cbv beta iota zeta delta [option_map rbind] in H.
  all: repeat match type of H with
         | match ?r with Ok _ => _ | Raise _ => _ end = Ok _ =>
             let a := fresh "a" in
             let Ha := fresh "Ha" in
             destruct r as [a|] eqn:Ha; [|discriminate H]
         end.
  all: injection H as <-.
  all: repeat match goal with
         | H : npc.check_col _ = Ok _ |- _ => check_inv H
         | H : npc.check_nrow _ _ = Ok _ |- _ => check_inv H
         | H : npc.check_square _ = Ok _ |- _ => check_inv H
         | H : np_dot _ _ = Ok _ |- _ => apply np_dot_ok in H; destruct H as [_ ->]
         end.
  all: match goal with
       | H : npu.kron_sum ?a ?a = Ok ?k |- _ =>
           let k' := fresh "k" in let Hk := fresh "Hk" in let Hs := fresh "Hs" in
           let Hsq := fresh "Hsq" in
           assert (Hsq : ncol a = nrow a) by (simpl; lia);
           destruct (kron_sum_square a (nrow a) eq_refl Hsq) as (k' & Hk & Hs);
           assert (k' = k) by congruence; subst k'
       end.
  all: match goal with
       | H : np_linalg_inv ?k = Ok ?i |- _ =>
           pose proof (square_call_ok _ _ _ _ H) as (Hir & Hic & Hiw)
       end.
  all: destruct Hs as (Hkr & Hkc & Hkw).
  all: constructor; simpl; try reflexivity; try assumption.
  all: unfold has_shape; simpl; repeat split; auto.
  all: try (apply to_ndim_2_wf; assumption).
  all: try apply tabulate_wf.
  all: unfold OrnsteinUhlenbeckProcess.process_dim, OrnsteinUhlenbeckProcess.noise_dim,
         SolvedItoMarkovProcess.process_dim, SolvedItoMarkovProcess.noise_dim;
       simpl; try lia.
  all: simpl in Hkr, Hkc; lia.
Qed.

Local Abbreviation mrf_key := OrnsteinUhlenbeckProcess._cached_mean_reversion_factor_time_delta.
Local Abbreviation mrf_val := OrnsteinUhlenbeckProcess._cached_mean_reversion_factor.
Local Abbreviation mrfsq_key :=
  OrnsteinUhlenbeckProcess._cached_mean_reversion_factor_squared_time_delta.
Local Abbreviation mrfsq_val := OrnsteinUhlenbeckProcess._cached_mean_reversion_factor_squared.

Lemma mean_reversion_factor_hit (p : OrnsteinUhlenbeckProcess.t) (dt : pydelta)
  (s : OrnsteinUhlenbeckProcess.caches) :
  none_or_ne delta_eqb (mrf_key s) dt = false ->
  OrnsteinUhlenbeckProcess.mean_reversion_factor p dt s = (Ok (mrf_val s), s).
Proof.
  intros H. unfold OrnsteinUhlenbeckProcess.mean_reversion_factor, bind, get_state, ret.
  now rewrite H.
Qed.

Lemma mean_reversion_factor_miss_raise (p : OrnsteinUhlenbeckProcess.t) (dt : pydelta)
  (s : OrnsteinUhlenbeckProcess.caches) (e : exn) :
  none_or_ne delta_eqb (mrf_key s) dt = true ->
  OrnsteinUhlenbeckProcess.expm_neg_scaled (OrnsteinUhlenbeckProcess._transition p) dt
    = Raise e ->
  OrnsteinUhlenbeckProcess.mean_reversion_factor p dt s =
  (Raise e, OrnsteinUhlenbeckProcess.set_mrf_time_delta (Some dt) s).
Proof.
  intros H He.
  unfold OrnsteinUhlenbeckProcess.mean_reversion_factor, bind, get_state, ret, modify, lift.
  now rewrite H, He.
Qed.

Lemma mean_reversion_factor_miss_ok (p : OrnsteinUhlenbeckProcess.t) (dt : pydelta)
  (s : OrnsteinUhlenbeckProcess.caches) (m : arr) :
  none_or_ne delta_eqb (mrf_key s) dt = true ->
  OrnsteinUhlenbeckProcess.expm_neg_scaled (OrnsteinUhlenbeckProcess._transition p) dt
    = Ok m ->
  OrnsteinUhlenbeckProcess.mean_reversion_factor p dt s =
  (Ok (Some m),
   OrnsteinUhlenbeckProcess.set_mrf (Some m)
     (OrnsteinUhlenbeckProcess.set_mrf_time_delta (Some dt) s)).
Proof.
  intros H He.
  unfold OrnsteinUhlenbeckProcess.mean_reversion_factor, bind, get_state, ret, modify, lift.
  now rewrite H, He.
Qed.

Lemma mean_reversion_factor_squared_hit (p : OrnsteinUhlenbeckProcess.t) (dt : pydelta)
  (s : OrnsteinUhlenbeckProcess.caches) :
  none_or_ne delta_eqb (mrfsq_key s) dt = false ->
  OrnsteinUhlenbeckProcess.mean_reversion_factor_squared p dt s = (Ok (mrfsq_val s), s).
Proof.
  intros H.
  unfold OrnsteinUhlenbeckProcess.mean_reversion_factor_squared, bind, get_state, ret.
  now rewrite H.
Qed.

Lemma mean_reversion_factor_squared_miss_raise (p : OrnsteinUhlenbeckProcess.t)
  (dt : pydelta) (s : OrnsteinUhlenbeckProcess.caches) (e : exn) :
  none_or_ne delta_eqb (mrfsq_key s) dt = true ->
  OrnsteinUhlenbeckProcess.expm_neg_scaled (OrnsteinUhlenbeckProcess._transition_x_2 p) dt
    = Raise e ->
  OrnsteinUhlenbeckProcess.mean_reversion_factor_squared p dt s =
  (Raise e, OrnsteinUhlenbeckProcess.set_mrfsq_time_delta (Some dt) s).
Proof.
  intros H He.
  unfold OrnsteinUhlenbeckProcess.mean_reversion_factor_squared, bind, get_state, ret,
    modify, lift.
  now rewrite H, He.
Qed.

Lemma mean_reversion_factor_squared_miss_ok (p : OrnsteinUhlenbeckProcess.t)
  (dt : pydelta) (s : OrnsteinUhlenbeckProcess.caches) (m : arr) :
  none_or_ne delta_eqb (mrfsq_key s) dt = true ->
  OrnsteinUhlenbeckProcess.expm_neg_scaled (OrnsteinUhlenbeckProcess._transition_x_2 p) dt
    = Ok m ->
  OrnsteinUhlenbeckProcess.mean_reversion_factor_squared p dt s =
  (Ok (Some m),
   OrnsteinUhlenbeckProcess.set_mrfsq (Some m)
     (OrnsteinUhlenbeckProcess.set_mrfsq_time_delta (Some dt) s)).
Proof.
  intros H He.
  unfold OrnsteinUhlenbeckProcess.mean_reversion_factor_squared, bind, get_state, ret,
    modify, lift.
  now rewrite H, He.
Qed.

Lemma none_or_ne_same (dt : pydelta) : none_or_ne delta_eqb (Some dt) dt = false.
Proof. simpl. now rewrite delta_eqb_refl. Qed.

(** C10.  [mean_reversion_factor] and [mean_reversion_factor_squared]
    assign the key of their memo before the matrix exponential is
    computed: when the exponential raises on a new [time_delta], the call
    raises with the key already set to [time_delta] and the stored factor
    left as it was, and a second call with the same [time_delta] returns
    that stored factor (the one of an earlier key, or [None]) without
    computing anything.  [MarkovProcess.propagate_distr] writes its keys
    after the computation: when [_propagate_distr_impl] raises, the four
    cache fields are as before the call. *)
Theorem memo_key_set_before_computation
  (p : OrnsteinUhlenbeckProcess.t) (dt : pydelta)
  (s : OrnsteinUhlenbeckProcess.caches) (e : exn) :
  (none_or_ne delta_eqb (mrf_key s) dt = true ->
   OrnsteinUhlenbeckProcess.expm_neg_scaled (OrnsteinUhlenbeckProcess._transition p) dt
     = Raise e ->
   let s' := OrnsteinUhlenbeckProcess.set_mrf_time_delta (Some dt) s in
   OrnsteinUhlenbeckProcess.mean_reversion_factor p dt s = (Raise e, s') /\
   mrf_key s' = Some dt /\ mrf_val s' = mrf_val s /\
   OrnsteinUhlenbeckProcess.mean_reversion_factor p dt s' = (Ok (mrf_val s), s'))
  /\
  (none_or_ne delta_eqb (mrfsq_key s) dt = true ->
   OrnsteinUhlenbeckProcess.expm_neg_scaled (OrnsteinUhlenbeckProcess._transition_x_2 p) dt
     = Raise e ->
   let s' := OrnsteinUhlenbeckProcess.set_mrfsq_time_delta (Some dt) s in
   OrnsteinUhlenbeckProcess.mean_reversion_factor_squared p dt s = (Raise e, s') /\
   mrfsq_key s' = Some dt /\ mrfsq_val s' = mrfsq_val s /\
   OrnsteinUhlenbeckProcess.mean_reversion_factor_squared p dt s' = (Ok (mrfsq_val s), s'))
  /\
  (forall (X : Type) (self : MarkovProcess.t)
          (impl : F -> distrs.NormalDistr -> M X distrs.NormalDistr)
          (time time0 : pytime) (distr0 : distrs.NormalDistr)
          (ms : MarkovProcess.state X) (step : F) (x' : X),
      time_eqb time time0 = false ->
      MarkovProcess.cache_miss ms time time0 distr0 = true ->
      MarkovProcess.elapsed_step self time time0 = Ok step ->
      impl step distr0 (MarkovProcess.ext ms) = (Raise e, x') ->
      exists ms',
        MarkovProcess.propagate_distr self impl time time0 distr0 ms = (Raise e, ms') /\
        MarkovProcess._cached_time ms' = MarkovProcess._cached_time ms /\
        MarkovProcess._cached_time0 ms' = MarkovProcess._cached_time0 ms /\
        MarkovProcess._cached_distr0 ms' = MarkovProcess._cached_distr0 ms /\
        MarkovProcess._cached_distr ms' = MarkovProcess._cached_distr ms).
Proof.
  split; [|split].
  - intros Hmiss He s'. split; [now apply mean_reversion_factor_miss_raise|].
    split; [reflexivity|]. split; [reflexivity|].
    apply (mean_reversion_factor_hit p dt s'). apply none_or_ne_same.
  - intros Hmiss He s'. split; [now apply mean_reversion_factor_squared_miss_raise|].
    split; [reflexivity|]. split; [reflexivity|].
    apply (mean_reversion_factor_squared_hit p dt s'). apply none_or_ne_same.
  - intros X self impl time time0 distr0 ms step x' Hne Hmiss Hstep Himpl.
    exists (after_call ms step distr0 x'). split.
    + now apply propagate_distr_miss_raise.
    + repeat split.
Qed.

(** *** Process dimension two and above *)

Lemma expm_neg_scaled_shape (a m : arr) (dt : pydelta) :
  OrnsteinUhlenbeckProcess.expm_neg_scaled a dt = Ok m ->
  nrow m = nrow a /\ ncol m = ncol a /\ wf m.
Proof.
  destruct dt as [x|us]; simpl; [|discriminate].
  intros H. apply square_call_ok in H. simpl in H. exact H.
Qed.

(** A stored squared factor has the shape of [transition_x_2]. *)
Definition mrfsq_shape (p : OrnsteinUhlenbeckProcess.t)
  (s : OrnsteinUhlenbeckProcess.caches) : Prop :=
  forall m, mrfsq_val s = Some m ->
    nrow m = OrnsteinUhlenbeckProcess.process_dim p * OrnsteinUhlenbeckProcess.process_dim p.

Lemma mrfsq_shape_fresh (p : OrnsteinUhlenbeckProcess.t) :
  mrfsq_shape p OrnsteinUhlenbeckProcess.fresh.
Proof. intros m H; discriminate H. Qed.

Lemma np_sub_eye_raises (d : nat) (m : arr) :
  2 <= d -> nrow m = d * d -> np_sub (np_eye d) m = Raise (ValueError broadcast_msg).
Proof.
  intros Hd Hm. unfold np_sub, np_broadcast2. simpl.
  now rewrite Hm, broadcast_dim_square.
Qed.

(** With [process_dim >= 2], [np.eye(process_dim)] and the squared factor
    do not broadcast: [noise_covariance] raises in every state. *)
Lemma noise_covariance_raises (p : OrnsteinUhlenbeckProcess.t) (dt : pydelta)
  (s : OrnsteinUhlenbeckProcess.caches) :
  ou_valid p -> 2 <= OrnsteinUhlenbeckProcess.process_dim p -> mrfsq_shape p s ->
  exists e s',
    OrnsteinUhlenbeckProcess.noise_covariance p dt s = (Raise e, s') /\
    mrfsq_shape p s' /\
    mrf_val s' = mrf_val s /\ mrf_key s' = mrf_key s /\
    (forall m,
        none_or_ne delta_eqb (mrfsq_key s) dt = true ->
        OrnsteinUhlenbeckProcess.expm_neg_scaled
          (OrnsteinUhlenbeckProcess._transition_x_2 p) dt = Ok m ->
        e = ValueError broadcast_msg).
Proof.
  intros Hp Hd Hs. unfold OrnsteinUhlenbeckProcess.noise_covariance.
  destruct (none_or_ne delta_eqb (mrfsq_key s) dt) eqn:Hmiss.
  - destruct (OrnsteinUhlenbeckProcess.expm_neg_scaled
                (OrnsteinUhlenbeckProcess._transition_x_2 p) dt) as [m|e] eqn:He.
    + rewrite (bind_ok _ _ _ _ _
                 (mean_reversion_factor_squared_miss_ok p dt s m Hmiss He)).
      destruct (expm_neg_scaled_shape _ _ _ He) as (Hr & _ & _).
      destruct (ov_x2_shape p Hp) as (Hkr & _ & _).
      unfold bind at 1, lift at 1.
      rewrite np_sub_eye_raises by (auto; lia).
      eexists _, _. split; [reflexivity|]. repeat split.
      intros m' [= <-]. lia.
    + rewrite (bind_raise _ _ _ _ _
                 (mean_reversion_factor_squared_miss_raise p dt s e Hmiss He)).
      eexists _, _. split; [reflexivity|]. repeat split; try exact Hs.
      all: intros m _ H; discriminate H.
  - rewrite (bind_ok _ _ _ _ _ (mean_reversion_factor_squared_hit p dt s Hmiss)).
    destruct (mrfsq_val s) as [m|] eqn:Hv.
    + unfold bind at 1, lift at 1.
      rewrite np_sub_eye_raises by (auto; apply Hs; assumption).
      eexists _, _. split; [reflexivity|]. repeat split; auto.
      all: intros m' H; discriminate H.
    + eexists _, _. split; [reflexivity|]. repeat split; auto.
      all: intros m' H; discriminate H.
Qed.

Lemma mean_reversion_factor_frame (p : OrnsteinUhlenbeckProcess.t) (dt : pydelta)
  (s : OrnsteinUhlenbeckProcess.caches) :
  mrfsq_val (snd (OrnsteinUhlenbeckProcess.mean_reversion_factor p dt s)) = mrfsq_val s.
Proof.
  destruct (none_or_ne delta_eqb (mrf_key s) dt) eqn:Hmiss.
  - destruct (OrnsteinUhlenbeckProcess.expm_neg_scaled
                (OrnsteinUhlenbeckProcess._transition p) dt) as [m|e] eqn:He.
    + now rewrite (mean_reversion_factor_miss_ok p dt s m Hmiss He).
    + now rewrite (mean_reversion_factor_miss_raise p dt s e Hmiss He).
  - now rewrite (mean_reversion_factor_hit p dt s Hmiss).
Qed.

(** Hence [_propagate_distr_impl] raises as well. *)
Lemma OrnsteinUhlenbeckProcess_impl_raises (p : OrnsteinUhlenbeckProcess.t) (dt : F)
  (distr0 : distrs.NormalDistr) (s : OrnsteinUhlenbeckProcess.caches) :
  ou_valid p -> 2 <= OrnsteinUhlenbeckProcess.process_dim p -> mrfsq_shape p s ->
  exists e s',
    OrnsteinUhlenbeckProcess._propagate_distr_impl p dt distr0 s = (Raise e, s') /\
    mrfsq_shape p s'.
Proof.
  intros Hp Hd Hs. unfold OrnsteinUhlenbeckProcess._propagate_distr_impl.
  pose proof (mean_reversion_factor_frame p (DNum dt) s) as Hframe.
  unfold bind at 1.
  destruct (OrnsteinUhlenbeckProcess.mean_reversion_factor p (DNum dt) s)
    as [[[mrf|]|e] s1]; simpl in Hframe.
  all: assert (Hs1 : mrfsq_shape p s1) by (intros m Hm; apply Hs; congruence).
  2,3: eexists _, _; split; [reflexivity | assumption].
  unfold bind at 1, lift at 1.
  destruct (np_sub _ mrf) as [eyeminusmrf|e];
    [|eexists _, _; split; [reflexivity | assumption]].
  unfold bind at 1, lift at 1.
  match goal with |- context [rbind ?r ?k] => destruct (rbind r k) as [m|e] end;
    [|eexists _, _; split; [reflexivity | assumption]].
  unfold bind at 1, lift at 1.
  match goal with |- context [rbind ?r ?k] => destruct (rbind r k) as [c1|e] end;
    [|eexists _, _; split; [reflexivity | assumption]].
  destruct (noise_covariance_raises p (DNum dt) s1 Hp Hd Hs1) as (e & s' & Hnc & Hs' & _).
  rewrite (bind_raise _ _ _ _ _ Hnc).
  eexists _, _; split; [reflexivity | assumption].
Qed.

(** [propagate_distr] of a process of dimension two or more raises from
    every state whose cache is empty, and leaves it empty. *)
Lemma OrnsteinUhlenbeckProcess_propagate_distr_raises
  (p : OrnsteinUhlenbeckProcess.t) (time time0 : pytime) (distr0 : distrs.NormalDistr)
  (s : MarkovProcess.state OrnsteinUhlenbeckProcess.caches) :
  ou_valid p -> 2 <= OrnsteinUhlenbeckProcess.process_dim p ->
  MarkovProcess._cached_time s = None -> mrfsq_shape p (MarkovProcess.ext s) ->
  time_eqb time time0 = false ->
  exists e s',
    OrnsteinUhlenbeckProcess.propagate_distr p time time0 distr0 s = (Raise e, s') /\
    MarkovProcess._cached_time s' = None /\ mrfsq_shape p (MarkovProcess.ext s').
Proof.
  intros Hp Hd Hnone Hs Hne. unfold OrnsteinUhlenbeckProcess.propagate_distr.
  pose proof (cache_miss_empty s time time0 distr0 Hnone) as Hmiss.
  destruct (MarkovProcess.elapsed_step
              (SolvedItoMarkovProcess.markov (OrnsteinUhlenbeckProcess.base p))
              time time0) as [dt|e] eqn:Hdt.
  - destruct (OrnsteinUhlenbeckProcess_impl_raises p dt distr0 (MarkovProcess.ext s)
                Hp Hd Hs) as (e & x' & Himpl & Hx').
    exists e, (after_call s dt distr0 x'). split; [|split; assumption].
    now apply propagate_distr_miss_raise.
  - exists e, s. split; [|split; assumption].
    now apply propagate_distr_step_raise.
Qed.

Lemma OrnsteinUhlenbeckProcess_init_transition_dim
  (a : arr) (p : OrnsteinUhlenbeckProcess.t) :
  OrnsteinUhlenbeckProcess.__init__ (Some (npu.AMat a)) None None = Ok p ->
  OrnsteinUhlenbeckProcess.process_dim p = nrow a.
Proof.
  intros H. unfold OrnsteinUhlenbeckProcess.__init__ in H.
  cbv beta iota zeta delta [option_map rbind] in H.
  repeat match type of H with
         | match ?r with Ok _ => _ | Raise _ => _ end = Ok _ =>
             destruct r; [|discriminate H]
         end.
  injection H as <-. reflexivity.
Qed.

(** C1, the code at a failing input.  For the process
    [OrnsteinUhlenbeckProcess(transition=np.eye(2))], just constructed,
    [noise_covariance(time_delta)] raises for every [time_delta]; when the
    matrix exponential itself succeeds, the exception is the [ValueError]
    of broadcasting [np.eye(2)] against the 4x4 squared factor.  The claim
    has [I] conformable with that factor. *)
Theorem noise_covariance_dim2_raises (p : OrnsteinUhlenbeckProcess.t) (dt : pydelta) :
  OrnsteinUhlenbeckProcess.__init__ (Some (npu.AMat (np_eye 2))) None None = Ok p ->
  exists e s',
    OrnsteinUhlenbeckProcess.noise_covariance p dt OrnsteinUhlenbeckProcess.fresh
      = (Raise e, s') /\
    (forall m,
        OrnsteinUhlenbeckProcess.expm_neg_scaled
          (OrnsteinUhlenbeckProcess._transition_x_2 p) dt = Ok m ->
        e = ValueError "operands could not be broadcast together").
Proof.
  intros Hinit.
  assert (Hp : ou_valid p).
  { apply (OrnsteinUhlenbeckProcess_init_valid _ _ _ p) in Hinit; simpl; auto.
    apply tabulate_wf. }
  pose proof (OrnsteinUhlenbeckProcess_init_transition_dim _ p Hinit) as Hd. simpl in Hd.
  destruct (noise_covariance_raises p dt OrnsteinUhlenbeckProcess.fresh Hp
              ltac:(lia) (mrfsq_shape_fresh p)) as (e & s' & Hnc & _ & _ & _ & He).
  exists e, s'. split; [assumption|].
  intros m Hm. now apply (He m).
Qed.

(** C2, the code at a failing input.  For the same process, just
    constructed, [propagate_distr(time, time0, distr0)] with
    [time != time0] raises for every prior: no Gaussian is returned. *)
Theorem propagate_distr_dim2_raises
  (p : OrnsteinUhlenbeckProcess.t) (time time0 : pytime) (distr0 : distrs.NormalDistr) :
  OrnsteinUhlenbeckProcess.__init__ (Some (npu.AMat (np_eye 2))) None None = Ok p ->
  time_eqb time time0 = false ->
  exists e s',
    OrnsteinUhlenbeckProcess.propagate_distr p time time0 distr0
      (MarkovProcess.fresh OrnsteinUhlenbeckProcess.fresh) = (Raise e, s').
Proof.
  intros Hinit Hne.
  assert (Hp : ou_valid p).
  { apply (OrnsteinUhlenbeckProcess_init_valid _ _ _ p) in Hinit; simpl; auto.
    apply tabulate_wf. }
  pose proof (OrnsteinUhlenbeckProcess_init_transition_dim _ p Hinit) as Hd. simpl in Hd.
  destruct (OrnsteinUhlenbeckProcess_propagate_distr_raises p time time0 distr0
              (MarkovProcess.fresh OrnsteinUhlenbeckProcess.fresh) Hp ltac:(lia)
              eq_refl (mrfsq_shape_fresh p) Hne) as (e & s' & H & _).
  eauto.
Qed.

End OUFacts.

(** ** Equality of processes *)

Lemma np_bool_raises (a : ndarray bool) :
  2 <= List.length (data a) -> np_bool a = Raise (ValueError ambiguous_msg).
Proof.
  unfold np_bool. destruct (data a) as [|x [|y l]]; simpl; intros H; try lia.
  reflexivity.
Qed.

Section EqualityFacts.
Context {SC : Scalar} {LA : LinAlg}.

(** Comparing two columns of [d >= 2] rows gives an array of [d] booleans,
    which has no truth value. *)
Lemma np_eq_columns_no_truth (a b : arr) (d : nat) :
  2 <= d -> nrow a = d -> ncol a = 1 -> nrow b = d -> ncol b = 1 ->
  exists m, np_eq a b = Ok m /\ np_bool m = Raise (ValueError ambiguous_msg).
Proof.
  intros Hd Har Hac Hbr Hbc. unfold np_eq.
  rewrite np_broadcast2_same by lia.
  eexists; split; [reflexivity|].
  apply np_bool_raises. simpl. rewrite length_map, length_seq. nia.
Qed.

Lemma WienerProcess_eq_raises (p q : WienerProcess.t) :
  wiener_valid p -> wiener_valid q ->
  WienerProcess.process_dim p = WienerProcess.process_dim q ->
  2 <= WienerProcess.process_dim p ->
  WienerProcess.__eq__ p (Some q) = Raise (ValueError ambiguous_msg) /\
  WienerProcess.__ne__ p (Some q) = Raise (ValueError ambiguous_msg).
Proof.
  intros [(Hpr & Hpc & _) _ _ _] [(Hqr & Hqc & _) _ _ _] Hdim Hd.
  destruct (np_eq_columns_no_truth (WienerProcess._mean p) (WienerProcess._mean q)
              (WienerProcess.process_dim p) Hd Hpr Hpc ltac:(lia) Hqc) as (m & Hm & Hb).
  assert (He : WienerProcess.__eq__ p (Some q) = Raise (ValueError ambiguous_msg)).
  { unfold WienerProcess.__eq__. rewrite Hm. simpl. now rewrite Hb. }
  split; [assumption|]. unfold WienerProcess.__ne__. now rewrite He.
Qed.

Lemma OrnsteinUhlenbeckProcess_eq_raises (p q : OrnsteinUhlenbeckProcess.t) :
  ou_valid p -> ou_valid q ->
  OrnsteinUhlenbeckProcess.process_dim p = OrnsteinUhlenbeckProcess.process_dim q ->
  2 <= OrnsteinUhlenbeckProcess.process_dim p ->
  OrnsteinUhlenbeckProcess.__eq__ p (Some q) = Raise (ValueError ambiguous_msg) /\
  OrnsteinUhlenbeckProcess.__ne__ p (Some q) = Raise (ValueError ambiguous_msg).
Proof.
  intros Hp Hq Hdim Hd.
  destruct (ov_mean p Hp) as (Hpr & Hpc & _). destruct (ov_mean q Hq) as (Hqr & Hqc & _).
  destruct (np_eq_columns_no_truth (OrnsteinUhlenbeckProcess._mean p)
              (OrnsteinUhlenbeckProcess._mean q)
              (OrnsteinUhlenbeckProcess.process_dim p) Hd Hpr Hpc ltac:(lia) Hqc)
    as (m & Hm & Hb).
  assert (He : OrnsteinUhlenbeckProcess.__eq__ p (Some q) = Raise (ValueError ambiguous_msg)).
  { unfold OrnsteinUhlenbeckProcess.__eq__. rewrite Hm. simpl. now rewrite Hb. }
  split; [assumption|]. unfold OrnsteinUhlenbeckProcess.__ne__. now rewrite He.
Qed.

(** C9, the code at a failing input.  [p = WienerProcess(mean=[0., 0.])]
    is a two-dimensional process; [p == p] and [p != p] raise [ValueError]
    (the truth value of the elementwise comparison of the means is
    ambiguous) where the claim has [True] and [False].  The same holds of
    [q = OrnsteinUhlenbeckProcess(transition=np.eye(2))]. *)
Theorem eq_dim2_raises :
  (exists p,
     WienerProcess.__init__ (Some (npu.AVec [f0; f0])) None = Ok p /\
     WienerProcess.__eq__ p (Some p) =
       Raise (ValueError
         "The truth value of an array with more than one element is ambiguous. Use a.any() or a.all()") /\
     WienerProcess.__ne__ p (Some p) = Raise (ValueError ambiguous_msg))
  /\
  (forall q,
     OrnsteinUhlenbeckProcess.__init__ (Some (npu.AMat (np_eye 2))) None None = Ok q ->
     OrnsteinUhlenbeckProcess.__eq__ q (Some q) = Raise (ValueError ambiguous_msg) /\
     OrnsteinUhlenbeckProcess.__ne__ q (Some q) = Raise (ValueError ambiguous_msg)).
Proof.
  split.
  - eexists. split; [reflexivity|]. split; reflexivity.
  - intros q Hinit.
    assert (Hq : ou_valid q).
    { apply (OrnsteinUhlenbeckProcess_init_valid _ _ _ q) in Hinit; simpl; auto.
      apply tabulate_wf. }
    pose proof (OrnsteinUhlenbeckProcess_init_transition_dim _ q Hinit) as Hd. simpl in Hd.
    apply OrnsteinUhlenbeckProcess_eq_raises; auto. lia.
Qed.

(** *** Dimension one: the comparison is the structural one *)

Lemma has_shape_1x1 (a : arr) : has_shape a 1 1 -> exists x, a = mk_ndarray 1 1 [x].
Proof.
  destruct a as [r c l]. unfold has_shape, wf, size. simpl.
  intros (-> & -> & Hl). destruct l as [|x [|y l]]; simpl in Hl; try discriminate.
  now exists x.
Qed.

Lemma np_eq_1x1 (a b : arr) :
  has_shape a 1 1 -> has_shape b 1 1 ->
  exists m, np_eq a b = Ok m /\ np_bool m = Ok (arr_eqb a b).
Proof.
  intros Ha Hb.
  destruct (has_shape_1x1 a Ha) as (x & ->). destruct (has_shape_1x1 b Hb) as (y & ->).
  eexists. split; [reflexivity|].
  unfold arr_eqb. simpl. now rewrite andb_true_r.
Qed.

(** X17.  Between two Wiener processes of one dimension and one noise
    factor, [p == q] is truthy exactly when the means and the volatilities
    are equal entry for entry, and [p != q] is the negation. *)
Lemma WienerProcess_eq_dim1 (p q : WienerProcess.t) :
  wiener_valid p -> wiener_valid q ->
  WienerProcess.process_dim p = 1 -> WienerProcess.noise_dim p = 1 ->
  WienerProcess.process_dim q = 1 -> WienerProcess.noise_dim q = 1 ->
  let same := arr_eqb (WienerProcess._mean p) (WienerProcess._mean q) &&
              arr_eqb (WienerProcess._vol p) (WienerProcess._vol q) in
  (exists v, WienerProcess.__eq__ p (Some q) = Ok v /\ truth v = Ok same) /\
  WienerProcess.__ne__ p (Some q) = Ok (negb same).
Proof.
  intros [Hpm Hpv _ _] [Hqm Hqv _ _] Hp1 Hp2 Hq1 Hq2 same.
  rewrite Hp1 in Hpm, Hpv. rewrite Hp2 in Hpv.
  rewrite Hq1 in Hqm, Hqv. rewrite Hq2 in Hqv.
  destruct (np_eq_1x1 _ _ Hpm Hqm) as (m & Hm & Hmb).
  destruct (np_eq_1x1 _ _ Hpv Hqv) as (v & Hv & Hvb).
  assert (He : exists r, WienerProcess.__eq__ p (Some q) = Ok r /\ truth r = Ok same).
  { unfold WienerProcess.__eq__. rewrite Hm. simpl. rewrite Hmb. simpl.
    subst same. destruct (arr_eqb (WienerProcess._mean p) (WienerProcess._mean q)).
    - rewrite Hv. simpl. eauto.
    - eauto. }
  split; [exact He|].
  destruct He as (r & Hr & Ht). unfold WienerProcess.__ne__.
  rewrite Hr. simpl. now rewrite Ht.
Qed.

(** X18.  Between two Ornstein-Uhlenbeck processes of one dimension and
    one noise factor, [p == q] is truthy exactly when the means and the
    volatilities are equal entry for entry, and [p != q] is the negation:
    the transition is not compared. *)
Lemma OrnsteinUhlenbeckProcess_eq_dim1 (p q : OrnsteinUhlenbeckProcess.t) :
  ou_valid p -> ou_valid q ->
  OrnsteinUhlenbeckProcess.process_dim p = 1 -> OrnsteinUhlenbeckProcess.noise_dim p = 1 ->
  OrnsteinUhlenbeckProcess.process_dim q = 1 -> OrnsteinUhlenbeckProcess.noise_dim q = 1 ->
  let same := arr_eqb (OrnsteinUhlenbeckProcess._mean p) (OrnsteinUhlenbeckProcess._mean q) &&
              arr_eqb (OrnsteinUhlenbeckProcess._vol p) (OrnsteinUhlenbeckProcess._vol q) in
  (exists v, OrnsteinUhlenbeckProcess.__eq__ p (Some q) = Ok v /\ truth v = Ok same) /\
  OrnsteinUhlenbeckProcess.__ne__ p (Some q) = Ok (negb same).
Proof.
  intros Hp Hq Hp1 Hp2 Hq1 Hq2 same.
  pose proof (ov_mean p Hp) as Hpm. pose proof (ov_vol p Hp) as Hpv.
  pose proof (ov_mean q Hq) as Hqm. pose proof (ov_vol q Hq) as Hqv.
  rewrite Hp1 in Hpm, Hpv. rewrite Hp2 in Hpv.
  rewrite Hq1 in Hqm, Hqv. rewrite Hq2 in Hqv.
  destruct (np_eq_1x1 _ _ Hpm Hqm) as (m & Hm & Hmb).
  destruct (np_eq_1x1 _ _ Hpv Hqv) as (v & Hv & Hvb).
  assert (He : exists r, OrnsteinUhlenbeckProcess.__eq__ p (Some q) = Ok r /\
                         truth r = Ok same).
  { unfold OrnsteinUhlenbeckProcess.__eq__. rewrite Hm. simpl. rewrite Hmb. simpl.
    subst same.
    destruct (arr_eqb (OrnsteinUhlenbeckProcess._mean p) (OrnsteinUhlenbeckProcess._mean q)).
    - rewrite Hv. simpl. eauto.
    - eauto. }
  split; [exact He|].
  destruct He as (r & Hr & Ht). unfold OrnsteinUhlenbeckProcess.__ne__.
  rewrite Hr. simpl. now rewrite Ht.
Qed.

End EqualityFacts.

(** ** OrnsteinUhlenbeckProcess in dimension one, and the memo in general *)

Section OUDim1.
Context {SC : Scalar} {LA : LinAlg}.

Local Abbreviation mrf_key := OrnsteinUhlenbeckProcess._cached_mean_reversion_factor_time_delta.
Local Abbreviation mrf_val := OrnsteinUhlenbeckProcess._cached_mean_reversion_factor.
Local Abbreviation mrfsq_key :=
  OrnsteinUhlenbeckProcess._cached_mean_reversion_factor_squared_time_delta.
Local Abbreviation mrfsq_val := OrnsteinUhlenbeckProcess._cached_mean_reversion_factor_squared.

(** A memo is sound when the factor stored under a key is the exponential
    for that key, wherever the exponential exists. *)
Definition memo_sound (p : OrnsteinUhlenbeckProcess.t)
  (s : OrnsteinUhlenbeckProcess.caches) : Prop :=
  (forall dt m, mrf_key s = Some dt ->
     OrnsteinUhlenbeckProcess.expm_neg_scaled (OrnsteinUhlenbeckProcess._transition p) dt
       = Ok m ->
     mrf_val s = Some m) /\
  (forall dt m, mrfsq_key s = Some dt ->
     OrnsteinUhlenbeckProcess.expm_neg_scaled (OrnsteinUhlenbeckProcess._transition_x_2 p) dt
       = Ok m ->
     mrfsq_val s = Some m).

Lemma memo_sound_fresh (p : OrnsteinUhlenbeckProcess.t) :
  memo_sound p OrnsteinUhlenbeckProcess.fresh.
Proof. split; intros dt m H; discriminate H. Qed.

Lemma none_or_ne_false (k : option pydelta) (dt : pydelta) :
  none_or_ne delta_eqb k dt = false -> k = Some dt.
Proof.
  destruct k as [d|]; simpl; [|discriminate].
  rewrite negb_false_iff, delta_eqb_eq. now intros ->.
Qed.

(** In a sound memo, [mean_reversion_factor(time_delta)] is
    [expm(-transition * time_delta)] whenever that exponential exists, in
    every dimension; a raising exponential leaves the memo sound. *)
Lemma mean_reversion_factor_sound (p : OrnsteinUhlenbeckProcess.t) (dt : pydelta)
  (s : OrnsteinUhlenbeckProcess.caches) :
  memo_sound p s ->
  memo_sound p (snd (OrnsteinUhlenbeckProcess.mean_reversion_factor p dt s)) /\
  (forall m,
      OrnsteinUhlenbeckProcess.expm_neg_scaled (OrnsteinUhlenbeckProcess._transition p) dt
        = Ok m ->
      fst (OrnsteinUhlenbeckProcess.mean_reversion_factor p dt s) = Ok (Some m)).
Proof.
  intros [H1 H2].
  destruct (none_or_ne delta_eqb (mrf_key s) dt) eqn:Hmiss.
  - destruct (OrnsteinUhlenbeckProcess.expm_neg_scaled
                (OrnsteinUhlenbeckProcess._transition p) dt) as [m|e] eqn:He.
    + rewrite (mean_reversion_factor_miss_ok p dt s m Hmiss He). simpl.
      split; [split|].
      * intros dt' m' [= <-] Hm'. simpl. congruence.
      * exact H2.
      * intros m' [= <-]. reflexivity.
    + rewrite (mean_reversion_factor_miss_raise p dt s e Hmiss He). simpl.
      split; [split|].
      * intros dt' m' [= <-] Hm'. congruence.
      * exact H2.
      * intros m' Hm'. discriminate Hm'.
  - rewrite (mean_reversion_factor_hit p dt s Hmiss). simpl.
    split; [split; assumption|].
    intros m Hm. f_equal. apply (H1 dt m); [|assumption].
    now apply none_or_ne_false.
Qed.

Lemma mean_reversion_factor_squared_sound (p : OrnsteinUhlenbeckProcess.t) (dt : pydelta)
  (s : OrnsteinUhlenbeckProcess.caches) :
  memo_sound p s ->
  memo_sound p (snd (OrnsteinUhlenbeckProcess.mean_reversion_factor_squared p dt s)) /\
  (forall m,
      OrnsteinUhlenbeckProcess.expm_neg_scaled
        (OrnsteinUhlenbeckProcess._transition_x_2 p) dt = Ok m ->
      fst (OrnsteinUhlenbeckProcess.mean_reversion_factor_squared p dt s) = Ok (Some m)).
Proof.
  intros [H1 H2].
  destruct (none_or_ne delta_eqb (mrfsq_key s) dt) eqn:Hmiss.
  - destruct (OrnsteinUhlenbeckProcess.expm_neg_scaled
                (OrnsteinUhlenbeckProcess._transition_x_2 p) dt) as [m|e] eqn:He.
    + rewrite (mean_reversion_factor_squared_miss_ok p dt s m Hmiss He). simpl.
      split; [split|].
      * exact H1.
      * intros dt' m' [= <-] Hm'. simpl. congruence.
      * intros m' [= <-]. reflexivity.
    + rewrite (mean_reversion_factor_squared_miss_raise p dt s e Hmiss He). simpl.
      split; [split|].
      * exact H1.
      * intros dt' m' [= <-] Hm'. congruence.
      * intros m' Hm'. discriminate Hm'.
  - rewrite (mean_reversion_factor_squared_hit p dt s Hmiss). simpl.
    split; [split; assumption|].
    intros m Hm. f_equal. apply (H2 dt m); [|assumption].
    now apply none_or_ne_false.
Qed.

(** The formula of claim C1, with the identity of the size of the squared
    factor. *)
Definition noise_covariance_spec (p : OrnsteinUhlenbeckProcess.t) (mrfsquared : arr) : arr :=
  let d := OrnsteinUhlenbeckProcess.process_dim p in
  npu.unvec
    (mat_mul
       (mat_mul (OrnsteinUhlenbeckProcess._transition_x_2_inverse p)
                (mat_sub (mat_I (d * d)) mrfsquared))
       (npu.vec (mat_mul (OrnsteinUhlenbeckProcess._vol p)
                         (mat_T (OrnsteinUhlenbeckProcess._vol p)))))
    d.

(** In dimension one the code computes it. *)
Lemma noise_covariance_dim1 (p : OrnsteinUhlenbeckProcess.t) (dt : pydelta)
  (s : OrnsteinUhlenbeckProcess.caches) (mrfsquared : arr) :
  ou_valid p -> OrnsteinUhlenbeckProcess.process_dim p = 1 -> memo_sound p s ->
  OrnsteinUhlenbeckProcess.expm_neg_scaled (OrnsteinUhlenbeckProcess._transition_x_2 p) dt
    = Ok mrfsquared ->
  exists s',
    OrnsteinUhlenbeckProcess.noise_covariance p dt s =
      (Ok (noise_covariance_spec p mrfsquared), s') /\
    memo_sound p s' /\ mrf_key s' = mrf_key s /\ mrf_val s' = mrf_val s.
Proof.
  intros Hp Hd Hs He.
  destruct (mean_reversion_factor_squared_sound p dt s Hs) as [Hs' Hv].
  specialize (Hv _ He).
  assert (Hframe : mrf_key (snd (OrnsteinUhlenbeckProcess.mean_reversion_factor_squared p dt s))
                   = mrf_key s /\
                   mrf_val (snd (OrnsteinUhlenbeckProcess.mean_reversion_factor_squared p dt s))
                   = mrf_val s).
  { destruct (none_or_ne delta_eqb (mrfsq_key s) dt) eqn:Hmiss.
    - now rewrite (mean_reversion_factor_squared_miss_ok p dt s mrfsquared Hmiss He).
    - now rewrite (mean_reversion_factor_squared_hit p dt s Hmiss). }
  destruct (OrnsteinUhlenbeckProcess.mean_reversion_factor_squared p dt s) as [r s1] eqn:Hcall.
  simpl in Hv, Hs', Hframe. subst r.
  exists s1. split; [|split; [assumption | exact Hframe]].
  unfold OrnsteinUhlenbeckProcess.noise_covariance.
  rewrite (bind_ok _ _ _ _ _ Hcall).
  destruct (expm_neg_scaled_shape _ _ _ He) as (Hmr & Hmc & _).
  destruct (ov_x2_shape p Hp) as (Hkr & Hkc & _).
  destruct (ov_inv_shape p Hp) as (Hir & Hic & _).
  destruct (ov_vol p Hp) as (Hvr & _ & _).
  rewrite Hd in *.
  unfold bind, lift.
  rewrite np_sub_same by (simpl; lia).
  rewrite np_dot_conformable by (simpl; lia). simpl.
  rewrite np_dot_conformable.
  2:{ rewrite (ov_cov_vec p Hp), (ov_cov p Hp). simpl. unfold size. simpl. lia. }
  unfold noise_covariance_spec. rewrite Hd, (ov_cov_vec p Hp), (ov_cov p Hp). reflexivity.
Qed.

(** The Gaussian of claim C2. *)
Definition propagate_distr_spec (p : OrnsteinUhlenbeckProcess.t) (mrf mrfsquared : arr)
  (distr0 : distrs.NormalDistr) : distrs.NormalDistr :=
  let d := OrnsteinUhlenbeckProcess.process_dim p in
  distrs.mkNormalDistr
    (mat_add (mat_mul mrf (distrs.mean distr0))
             (mat_mul (mat_sub (mat_I d) mrf) (OrnsteinUhlenbeckProcess._mean p)))
    (mat_add (mat_mul (mat_mul mrf (distrs.cov distr0)) (mat_T mrf))
             (noise_covariance_spec p mrfsquared)).

(** In dimension one [_propagate_distr_impl] computes it. *)
Lemma OrnsteinUhlenbeckProcess_impl_dim1 (p : OrnsteinUhlenbeckProcess.t) (dt : F)
  (distr0 : distrs.NormalDistr) (s : OrnsteinUhlenbeckProcess.caches)
  (mrf mrfsquared : arr) :
  ou_valid p -> OrnsteinUhlenbeckProcess.process_dim p = 1 -> memo_sound p s ->
  OrnsteinUhlenbeckProcess.expm_neg_scaled (OrnsteinUhlenbeckProcess._transition p) (DNum dt)
    = Ok mrf ->
  OrnsteinUhlenbeckProcess.expm_neg_scaled (OrnsteinUhlenbeckProcess._transition_x_2 p)
    (DNum dt) = Ok mrfsquared ->
  has_shape (distrs.mean distr0) 1 1 -> has_shape (distrs.cov distr0) 1 1 ->
  exists s',
    OrnsteinUhlenbeckProcess._propagate_distr_impl p dt distr0 s =
      (Ok (propagate_distr_spec p mrf mrfsquared distr0), s') /\
    memo_sound p s'.
Proof.
  intros Hp Hd Hs He1 He2 (Hm0r & Hm0c & _) (Hc0r & Hc0c & _).
  destruct (mean_reversion_factor_sound p (DNum dt) s Hs) as [Hs1 Hv].
  specialize (Hv _ He1).
  destruct (OrnsteinUhlenbeckProcess.mean_reversion_factor p (DNum dt) s) as [r s1] eqn:Hcall.
  simpl in Hv, Hs1. subst r.
  destruct (noise_covariance_dim1 p (DNum dt) s1 mrfsquared Hp Hd Hs1 He2)
    as (s' & Hnc & Hs' & _).
  exists s'. split; [|assumption].
  unfold OrnsteinUhlenbeckProcess._propagate_distr_impl.
  rewrite (bind_ok _ _ _ _ _ Hcall).
  destruct (expm_neg_scaled_shape _ _ _ He1) as (Hmr & Hmc & _).
  destruct (ov_transition p Hp) as (Htr & Htc & _).
  destruct (ov_mean p Hp) as (Hpr & Hpc & _).
  destruct (ov_inv_shape p Hp) as (Hir & Hic & _).
  rewrite Hd in *.
  unfold bind at 1, lift at 1.
  rewrite np_sub_same by (simpl; lia).
  unfold bind at 1, lift at 1.
  rewrite np_dot_conformable by (simpl; lia). simpl rbind.
  rewrite np_dot_conformable by (simpl; lia). simpl rbind.
  rewrite np_add_same by (simpl; lia).
  unfold bind at 1, lift at 1.
  rewrite np_dot_conformable by (simpl; lia). simpl rbind.
  rewrite np_dot_conformable by (simpl; lia).
  rewrite (bind_ok _ _ _ _ _ Hnc).
  unfold bind, lift, ret.
  rewrite np_add_same.
  2,3: unfold noise_covariance_spec, npu.unvec, mat_mul, mat_T, size; rewrite Hd;
       cbn [nrow ncol tabulate]; rewrite ?Hir; simpl; lia.
  unfold propagate_distr_spec. rewrite Hd. reflexivity.
Qed.

End OUDim1.

(** * The model at concrete inputs, over the rationals *)

(** The second half of claim C6 as it is worded, for one call: the call
    went to [_propagate_distr_impl] and the cache now holds the triple of
    the call. *)
Definition recomputed_and_replaced {SC : Scalar} {X : Type}
  (s s' : MarkovProcess.state X) (time time0 : pytime) (distr0 : distrs.NormalDistr)
  : Prop :=
  (exists dt, MarkovProcess.impl_calls s' = MarkovProcess.impl_calls s ++ [(dt, distr0)]) /\
  MarkovProcess._cached_time s' = Some time /\
  MarkovProcess._cached_time0 s' = Some time0 /\
  MarkovProcess._cached_distr0 s' = Some distr0.

Section RationalRuns.
Import QArith.
Local Open Scope nat_scope.
#[local] Existing Instance Rational.QScalar.
#[local] Existing Instance Rational.QLinAlg.

(** Rational numbers as times, steps, numbers and arrays. *)
Definition qtime (x : Q) : pytime := @TNum Rational.QScalar x.

Definition qdate (us : Z) : pytime := @TDate Rational.QScalar us.

Definition qdelta (x : Q) : pydelta := @DNum Rational.QScalar x.

Definition qnum (x : Q) : npu.array_like := @npu.AScalar Rational.QScalar x.

Definition qarr (r c : nat) (l : list Q) : arr := @mk_ndarray (@F Rational.QScalar) r c l.

(** [Dirac(x)] for a one-dimensional value. *)
Definition dirac1 (x : Q) : distrs.NormalDistr :=
  distrs.create_dirac_delta (qarr 1 1 [x]).

(** [WienerProcess()]. *)
Definition wiener_std : WienerProcess.t :=
  WienerProcess.mk (SolvedItoMarkovProcess.__init__ 1 (Some 1) None)
    (qarr 1 1 [0%Q]) (qarr 1 1 [1%Q]) (qarr 1 1 [1%Q]).

(** [OrnsteinUhlenbeckProcess()]. *)
Definition ou_std : OrnsteinUhlenbeckProcess.t :=
  OrnsteinUhlenbeckProcess.mk (SolvedItoMarkovProcess.__init__ 1 (Some 1) None)
    (qarr 1 1 [1%Q]) (qarr 1 1 [0%Q]) (qarr 1 1 [1%Q])
    (qarr 1 1 [2%Q]) (qarr 1 1 [(1 # 2)%Q]) (qarr 1 1 [1%Q]) (qarr 1 1 [1%Q]).

Definition eye2 : arr := qarr 2 2 [1%Q; 0%Q; 0%Q; 1%Q].

Definition two_eye4 : arr :=
  qarr 4 4 [2%Q; 0%Q; 0%Q; 0%Q; 0%Q; 2%Q; 0%Q; 0%Q; 0%Q; 0%Q; 2%Q; 0%Q; 0%Q; 0%Q; 0%Q; 2%Q].

Definition half_eye4 : arr :=
  qarr 4 4 [(1 # 2)%Q; 0%Q; 0%Q; 0%Q; 0%Q; (1 # 2)%Q; 0%Q; 0%Q;
            0%Q; 0%Q; (1 # 2)%Q; 0%Q; 0%Q; 0%Q; 0%Q; (1 # 2)%Q].

(** [OrnsteinUhlenbeckProcess(transition=np.eye(2))]. *)
Definition ou_eye2 : OrnsteinUhlenbeckProcess.t :=
  OrnsteinUhlenbeckProcess.mk (SolvedItoMarkovProcess.__init__ 2 (Some 2) None)
    eye2 (qarr 2 1 [0%Q; 0%Q]) eye2 two_eye4 half_eye4 eye2 (qarr 4 1 [1%Q; 0%Q; 0%Q; 1%Q]).

Example wiener_std_init : WienerProcess.__init__ None None = Ok wiener_std.
Proof. reflexivity. Qed.

Example ou_std_init : OrnsteinUhlenbeckProcess.__init__ None None None = Ok ou_std.
Proof. reflexivity. Qed.

Example ou_eye2_init :
  OrnsteinUhlenbeckProcess.__init__ (Some (npu.AMat (np_eye 2))) None None = Ok ou_eye2.
Proof. reflexivity. Qed.

(** [WienerProcess(mean=0, vol=1)], from [time0 = 0] to [time = 1], on
    [Dirac(0)]: the Gaussian of mean 0 and covariance 1. *)
Lemma WienerProcess_propagate_distr_formula_witness :
  WienerProcess.__init__ None None = Ok wiener_std /\
  wiener_reachable wiener_std (MarkovProcess.fresh tt) /\
  time_eqb (qtime 1) (qtime 0) = false /\
  fst (WienerProcess.propagate_distr wiener_std (qtime 1) (qtime 0) (dirac1 0)
         (MarkovProcess.fresh tt)) =
  Ok (Some (distrs.mkNormalDistr (qarr 1 1 [0%Q]) (qarr 1 1 [1%Q]))).
Proof.
  split; [reflexivity|]. split; [apply wr_fresh|]. split; [reflexivity|].
  etransitivity.
  - apply (@WienerProcess_propagate_distr_formula Rational.QScalar None None wiener_std
             (MarkovProcess.fresh tt) (qtime 1) (qtime 0) 1%Q (dirac1 0)
             I I eq_refl (wr_fresh _) eq_refl eq_refl); repeat split.
  - reflexivity.
Defined.

(** [WienerProcess()] from [time0 = 0] to [time = 4], start value 10 and
    variate 1: 10 + 0 * 4 + 1 * (sqrt 4 * 1) = 12. *)
Lemma WienerProcess_propagate_formula_witness :
  WienerProcess.__init__ None None = Ok wiener_std /\
  4%Q <> 0%Q /\
  WienerProcess.propagate wiener_std (qtime 4) (qnum 1) (qtime 0) (qnum 10) =
  Ok (qarr 1 1 [12%Q]).
Proof.
  split; [reflexivity|]. split; [discriminate|].
  etransitivity.
  - apply (@WienerProcess_propagate_formula Rational.QScalar None None wiener_std 4%Q 0%Q
             (qnum 1) (qnum 10) I I eq_refl); [discriminate | repeat split | repeat split].
  - reflexivity.
Defined.


(** A generic solved Markov process with as many noise factors as
    dimensions, and one with more. *)
Definition generic_1_1 : SolvedItoMarkovProcess.t := SolvedItoMarkovProcess.__init__ 1 None None.

Definition generic_1_2 : SolvedItoMarkovProcess.t := SolvedItoMarkovProcess.__init__ 1 (Some 2) None.

Definition abstract_impl : F -> distrs.NormalDistr -> M unit distrs.NormalDistr :=
  MarkovProcess._propagate_distr_impl.

Lemma identity_on_equal_times_witness :
  SolvedItoMarkovProcess.noise_dim generic_1_1 = SolvedItoMarkovProcess.process_dim generic_1_1 /\
  SolvedItoMarkovProcess.propagate generic_1_1 abstract_impl
    (qtime 3) (qnum 1) (qtime 3) (qnum 7) (MarkovProcess.fresh tt) =
  (Ok (qarr 1 1 [7%Q]), MarkovProcess.fresh tt).
Proof.
  split; [reflexivity|].
  apply (proj1 (proj2 (@identity_on_equal_times Rational.QScalar Rational.QLinAlg))
           unit generic_1_1 abstract_impl (qtime 3) (qnum 1) (qnum 7)
           (MarkovProcess.fresh tt)).
  reflexivity.
Defined.

(** C5 as it is worded fails: with [noise_dim != process_dim] the generic
    [propagate] raises at equal times too, and so does the abstract
    [propagate] of a solved Ito process; neither returns [value0]. *)
Lemma identity_on_equal_times_counterexample :
  SolvedItoMarkovProcess.propagate generic_1_2 abstract_impl
    (qtime 3) (qnum 1) (qtime 3) (qnum 7) (MarkovProcess.fresh tt) =
  (Raise (NotImplementedError SolvedItoMarkovProcess.not_implemented_msg),
   MarkovProcess.fresh tt)
  /\
  fst (SolvedItoMarkovProcess.propagate generic_1_2 abstract_impl
         (qtime 3) (qnum 1) (qtime 3) (qnum 7) (MarkovProcess.fresh tt))
  <> Ok (npu.to_ndim_2 (qnum 7) true)
  /\
  SolvedItoProcess.propagate (SolvedItoProcess.__init__ 1 None)
    (qtime 3) (qnum 1) (qtime 3) (qnum 7)
  <> Ok (npu.to_ndim_2 (qnum 7) true).
Proof.
  split; [reflexivity|]. split; discriminate.
Qed.

Definition gauss_0_1 : distrs.NormalDistr :=
  distrs.mkNormalDistr (qarr 1 1 [0%Q]) (qarr 1 1 [1%Q]).

(** The state of [WienerProcess()] after
    [propagate_distr(1, 0, Dirac(0))]. *)
Definition wiener_after_1_0 : MarkovProcess.state unit :=
  MarkovProcess.mk_state (Some (qtime 1)) (Some (qtime 0)) (Some (dirac1 0))
    (Some gauss_0_1) [(1%Q : @F Rational.QScalar, dirac1 0)] tt.

Lemma propagate_distr_cache_witness :
  time_eqb (qtime 1) (qtime 0) = false /\
  WienerProcess.propagate_distr wiener_std (qtime 1) (qtime 0) (dirac1 0)
    (MarkovProcess.fresh tt) = (Ok (Some gauss_0_1), wiener_after_1_0) /\
  WienerProcess.propagate_distr wiener_std (qtime 1) (qtime 0) (dirac1 0)
    wiener_after_1_0 = (Ok (Some gauss_0_1), wiener_after_1_0).
Proof.
  split; [reflexivity|]. split; [reflexivity|].
  apply (proj1 (proj2
           (@propagate_distr_cache Rational.QScalar unit
              (SolvedItoMarkovProcess.markov (WienerProcess.base wiener_std))
              (fun time_delta d => lift (WienerProcess._propagate_distr_impl wiener_std time_delta d))
              (qtime 1) (qtime 0) (dirac1 0) (MarkovProcess.fresh tt) eq_refl))
           (Some gauss_0_1) wiener_after_1_0 (qtime 1) (qtime 0) (dirac1 0));
    reflexivity.
Defined.

(** C6 as it is worded fails: the cache holds the entry of the call
    [(1, 0, Dirac(0))]; the call [(2, 2, Dirac(0))] differs from it in two
    keys, yet it does not go to [_propagate_distr_impl] and the entry is
    not replaced. *)
Lemma propagate_distr_cache_counterexample :
  holds wiener_after_1_0 (qtime 1) (qtime 0) (dirac1 0) gauss_0_1 /\
  time_eqb (qtime 1) (qtime 2) = false /\
  time_eqb (qtime 0) (qtime 2) = false /\
  WienerProcess.propagate_distr wiener_std (qtime 2) (qtime 2) (dirac1 0) wiener_after_1_0
    = (Ok (Some (dirac1 0)), wiener_after_1_0) /\
  ~ recomputed_and_replaced wiener_after_1_0
      (snd (WienerProcess.propagate_distr wiener_std (qtime 2) (qtime 2) (dirac1 0)
              wiener_after_1_0))
      (qtime 2) (qtime 2) (dirac1 0).
Proof.
  split; [repeat split|]. split; [reflexivity|]. split; [reflexivity|].
  split; [reflexivity|].
  intros (_ & Ht & _). discriminate Ht.
Qed.

(** The Gaussian of mean 0 and variance 2. *)
Definition gauss_0_2 : distrs.NormalDistr :=
  distrs.mkNormalDistr (qarr 1 1 [0%Q]) (qarr 1 1 [2%Q]).

(** Two days between datetimes, with the time unit of one day: the step
    passed on is the number 2, and the call returns and stores what the
    Wiener transition gives at 2, the Gaussian of variance 2. *)
Lemma propagate_distr_elapsed_step_witness :
  time_eqb (qdate 172800000000) (qdate 0) = false /\
  MarkovProcess.cache_miss (MarkovProcess.fresh tt) (qdate 172800000000) (qdate 0) (dirac1 0)
    = true /\
  @total_seconds Rational.QScalar one_day <> 0%Q /\
  WienerProcess._propagate_distr_impl wiener_std 2%Q (dirac1 0) = Ok gauss_0_2 /\
  WienerProcess.propagate_distr wiener_std (qdate 172800000000) (qdate 0)
    (dirac1 0) (MarkovProcess.fresh tt) =
  (Ok (Some gauss_0_2),
   MarkovProcess.mk_state (Some (qdate 172800000000)) (Some (qdate 0)) (Some (dirac1 0))
     (Some gauss_0_2) [(2%Q : @F Rational.QScalar, dirac1 0)] tt) /\
  MarkovProcess.impl_calls
    (snd (WienerProcess.propagate_distr wiener_std (qdate 172800000000) (qdate 0)
            (dirac1 0) (MarkovProcess.fresh tt))) =
  [(2%Q : @F Rational.QScalar, dirac1 0)].
Proof.
  split; [reflexivity|]. split; [reflexivity|].
  assert (Hunit : @total_seconds Rational.QScalar one_day <> 0%Q)
    by (intros H; vm_compute in H; discriminate H).
  split; [exact Hunit|]. split; [reflexivity|].
  exact (proj2
           (proj2
              (@propagate_distr_elapsed_step Rational.QScalar unit
                 (SolvedItoMarkovProcess.markov (WienerProcess.base wiener_std))
                 (fun time_delta d =>
                    lift (WienerProcess._propagate_distr_impl wiener_std time_delta d))
                 (qdate 172800000000) (qdate 0) (dirac1 0) (MarkovProcess.fresh tt)
                 eq_refl eq_refl)
              172800000000%Z 0%Z eq_refl eq_refl Hunit)).
Defined.

Lemma propagate_unsupported_witness :
  SolvedItoMarkovProcess.noise_dim generic_1_2 <> SolvedItoMarkovProcess.process_dim generic_1_2 /\
  SolvedItoMarkovProcess.propagate generic_1_2 abstract_impl
    (qtime 1) (qnum 0) (qtime 0) (qnum 0) (MarkovProcess.fresh tt) =
  (Raise (NotImplementedError SolvedItoMarkovProcess.not_implemented_msg),
   MarkovProcess.fresh tt).
Proof.
  assert (Hdim : SolvedItoMarkovProcess.noise_dim generic_1_2 <>
                 SolvedItoMarkovProcess.process_dim generic_1_2) by (vm_compute; lia).
  split; [exact Hdim|].
  apply (proj1 (@propagate_unsupported Rational.QScalar Rational.QLinAlg unit generic_1_2
                  abstract_impl (SolvedItoProcess.__init__ 1 None)
                  (qtime 1) (qtime 0) (qnum 0) (qnum 0) (MarkovProcess.fresh tt) Hdim)).
Defined.

(** The memo of [OrnsteinUhlenbeckProcess()] after
    [mean_reversion_factor(0)]: the factor [[1]] under the key 0. *)
Definition ou_memo_0 : OrnsteinUhlenbeckProcess.caches :=
  OrnsteinUhlenbeckProcess.mk_caches (Some (qarr 1 1 [1%Q])) (Some (qdelta 0)) None None.

Definition not_representable : exn := ValueError "expm: result not representable".

(** The exponential fails at [time_delta = 1]: the key moves to 1, the
    factor of key 0 stays, and the next call with [time_delta = 1]
    returns it. *)
Lemma memo_key_set_before_computation_witness :
  OrnsteinUhlenbeckProcess.mean_reversion_factor ou_std (qdelta 0)
    OrnsteinUhlenbeckProcess.fresh = (Ok (Some (qarr 1 1 [1%Q])), ou_memo_0) /\
  none_or_ne delta_eqb
    (OrnsteinUhlenbeckProcess._cached_mean_reversion_factor_time_delta ou_memo_0)
    (qdelta 1) = true /\
  OrnsteinUhlenbeckProcess.expm_neg_scaled (OrnsteinUhlenbeckProcess._transition ou_std)
    (qdelta 1) = Raise not_representable /\
  OrnsteinUhlenbeckProcess.mean_reversion_factor ou_std (qdelta 1) ou_memo_0 =
    (Raise not_representable,
     OrnsteinUhlenbeckProcess.set_mrf_time_delta (Some (qdelta 1)) ou_memo_0) /\
  OrnsteinUhlenbeckProcess.mean_reversion_factor ou_std (qdelta 1)
    (OrnsteinUhlenbeckProcess.set_mrf_time_delta (Some (qdelta 1)) ou_memo_0) =
    (Ok (Some (qarr 1 1 [1%Q])),
     OrnsteinUhlenbeckProcess.set_mrf_time_delta (Some (qdelta 1)) ou_memo_0).
Proof.
  split; [reflexivity|]. split; [reflexivity|]. split; [reflexivity|].
  destruct (proj1 (@memo_key_set_before_computation Rational.QScalar Rational.QLinAlg
                     ou_std (qdelta 1) ou_memo_0 not_representable) eq_refl eq_refl)
    as (H1 & _ & _ & H2).
  split; [exact H1 | exact H2].
Defined.

Lemma noise_covariance_dim2_raises_witness :
  OrnsteinUhlenbeckProcess.__init__ (Some (npu.AMat (np_eye 2))) None None = Ok ou_eye2 /\
  exists e s',
    OrnsteinUhlenbeckProcess.noise_covariance ou_eye2 (qdelta 1)
      OrnsteinUhlenbeckProcess.fresh = (Raise e, s').
Proof.
  split; [reflexivity|].
  destruct (@noise_covariance_dim2_raises Rational.QScalar Rational.QLinAlg
              ou_eye2 (qdelta 1) eq_refl) as (e & s' & H & _).
  exists e, s'. exact H.
Defined.

Lemma propagate_distr_dim2_raises_witness :
  OrnsteinUhlenbeckProcess.__init__ (Some (npu.AMat (np_eye 2))) None None = Ok ou_eye2 /\
  time_eqb (qtime 1) (qtime 0) = false /\
  exists e s',
    OrnsteinUhlenbeckProcess.propagate_distr ou_eye2 (qtime 1) (qtime 0)
      (distrs.create_dirac_delta (qarr 2 1 [1%Q; 1%Q]))
      (MarkovProcess.fresh OrnsteinUhlenbeckProcess.fresh) = (Raise e, s').
Proof.
  split; [reflexivity|]. split; [reflexivity|].
  exact (@propagate_distr_dim2_raises Rational.QScalar Rational.QLinAlg ou_eye2
           (qtime 1) (qtime 0) (distrs.create_dirac_delta (qarr 2 1 [1%Q; 1%Q]))
           eq_refl eq_refl).
Defined.

Lemma eq_dim2_raises_witness :
  OrnsteinUhlenbeckProcess.__init__ (Some (npu.AMat (np_eye 2))) None None = Ok ou_eye2 /\
  OrnsteinUhlenbeckProcess.__eq__ ou_eye2 (Some ou_eye2) = Raise (ValueError ambiguous_msg) /\
  OrnsteinUhlenbeckProcess.__ne__ ou_eye2 (Some ou_eye2) = Raise (ValueError ambiguous_msg).
Proof.
  split; [reflexivity|].
  exact (proj2 (@eq_dim2_raises Rational.QScalar Rational.QLinAlg) ou_eye2 eq_refl).
Defined.

(** With the matrix exponential of the zero matrix, which the rational
    oracle knows, the exception of [noise_covariance] is the broadcasting
    one. *)
Example noise_covariance_dim2_broadcast :
  fst (OrnsteinUhlenbeckProcess.noise_covariance ou_eye2 (qdelta 0)
         OrnsteinUhlenbeckProcess.fresh) =
  Raise (ValueError "operands could not be broadcast together").
Proof. reflexivity. Qed.

End RationalRuns.

(** * The scenario of the specification, over the reals *)

Section RealRuns.
Import Reals Lra.
#[local] Existing Instance Real.RScalar.
#[local] Existing Instance Real.RLinAlg.
Local Open Scope nat_scope.

Definition rtime (x : R) : pytime := @TNum Real.RScalar x.

Definition rdelta (x : R) : pydelta := @DNum Real.RScalar x.

Definition rarr (r c : nat) (l : list R) : arr := @mk_ndarray (@F Real.RScalar) r c l.

(** [OrnsteinUhlenbeckProcess(transition=1, mean=0, vol=1)]. *)
Definition ou_std_R : OrnsteinUhlenbeckProcess.t :=
  OrnsteinUhlenbeckProcess.mk (SolvedItoMarkovProcess.__init__ 1 (Some 1) None)
    (rarr 1 1 [1%R]) (rarr 1 1 [0%R]) (rarr 1 1 [1%R])
    (rarr 1 1 [2%R]) (rarr 1 1 [(1 / 2)%R]) (rarr 1 1 [1%R]) (rarr 1 1 [1%R]).

Ltac rcompute :=
  cbv -[IZR Rplus Rmult Rinv Rminus Ropp Rdiv exp ln sqrt Real.Reqb Rlt_dec].

Lemma Reqb_false (x y : R) : x <> y -> Real.Reqb x y = false.
Proof.
  intros H. destruct (Real.Reqb x y) eqn:E; [|reflexivity].
  apply Real.Reqb_eq in E. contradiction.
Qed.

Lemma rarr_1x1_eq (x y : R) : x = y -> rarr 1 1 [x] = rarr 1 1 [y].
Proof. now intros ->. Qed.

Lemma exp_neg_ln2 : exp (- ln 2) = (1 / 2)%R.
Proof. rewrite exp_Ropp, exp_ln by lra. lra. Qed.

Lemma ou_std_R_init :
  OrnsteinUhlenbeckProcess.__init__
    (Some (npu.AScalar 1%R)) (Some (npu.AScalar 0%R)) (Some (npu.AScalar 1%R))
  = Ok ou_std_R.
Proof.
  unfold OrnsteinUhlenbeckProcess.__init__.
  cbv beta iota zeta delta [option_map].
  cbn -[IZR Rplus Rmult Rinv].
  rewrite Reqb_false by lra.
  cbn -[IZR Rplus Rmult Rinv].
  unfold ou_std_R. f_equal. f_equal.
  all: rcompute; do 2 f_equal; first [lra | field].
Qed.

Lemma ln2_neq_0 : ln 2 <> 0%R.
Proof.
  assert (0 < ln 2)%R by (rewrite <- ln_1; apply ln_increasing; lra). lra.
Qed.

Lemma exp_neg_2ln2 : exp (- ln 2 + - ln 2) = (1 / 4)%R.
Proof. rewrite exp_plus, exp_neg_ln2. lra. Qed.

(** The concrete scenario of the specification, in exact arithmetic:
    [OrnsteinUhlenbeckProcess(transition=1, mean=0, vol=1)] and
    [time_delta = ln 2].  The mean-reversion factor is 1/2, and propagating
    [Dirac(1)] from [time0 = 0] to [time = ln 2] gives the Gaussian of mean
    [0.5 * 1 + 0.5 * 0 = 0.5] and of covariance
    [1/2 * (1 - exp(-2 ln 2)) = 3/8]. *)
Theorem ou_ln2_scenario :
  OrnsteinUhlenbeckProcess.__init__
    (Some (npu.AScalar 1%R)) (Some (npu.AScalar 0%R)) (Some (npu.AScalar 1%R))
    = Ok ou_std_R /\
  fst (OrnsteinUhlenbeckProcess.mean_reversion_factor ou_std_R (rdelta (ln 2))
         OrnsteinUhlenbeckProcess.fresh) =
    Ok (Some (rarr 1 1 [(1 / 2)%R])) /\
  fst (OrnsteinUhlenbeckProcess.propagate_distr ou_std_R (rtime (ln 2)) (rtime 0)
         (distrs.create_dirac_delta (rarr 1 1 [1%R]))
         (MarkovProcess.fresh OrnsteinUhlenbeckProcess.fresh)) =
    Ok (Some (distrs.mkNormalDistr (rarr 1 1 [(1 / 2)%R]) (rarr 1 1 [(3 / 8)%R]))).
Proof.
  split; [exact ou_std_R_init|]. split.
  - rcompute. do 4 f_equal.
    replace (1 * - ln 2)%R with (- ln 2)%R by lra. apply exp_neg_ln2.
  - unfold OrnsteinUhlenbeckProcess.propagate_distr, MarkovProcess.propagate_distr.
    unfold time_eqb, rtime. simpl feqb. rewrite Reqb_false by apply ln2_neq_0.
    rcompute.
    replace (1 * - (ln 2 - 0))%R with (- ln 2)%R by lra.
    replace (2 * - (ln 2 - 0))%R with (- ln 2 + - ln 2)%R by lra.
    rewrite exp_neg_ln2, exp_neg_2ln2.
    do 2 f_equal. f_equal; do 2 f_equal; lra.
Qed.

(** X21.  In exact arithmetic the step of two datetimes is the quotient
    of the two durations, the timedelta [time - time0] divided by a
    non-zero [time_unit]: the conversions to seconds cancel. *)
Lemma elapsed_step_is_quotient (process_dim : nat) (time_unit a b : Z) :
  time_unit <> 0%Z ->
  MarkovProcess.elapsed_step (MarkovProcess.mk process_dim time_unit)
    (@TDate Real.RScalar a) (@TDate Real.RScalar b) =
  Ok (IZR (a - b) / IZR time_unit)%R.
Proof.
  intros Hunit. apply not_0_IZR in Hunit.
  unfold MarkovProcess.elapsed_step, py_truediv, total_seconds. simpl.
  rewrite Reqb_false.
  - f_equal. field. assumption.
  - intros H. apply Hunit. lra.
Qed.

End RealRuns.

(** * Further properties of the code *)

(** ** The caching engine in the states it can reach *)

Section EngineInvariants.
Context {SC : Scalar} {X : Type}.
Variable self : MarkovProcess.t.
Variable impl : F -> distrs.NormalDistr -> M X distrs.NormalDistr.

Local Abbreviation propagate_distr := (MarkovProcess.propagate_distr self impl).

(** A subclass writes to its own fields only. *)
Definition with_ext (x' : X) (s : MarkovProcess.state X) : MarkovProcess.state X :=
  MarkovProcess.mk_state
    (MarkovProcess._cached_time s) (MarkovProcess._cached_time0 s)
    (MarkovProcess._cached_distr0 s) (MarkovProcess._cached_distr s)
    (MarkovProcess.impl_calls s) x'.

(** The states of an instance: the one [__init__] leaves, then any number
    of calls of [propagate_distr] and of writes by the subclass to its own
    fields. *)
Inductive engine_reachable : MarkovProcess.state X -> Prop :=
| er_fresh x : engine_reachable (MarkovProcess.fresh x)
| er_call s time time0 distr0 :
    engine_reachable s ->
    engine_reachable (snd (propagate_distr time time0 distr0 s))
| er_ext s x' : engine_reachable s -> engine_reachable (with_ext x' s).

(** The four cache fields are empty together or set together. *)
Definition cache_complete (s : MarkovProcess.state X) : Prop :=
  (MarkovProcess._cached_time s = None /\ MarkovProcess._cached_time0 s = None /\
   MarkovProcess._cached_distr0 s = None /\ MarkovProcess._cached_distr s = None) \/
  (exists t t0 d0 d, holds s t t0 d0 d).

Lemma propagate_distr_outcomes (time time0 : pytime) (distr0 : distrs.NormalDistr)
  (s : MarkovProcess.state X) :
  propagate_distr time time0 distr0 s = (Ok (Some distr0), s) /\
    time_eqb time time0 = true
  \/ propagate_distr time time0 distr0 s = (Ok (MarkovProcess._cached_distr s), s) /\
    time_eqb time time0 = false /\
    MarkovProcess.cache_miss s time time0 distr0 = false
  \/ (exists e, propagate_distr time time0 distr0 s = (Raise e, s) /\
        MarkovProcess.elapsed_step self time time0 = Raise e)
  \/ (exists dt d x',
        propagate_distr time time0 distr0 s =
          (Ok (Some d), stored s time time0 dt distr0 d x') /\
        MarkovProcess.elapsed_step self time time0 = Ok dt /\
        impl dt distr0 (MarkovProcess.ext s) = (Ok d, x'))
  \/ (exists dt e x',
        propagate_distr time time0 distr0 s = (Raise e, after_call s dt distr0 x') /\
        MarkovProcess.elapsed_step self time time0 = Ok dt /\
        impl dt distr0 (MarkovProcess.ext s) = (Raise e, x')).
Proof.
  destruct (time_eqb time time0) eqn:Hne.
  { left. split; [now apply propagate_distr_equal_times | reflexivity]. }
  destruct (MarkovProcess.cache_miss s time time0 distr0) eqn:Hmiss.
  2:{ right; left. split; [now apply propagate_distr_hit | now split]. }
  destruct (MarkovProcess.elapsed_step self time time0) as [dt|e] eqn:Hdt.
  2:{ right; right; left. exists e. split; [now apply propagate_distr_step_raise | reflexivity]. }
  destruct (impl dt distr0 (MarkovProcess.ext s)) as [[d|e] x'] eqn:Himpl.
  - right; right; right; left. exists dt, d, x'.
    split; [now apply propagate_distr_miss | now split].
  - right; right; right; right. exists dt, e, x'.
    split; [now apply propagate_distr_miss_raise | now split].
Qed.

Lemma engine_reachable_complete (s : MarkovProcess.state X) :
  engine_reachable s -> cache_complete s.
Proof.
  induction 1 as [x | s time time0 distr0 Hs IH | s x' Hs IH].
  - left. repeat split.
  - destruct (propagate_distr_outcomes time time0 distr0 s)
      as [[-> _] | [[-> _] | [(e & -> & _) | [(dt & d & x' & -> & _) | (dt & e & x' & -> & _)]]]];
      simpl; try exact IH.
    right. exists time, time0, distr0, d. repeat split.
  - exact IH.
Qed.

(** X1.  In every state an instance can reach, the four cache fields are
    empty together or set together, and a call of [propagate_distr] that
    returns, returns a distribution: [self._cached_distr] is never handed
    out while it is [None]. *)
Theorem propagate_distr_never_none
  (s : MarkovProcess.state X) (time time0 : pytime) (distr0 : distrs.NormalDistr)
  (r : option distrs.NormalDistr) (s' : MarkovProcess.state X) :
  engine_reachable s ->
  propagate_distr time time0 distr0 s = (Ok r, s') ->
  cache_complete s /\ cache_complete s' /\ exists d, r = Some d.
Proof.
  intros Hs Hcall.
  pose proof (engine_reachable_complete s Hs) as Hc.
  pose proof (engine_reachable_complete _ (er_call s time time0 distr0 Hs)) as Hc'.
  rewrite Hcall in Hc'. simpl in Hc'.
  split; [assumption|]. split; [assumption|].
  destruct (propagate_distr_outcomes time time0 distr0 s)
    as [[H _] | [[H [_ Hhit]] | [(e & H & _) | [(dt & d & x' & H & _) | (dt & e & x' & H & _)]]]];
    rewrite H in Hcall; try discriminate Hcall; injection Hcall as <- <-; eauto.
  apply cache_miss_false in Hhit. destruct Hhit as (Ht & _).
  destruct Hc as [(Hnone & _) | (t & t0 & d0 & d & _ & _ & _ & Hd)]; [congruence | eauto].
Qed.

(** X2.  When the elapsed step cannot be computed, because a number is
    mixed with a datetime, or because the times are datetimes and
    [time_unit] is a zero duration, a call that misses the cache raises
    ([TypeError], [ZeroDivisionError]) before [_propagate_distr_impl] is
    called, and the state is left as it was. *)
Theorem propagate_distr_step_errors
  (s : MarkovProcess.state X) (time time0 : pytime) (distr0 : distrs.NormalDistr) :
  MarkovProcess.cache_miss s time time0 distr0 = true ->
  (forall x b, (time = TNum x /\ time0 = TDate b) \/ (time = TDate b /\ time0 = TNum x) ->
     propagate_distr time time0 distr0 s =
     (Raise (TypeError "unsupported operand type(s) for -"), s))
  /\
  (forall a b, time = TDate a -> time0 = TDate b -> a <> b ->
     total_seconds (MarkovProcess._time_unit self) = f0 ->
     propagate_distr time time0 distr0 s =
     (Raise (ZeroDivisionError "float division by zero"), s)).
Proof.
  intros Hmiss. split.
  - intros x b [[-> ->] | [-> ->]]; now apply propagate_distr_step_raise.
  - intros a b -> -> Hab Hunit. apply propagate_distr_step_raise; auto.
    + simpl. now apply Z.eqb_neq.
    + unfold MarkovProcess.elapsed_step, py_truediv. simpl.
      now rewrite Hunit, feqb_refl.
Qed.

End EngineInvariants.

(** ** The abstract Markov process and the generic [propagate] *)

Section GenericProcess.
Context {SC : Scalar} {LA : LinAlg} {X : Type}.

(** X3.  On a Markov process that does not override
    [_propagate_distr_impl], a call of [propagate_distr] with
    [time != time0] never returns, in any state the instance can reach:
    it raises, [NotImplementedError] whenever the elapsed step can be
    computed, and the cache stays empty. *)
Theorem abstract_propagate_distr_raises
  (self : MarkovProcess.t) (s : MarkovProcess.state X)
  (time time0 : pytime) (distr0 : distrs.NormalDistr) :
  engine_reachable self MarkovProcess._propagate_distr_impl s ->
  time_eqb time time0 = false ->
  MarkovProcess._cached_time s = None /\
  exists e s',
    MarkovProcess.propagate_distr self MarkovProcess._propagate_distr_impl
      time time0 distr0 s = (Raise e, s') /\
    MarkovProcess._cached_time s' = None /\
    (forall dt, MarkovProcess.elapsed_step self time time0 = Ok dt ->
                e = NotImplementedError "").
Proof.
  intros Hs Hne.
  assert (Hnone : forall s0 : MarkovProcess.state X,
             engine_reachable self MarkovProcess._propagate_distr_impl s0 ->
             MarkovProcess._cached_time s0 = None).
  { clear. induction 1 as [x | s time time0 distr0 Hs IH | s x' Hs IH]; auto.
    destruct (propagate_distr_outcomes self MarkovProcess._propagate_distr_impl
                time time0 distr0 s)
      as [[-> _] | [[-> _] | [(e & -> & _) | [(dt & d & x' & _ & _ & H) | (dt & e & x' & -> & _)]]]];
      simpl; auto.
    discriminate H. }
  split; [now apply Hnone|].
  pose proof (cache_miss_empty s time time0 distr0 (Hnone s Hs)) as Hmiss.
  destruct (MarkovProcess.elapsed_step self time time0) as [dt|e] eqn:Hdt.
  - exists (NotImplementedError ""), (after_call s dt distr0 (MarkovProcess.ext s)).
    split; [now apply propagate_distr_miss_raise|].
    split; [simpl; now apply Hnone | reflexivity].
  - exists e, s. split; [now apply propagate_distr_step_raise|].
    split; [now apply Hnone | intros dt H; discriminate H].
Qed.

(** X4.  The generic [propagate] goes through the cache: once a call
    [propagate(time, variate, time0, value0)] has returned, a call with
    the same [time], [time0] and [value0] and any other variate does not
    call [_propagate_distr_impl] again and leaves the state as it is. *)
Theorem generic_propagate_reuses_cache
  (self : SolvedItoMarkovProcess.t)
  (impl : F -> distrs.NormalDistr -> M X distrs.NormalDistr)
  (time time0 : pytime) (variate variate' value0 : npu.array_like)
  (s s1 : MarkovProcess.state X) (r : arr) :
  SolvedItoMarkovProcess.propagate self impl time variate time0 value0 s = (Ok r, s1) ->
  snd (SolvedItoMarkovProcess.propagate self impl time variate' time0 value0 s1) = s1.
Proof.
  unfold SolvedItoMarkovProcess.propagate.
  destruct (negb (SolvedItoMarkovProcess.noise_dim self =?
                  SolvedItoMarkovProcess.process_dim self)); [discriminate|].
  destruct (time_eqb time time0) eqn:Hne.
  { intros [= _ <-]. reflexivity. }
  set (d0 := distrs.create_dirac_delta (npu.to_ndim_2 value0 true)).
  set (m := SolvedItoMarkovProcess.markov self).
  intros Hcall.
  assert (Hpd : exists d, MarkovProcess.propagate_distr m impl time time0 d0 s
                          = (Ok (Some d), s1)).
  { unfold bind in Hcall.
    destruct (MarkovProcess.propagate_distr m impl time time0 d0 s) as [[[d|]|e] s2];
      try discriminate Hcall.
    exists d. f_equal. unfold lift in Hcall.
    destruct (np_linalg_cholesky (distrs.cov d)); [|now inversion Hcall].
    destruct (np_dot a (npu.to_ndim_2 variate true)); [|now inversion Hcall].
    now inversion Hcall. }
  destruct Hpd as (d & Hpd).
  assert (Hhit : MarkovProcess.propagate_distr m impl time time0 d0 s1 = (Ok (Some d), s1)).
  { destruct (propagate_distr_outcomes m impl time time0 d0 s)
      as [[_ H] | [[H [_ Hh]] | [(e & H & _) | [(dt & d' & x' & H & _) | (dt & e & x' & H & _)]]]];
      try congruence; rewrite H in Hpd; try discriminate Hpd; injection Hpd as Hd <-.
    rewrite propagate_distr_hit; auto.
    - simpl. now rewrite Hd.
    - apply cache_miss_false. simpl. auto. }
  rewrite (bind_ok _ _ _ _ _ Hhit). unfold lift.
  destruct (np_linalg_cholesky (distrs.cov d)) as [l|e]; [|reflexivity].
  unfold bind at 1. destruct (np_dot l (npu.to_ndim_2 variate' true)); reflexivity.
Qed.

End GenericProcess.

(** ** WienerProcess: the constructor, the cache, the errors of [propagate] *)

Section WienerMore.
Context {SC : Scalar}.

Local Abbreviation to2 := (fun x : npu.array_like => npu.to_ndim_2 x true).

(** The condition under which the constructor accepts its arguments. *)
Definition wiener_args_ok (mean vol : option npu.array_like) : Prop :=
  match mean, vol with
  | Some m, Some v => ncol (to2 m) = 1 /\ nrow (to2 m) = nrow (to2 v)
  | Some m, None => ncol (to2 m) = 1
  | None, _ => True
  end.

(** X5.  [WienerProcess(mean, vol)] is constructed exactly when [mean], if
    given, is a column, and has as many rows as [vol] if both are given;
    otherwise the constructor raises the error of the failed shape check,
    and nothing else can go wrong. *)
Theorem WienerProcess_init_succeeds_iff (mean vol : option npu.array_like) :
  ((exists p, WienerProcess.__init__ mean vol = Ok p) <-> wiener_args_ok mean vol) /\
  (forall e, WienerProcess.__init__ mean vol = Raise e ->
             exists msg, e = ConfigurationError msg).
Proof.
  unfold WienerProcess.__init__, wiener_args_ok, npc.check_col, npc.check_nrow.
  destruct mean as [m|], vol as [v|]; cbv beta iota zeta delta [option_map rbind].
  - destruct (Nat.eqb_spec (ncol (npu.to_ndim_2 m true)) 1) as [Hc|Hc].
    + rewrite Nat.eqb_refl.
      destruct (Nat.eqb_spec (nrow (npu.to_ndim_2 m true)) (nrow (npu.to_ndim_2 v true)))
        as [Hr|Hr].
      * rewrite np_dot_conformable by reflexivity.
        split; [split; eauto | intros e H; discriminate H].
      * split; [split; [intros [p H]; discriminate H | intros [_ H]; contradiction]
               | intros e [= <-]; eauto].
    + split; [split; [intros [p H]; discriminate H | intros [H _]; contradiction]
             | intros e [= <-]; eauto].
  - destruct (Nat.eqb_spec (ncol (npu.to_ndim_2 m true)) 1) as [Hc|Hc].
    + rewrite Nat.eqb_refl. simpl nrow. rewrite Nat.eqb_refl.
      rewrite np_dot_conformable by reflexivity.
      split; [split; eauto | intros e H; discriminate H].
    + split; [split; [intros [p H]; discriminate H | intros H; contradiction]
             | intros e [= <-]; eauto].
  - simpl ncol. simpl nrow. rewrite !Nat.eqb_refl.
    rewrite np_dot_conformable by reflexivity.
    split; [split; eauto | intros e H; discriminate H].
  - simpl. split; [split; [auto | intros _; eexists; reflexivity]
                  | intros e H; discriminate H].
Qed.

(** X6.  What the constructor builds: [mean] and [vol] are the arguments
    as two-dimensional arrays, a missing [mean] is the zero column and a
    missing [vol] the identity, of the dimension of the argument that is
    given (1 when neither is); [process_dim] is the number of rows of both,
    [noise_dim] the number of columns of [vol], [cov] is [vol . vol^T], and
    the time unit is one day. *)
Theorem WienerProcess_init_builds
  (mean vol : option npu.array_like) (p : WienerProcess.t) :
  WienerProcess.__init__ mean vol = Ok p ->
  WienerProcess._mean p =
    match mean, vol with
    | Some m, _ => to2 m
    | None, Some v => npu.col_of (nrow (to2 v)) f0
    | None, None => mk_ndarray 1 1 [f0]
    end /\
  WienerProcess._vol p =
    match vol, mean with
    | Some v, _ => to2 v
    | None, Some m => np_eye (nrow (to2 m))
    | None, None => mk_ndarray 1 1 [f1]
    end /\
  WienerProcess.process_dim p = nrow (WienerProcess._mean p) /\
  WienerProcess.process_dim p = nrow (WienerProcess._vol p) /\
  ncol (WienerProcess._mean p) = 1 /\
  WienerProcess.noise_dim p = ncol (WienerProcess._vol p) /\
  WienerProcess._cov p = mat_mul (WienerProcess._vol p) (mat_T (WienerProcess._vol p)) /\
  MarkovProcess._time_unit (SolvedItoMarkovProcess.markov (WienerProcess.base p)) =
    86400000000%Z.
Proof.
  intros H. unfold WienerProcess.__init__ in H.
  destruct mean as [m|], vol as [v|];
    cbv beta iota zeta delta [option_map rbind] in H.
  all: repeat match type of H with
         | match ?r with Ok _ => _ | Raise _ => _ end = Ok _ =>
             let a := fresh "a" in
             let Ha := fresh "Ha" in
             destruct r as [a|] eqn:Ha; [|discriminate H]
         end.
  all: injection H as <-.
  all: repeat match goal with
         | H : npc.check_col _ = Ok _ |- _ => check_inv H
         | H : npc.check_nrow _ _ = Ok _ |- _ => check_inv H
         | H : np_dot _ _ = Ok _ |- _ => apply np_dot_ok in H; destruct H as [_ ->]
         end.
  all: unfold WienerProcess.process_dim, WienerProcess.noise_dim,
         SolvedItoMarkovProcess.process_dim, SolvedItoMarkovProcess.noise_dim.
  all: simpl; repeat split; auto.
Qed.

(** X7.  The cache of a Wiener process is transparent: in every state the
    instance can reach, [propagate_distr(time, time0, distr0)] with
    [time != time0] has the outcome of the uncached computation, the
    transition over the elapsed step applied to [distr0], be it a Gaussian
    or an exception. *)
Theorem WienerProcess_cache_transparent
  (p : WienerProcess.t) (s : MarkovProcess.state unit)
  (time time0 : pytime) (distr0 : distrs.NormalDistr) :
  wiener_reachable p s ->
  time_eqb time time0 = false ->
  fst (WienerProcess.propagate_distr p time time0 distr0 s) =
  (dt <~ MarkovProcess.elapsed_step
           (SolvedItoMarkovProcess.markov (WienerProcess.base p)) time time0 ;;
   d <~ WienerProcess._propagate_distr_impl p dt distr0 ;;
   Ok (Some d)).
Proof.
  intros Hs Hne. unfold WienerProcess.propagate_distr.
  destruct (MarkovProcess.cache_miss s time time0 distr0) eqn:Hmiss.
  - destruct (MarkovProcess.elapsed_step
                (SolvedItoMarkovProcess.markov (WienerProcess.base p)) time time0)
      as [dt|e] eqn:Hdt.
    + cbn [rbind].
      destruct (WienerProcess._propagate_distr_impl p dt distr0) as [d|e] eqn:Himpl.
      * rewrite (propagate_distr_miss _ _ _ _ _ d s dt (MarkovProcess.ext s) Hne Hmiss Hdt);
          [reflexivity | unfold lift; now rewrite Himpl].
      * rewrite (propagate_distr_miss_raise _ _ _ _ _ s dt (MarkovProcess.ext s) e
                   Hne Hmiss Hdt); [reflexivity | unfold lift; now rewrite Himpl].
    + now rewrite (propagate_distr_step_raise _ _ _ _ _ _ e Hne Hmiss Hdt).
  - rewrite propagate_distr_hit by assumption. simpl.
    apply cache_miss_false in Hmiss. destruct Hmiss as (Ht & Ht0 & Hd0).
    destruct (wiener_reachable_sound p s Hs _ _ _ Ht Ht0 Hd0) as (dt & d & Hdt & Hd & Hc).
    rewrite Hdt. cbn [rbind]. now rewrite Hd, Hc.
Qed.

(** X8.  [propagate] checks the variate against the noise dimension only
    through [np.dot]: for numeric times [t != t0] and a start value of
    [process_dim] rows, a variate whose number of rows is not [noise_dim]
    makes it raise the [ValueError] of misaligned shapes. *)
Theorem WienerProcess_propagate_misaligned
  (mean vol : option npu.array_like) (p : WienerProcess.t)
  (t t0 : F) (variate value0 : npu.array_like) :
  wf_opt mean -> wf_opt vol ->
  WienerProcess.__init__ mean vol = Ok p ->
  t <> t0 ->
  has_shape (to2 value0) (WienerProcess.process_dim p) 1 ->
  nrow (to2 variate) <> WienerProcess.noise_dim p ->
  WienerProcess.propagate p (TNum t) variate (TNum t0) value0 =
  Raise (ValueError "shapes not aligned").
Proof.
  intros Hm Hv Hinit Hne (Hr0 & Hc0 & Hw0) Hvar.
  destruct (WienerProcess_init_valid mean vol p Hm Hv Hinit)
    as [(Hmr & Hmc & Hmw) (Hvr & Hvc & Hvw) _ _].
  unfold WienerProcess.propagate. simpl.
  destruct (feqb t t0) eqn:E; [apply feqb_eq in E; contradiction|].
  rewrite np_mul_scalar_wf by assumption.
  rewrite np_add_same by (simpl; lia). simpl.
  unfold np_dot. simpl.
  destruct (Nat.eqb_spec (ncol (WienerProcess._vol p)) (nrow (npu.to_ndim_2 variate true)));
    [lia | reflexivity].
Qed.

End WienerMore.

(** ** OrnsteinUhlenbeckProcess in the states it can reach *)

Section Preservation.
Context {St : Type}.
Variable P : St -> Prop.

(** A computation keeps [P] when the state it leaves satisfies [P], whether
    it returns or raises. *)
Definition preserves {A} (c : M St A) : Prop := forall s, P s -> P (snd (c s)).

Lemma preserves_ret {A} (a : A) : preserves (ret a).
Proof. intros s H. exact H. Qed.

Lemma preserves_raise {A} (e : exn) : preserves (@raise St A e).
Proof. intros s H. exact H. Qed.

Lemma preserves_lift {A} (r : result A) : preserves (lift r).
Proof. intros s H. exact H. Qed.

Lemma preserves_bind {A B} (c : M St A) (k : A -> M St B) :
  preserves c -> (forall a, preserves (k a)) -> preserves (bind c k).
Proof.
  intros Hc Hk s Hs. unfold bind. specialize (Hc s Hs).
  destruct (c s) as [[a|e] s']; simpl in *; [now apply Hk | assumption].
Qed.

End Preservation.

Section OUReachable.
Context {SC : Scalar} {LA : LinAlg}.
Variable p : OrnsteinUhlenbeckProcess.t.
Hypothesis Hp : ou_valid p.

Local Abbreviation caches := OrnsteinUhlenbeckProcess.caches.
Local Abbreviation mrf_key := OrnsteinUhlenbeckProcess._cached_mean_reversion_factor_time_delta.
Local Abbreviation mrf_val := OrnsteinUhlenbeckProcess._cached_mean_reversion_factor.
Local Abbreviation mrfsq_key :=
  OrnsteinUhlenbeckProcess._cached_mean_reversion_factor_squared_time_delta.
Local Abbreviation mrfsq_val := OrnsteinUhlenbeckProcess._cached_mean_reversion_factor_squared.
Local Abbreviation dim := (OrnsteinUhlenbeckProcess.process_dim p).

(** The invariant of the two memos: sound, and a stored squared factor has
    the shape of [transition_x_2]. *)
Definition memo_inv (s : caches) : Prop := memo_sound p s /\ mrfsq_shape p s.

Lemma memo_inv_fresh : memo_inv OrnsteinUhlenbeckProcess.fresh.
Proof. split; [apply memo_sound_fresh | apply mrfsq_shape_fresh]. Qed.

Lemma mean_reversion_factor_inv (dt : pydelta) :
  preserves memo_inv (OrnsteinUhlenbeckProcess.mean_reversion_factor p dt).
Proof.
  intros s [Hs Hsh]. split.
  - apply mean_reversion_factor_sound, Hs.
  - intros m Hm. rewrite mean_reversion_factor_frame in Hm. now apply Hsh.
Qed.

Lemma mean_reversion_factor_squared_inv (dt : pydelta) :
  preserves memo_inv (OrnsteinUhlenbeckProcess.mean_reversion_factor_squared p dt).
Proof.
  intros s [Hs Hsh]. split.
  - apply mean_reversion_factor_squared_sound, Hs.
  - destruct (none_or_ne delta_eqb (mrfsq_key s) dt) eqn:Hmiss.
    + destruct (OrnsteinUhlenbeckProcess.expm_neg_scaled
                  (OrnsteinUhlenbeckProcess._transition_x_2 p) dt) as [m|e] eqn:He.
      * rewrite (mean_reversion_factor_squared_miss_ok p dt s m Hmiss He).
        intros m' [= <-].
        destruct (expm_neg_scaled_shape _ _ _ He) as (Hr & _).
        destruct (ov_x2_shape p Hp) as (Hk & _). lia.
      * rewrite (mean_reversion_factor_squared_miss_raise p dt s e Hmiss He).
        exact Hsh.
    + now rewrite (mean_reversion_factor_squared_hit p dt s Hmiss).
Qed.

Lemma noise_covariance_inv (dt : pydelta) :
  preserves memo_inv (OrnsteinUhlenbeckProcess.noise_covariance p dt).
Proof.
  unfold OrnsteinUhlenbeckProcess.noise_covariance.
  apply preserves_bind; [apply mean_reversion_factor_squared_inv|].
  intros [m|]; [|apply preserves_raise].
  apply preserves_bind; [apply preserves_lift | intros a; apply preserves_lift].
Qed.

Lemma propagate_inv (time time0 : pytime) (variate value0 : npu.array_like) :
  preserves memo_inv (OrnsteinUhlenbeckProcess.propagate p time variate time0 value0).
Proof.
  unfold OrnsteinUhlenbeckProcess.propagate.
  destruct (time_eqb time time0); [apply preserves_ret|].
  apply preserves_bind; [apply preserves_lift | intros dt].
  apply preserves_bind; [apply mean_reversion_factor_inv | intros [m|]];
    [|apply preserves_raise].
  apply preserves_bind; [apply preserves_lift | intros a].
  apply preserves_bind; [apply preserves_lift | intros b].
  apply preserves_bind; [apply noise_covariance_inv | intros c].
  apply preserves_lift.
Qed.

Lemma impl_inv (dt : F) (distr0 : distrs.NormalDistr) :
  preserves memo_inv (OrnsteinUhlenbeckProcess._propagate_distr_impl p dt distr0).
Proof.
  unfold OrnsteinUhlenbeckProcess._propagate_distr_impl.
  apply preserves_bind; [apply mean_reversion_factor_inv | intros [m|]];
    [|apply preserves_raise].
  apply preserves_bind; [apply preserves_lift | intros a].
  apply preserves_bind; [apply preserves_lift | intros b].
  apply preserves_bind; [apply preserves_lift | intros c1].
  apply preserves_bind; [apply noise_covariance_inv | intros c2].
  apply preserves_bind; [apply preserves_lift | intros c].
  apply preserves_ret.
Qed.

(** The methods of an instance that write to the memos. *)
Inductive ou_method : forall {A : Type}, M caches A -> Prop :=
| om_mrf dt : ou_method (OrnsteinUhlenbeckProcess.mean_reversion_factor p dt)
| om_mrfsq dt : ou_method (OrnsteinUhlenbeckProcess.mean_reversion_factor_squared p dt)
| om_noise dt : ou_method (OrnsteinUhlenbeckProcess.noise_covariance p dt)
| om_propagate time variate time0 value0 :
    ou_method (OrnsteinUhlenbeckProcess.propagate p time variate time0 value0).

Lemma ou_method_inv {A} (c : M caches A) : ou_method c -> preserves memo_inv c.
Proof.
  destruct 1;
    [apply mean_reversion_factor_inv | apply mean_reversion_factor_squared_inv
     | apply noise_covariance_inv | apply propagate_inv].
Qed.

(** The states of an instance: the one the constructor leaves, then any
    number of calls of its methods. *)
Inductive ou_reachable : MarkovProcess.state caches -> Prop :=
| our_fresh : ou_reachable (MarkovProcess.fresh OrnsteinUhlenbeckProcess.fresh)
| our_propagate_distr s time time0 distr0 :
    ou_reachable s ->
    ou_reachable (snd (OrnsteinUhlenbeckProcess.propagate_distr p time time0 distr0 s))
| our_method {A} (c : M caches A) s :
    ou_method c -> ou_reachable s ->
    ou_reachable (snd (MarkovProcess.on_ext c s)).

Lemma on_ext_ext {A} (c : M caches A) (s : MarkovProcess.state caches) :
  MarkovProcess.ext (snd (MarkovProcess.on_ext c s)) = snd (c (MarkovProcess.ext s)).
Proof. unfold MarkovProcess.on_ext. now destruct (c (MarkovProcess.ext s)). Qed.

Lemma propagate_distr_ext (time time0 : pytime) (distr0 : distrs.NormalDistr)
  (s : MarkovProcess.state caches) :
  MarkovProcess.ext (snd (OrnsteinUhlenbeckProcess.propagate_distr p time time0 distr0 s))
    = MarkovProcess.ext s \/
  exists dt,
    MarkovProcess.ext (snd (OrnsteinUhlenbeckProcess.propagate_distr p time time0 distr0 s))
    = snd (OrnsteinUhlenbeckProcess._propagate_distr_impl p dt distr0 (MarkovProcess.ext s)).
Proof.
  unfold OrnsteinUhlenbeckProcess.propagate_distr.
  destruct (propagate_distr_outcomes
              (SolvedItoMarkovProcess.markov (OrnsteinUhlenbeckProcess.base p))
              (OrnsteinUhlenbeckProcess._propagate_distr_impl p) time time0 distr0 s)
    as [[-> _] | [[-> _] | [(e & -> & _) | [(dt & d & x' & -> & _ & H) | (dt & e & x' & -> & _ & H)]]]];
    simpl; auto; right; exists dt; now rewrite H.
Qed.

Lemma ou_reachable_memo_inv (s : MarkovProcess.state caches) :
  ou_reachable s -> memo_inv (MarkovProcess.ext s).
Proof.
  induction 1 as [| s time time0 distr0 Hs IH | A c s Hc Hs IH].
  - apply memo_inv_fresh.
  - destruct (propagate_distr_ext time time0 distr0 s) as [-> | (dt & ->)];
      [assumption | now apply impl_inv].
  - rewrite on_ext_ext. now apply ou_method_inv.
Qed.

Local Abbreviation markov := (SolvedItoMarkovProcess.markov (OrnsteinUhlenbeckProcess.base p)).

(** A complete cache entry was returned by the transition of its own key,
    run on sound memos. *)
Definition ou_cache_sound (s : MarkovProcess.state caches) : Prop :=
  forall t t0 d0,
    MarkovProcess._cached_time s = Some t ->
    MarkovProcess._cached_time0 s = Some t0 ->
    MarkovProcess._cached_distr0 s = Some d0 ->
    exists dt d s0,
      MarkovProcess.elapsed_step markov t t0 = Ok dt /\
      memo_inv s0 /\
      fst (OrnsteinUhlenbeckProcess._propagate_distr_impl p dt d0 s0) = Ok d /\
      MarkovProcess._cached_distr s = Some d.

Lemma ou_reachable_cache_sound (s : MarkovProcess.state caches) :
  ou_reachable s -> ou_cache_sound s.
Proof.
  induction 1 as [| s time time0 distr0 Hs IH | A c s Hc Hs IH].
  - intros t t0 d0 H; discriminate H.
  - unfold OrnsteinUhlenbeckProcess.propagate_distr.
    destruct (propagate_distr_outcomes markov
                (OrnsteinUhlenbeckProcess._propagate_distr_impl p) time time0 distr0 s)
      as [[-> _] | [[-> _] | [(e & -> & _) | [(dt & d & x' & -> & Hdt & H) | (dt & e & x' & -> & _)]]]];
      simpl; try exact IH.
    intros t t0 d0 [= <-] [= <-] [= <-]. simpl.
    exists dt, d, (MarkovProcess.ext s). split; [assumption|].
    split; [now apply ou_reachable_memo_inv|]. split; [now rewrite H | reflexivity].
  - unfold MarkovProcess.on_ext. destruct (c (MarkovProcess.ext s)). exact IH.
Qed.

(** X9.  In every state an instance can reach, the memos answer with the
    matrix exponential of the key asked for, whenever that exponential
    exists: [mean_reversion_factor(time_delta)] is
    [expm(-transition * time_delta)] and
    [mean_reversion_factor_squared(time_delta)] is
    [expm(-transition_x_2 * time_delta)], in every process dimension. *)
Theorem mean_reversion_factors_are_expm
  (s : MarkovProcess.state caches) (dt : pydelta) (m : arr) :
  ou_reachable s ->
  (OrnsteinUhlenbeckProcess.expm_neg_scaled (OrnsteinUhlenbeckProcess._transition p) dt
     = Ok m ->
   fst (OrnsteinUhlenbeckProcess.mean_reversion_factor p dt (MarkovProcess.ext s))
     = Ok (Some m)) /\
  (OrnsteinUhlenbeckProcess.expm_neg_scaled (OrnsteinUhlenbeckProcess._transition_x_2 p) dt
     = Ok m ->
   fst (OrnsteinUhlenbeckProcess.mean_reversion_factor_squared p dt (MarkovProcess.ext s))
     = Ok (Some m)).
Proof.
  intros Hs. destruct (ou_reachable_memo_inv s Hs) as [Hsound _]. split; intros He.
  - now apply (mean_reversion_factor_sound p dt _ Hsound).
  - now apply (mean_reversion_factor_squared_sound p dt _ Hsound).
Qed.

(** X10.  In process dimension one, in every state an instance can reach,
    [noise_covariance(time_delta)] returns
    [unvec(K^-1 . (I - mrfsquared) . vec(vol . vol^T), 1)], where
    [mrfsquared] is the exponential [expm(-K * time_delta)]. *)
Theorem noise_covariance_dim1_reachable
  (s : MarkovProcess.state caches) (dt : pydelta) (mrfsquared : arr) :
  ou_reachable s -> dim = 1 ->
  OrnsteinUhlenbeckProcess.expm_neg_scaled (OrnsteinUhlenbeckProcess._transition_x_2 p) dt
    = Ok mrfsquared ->
  fst (OrnsteinUhlenbeckProcess.noise_covariance p dt (MarkovProcess.ext s)) =
  Ok (noise_covariance_spec p mrfsquared).
Proof.
  intros Hs Hd He. destruct (ou_reachable_memo_inv s Hs) as [Hsound _].
  destruct (noise_covariance_dim1 p dt _ mrfsquared Hp Hd Hsound He) as (s' & -> & _).
  reflexivity.
Qed.

(** X11.  In process dimension one, in every state an instance can reach,
    [propagate_distr(time, time0, distr0)] with [time != time0], on a prior
    with 1x1 mean and covariance, returns the Gaussian of mean
    [mrf . mean0 + (I - mrf) . mean] and covariance
    [mrf . cov0 . mrf^T + noise_covariance], where [mrf] and the squared
    factor are the matrix exponentials at the elapsed step, on a cache hit
    as on a miss. *)
Theorem propagate_distr_dim1_reachable
  (s : MarkovProcess.state caches) (time time0 : pytime) (dt : F)
  (distr0 : distrs.NormalDistr) (mrf mrfsquared : arr) :
  ou_reachable s -> dim = 1 ->
  time_eqb time time0 = false ->
  MarkovProcess.elapsed_step markov time time0 = Ok dt ->
  OrnsteinUhlenbeckProcess.expm_neg_scaled (OrnsteinUhlenbeckProcess._transition p) (DNum dt)
    = Ok mrf ->
  OrnsteinUhlenbeckProcess.expm_neg_scaled (OrnsteinUhlenbeckProcess._transition_x_2 p)
    (DNum dt) = Ok mrfsquared ->
  has_shape (distrs.mean distr0) 1 1 -> has_shape (distrs.cov distr0) 1 1 ->
  fst (OrnsteinUhlenbeckProcess.propagate_distr p time time0 distr0 s) =
  Ok (Some (propagate_distr_spec p mrf mrfsquared distr0)).
Proof.
  intros Hs Hd Hne Hdt He1 He2 Hm0 Hc0.
  unfold OrnsteinUhlenbeckProcess.propagate_distr.
  destruct (MarkovProcess.cache_miss s time time0 distr0) eqn:Hmiss.
  - destruct (ou_reachable_memo_inv s Hs) as [Hsound _].
    destruct (OrnsteinUhlenbeckProcess_impl_dim1 p dt distr0 _ mrf mrfsquared
                Hp Hd Hsound He1 He2 Hm0 Hc0) as (x' & Himpl & _).
    now rewrite (propagate_distr_miss _ _ _ _ _ _ s dt x' Hne Hmiss Hdt Himpl).
  - rewrite propagate_distr_hit by assumption. simpl.
    apply cache_miss_false in Hmiss. destruct Hmiss as (Ht & Ht0 & Hd0).
    destruct (ou_reachable_cache_sound s Hs _ _ _ Ht Ht0 Hd0)
      as (dt' & d & s0 & Hdt' & [Hsound0 _] & Hd' & ->).
    assert (dt' = dt) by congruence. subst dt'.
    destruct (OrnsteinUhlenbeckProcess_impl_dim1 p dt distr0 s0 mrf mrfsquared
                Hp Hd Hsound0 He1 He2 Hm0 Hc0) as (x' & Himpl & _).
    rewrite Himpl in Hd'. simpl in Hd'. congruence.
Qed.

(** X12.  In process dimension one, in every state an instance can reach,
    [propagate(time, variate, time0, value0)] on numeric times with
    [time != time0], a 1x1 value and a 1x1 variate returns
    [mrf . value0 + (I - mrf) . mean + cholesky(noise_covariance) . variate],
    the factors being the matrix exponentials at [time - time0]. *)
Theorem OrnsteinUhlenbeckProcess_propagate_dim1
  (s : MarkovProcess.state caches) (t t0 : F) (variate value0 : npu.array_like)
  (mrf mrfsquared l : arr) :
  ou_reachable s -> dim = 1 ->
  feqb t t0 = false ->
  OrnsteinUhlenbeckProcess.expm_neg_scaled (OrnsteinUhlenbeckProcess._transition p)
    (DNum (fsub t t0)) = Ok mrf ->
  OrnsteinUhlenbeckProcess.expm_neg_scaled (OrnsteinUhlenbeckProcess._transition_x_2 p)
    (DNum (fsub t t0)) = Ok mrfsquared ->
  np_linalg_cholesky (noise_covariance_spec p mrfsquared) = Ok l ->
  has_shape (npu.to_ndim_2 value0 true) 1 1 ->
  has_shape (npu.to_ndim_2 variate true) 1 1 ->
  fst (OrnsteinUhlenbeckProcess.propagate p (TNum t) variate (TNum t0) value0
         (MarkovProcess.ext s)) =
  Ok (mat_add
        (mat_add (mat_mul mrf (npu.to_ndim_2 value0 true))
                 (mat_mul (mat_sub (mat_I dim) mrf) (OrnsteinUhlenbeckProcess._mean p)))
        (mat_mul l (npu.to_ndim_2 variate true))).
Proof.
  intros Hs Hd Hne He1 He2 Hch (Hvr & Hvc & _) (Hwr & Hwc & _).
  destruct (ou_reachable_memo_inv s Hs) as [Hsound _].
  destruct (mean_reversion_factor_sound p (DNum (fsub t t0)) _ Hsound) as [Hs1 Hv].
  specialize (Hv _ He1).
  destruct (OrnsteinUhlenbeckProcess.mean_reversion_factor p (DNum (fsub t t0))
              (MarkovProcess.ext s)) as [r s1] eqn:Hcall.
  simpl in Hv, Hs1. subst r.
  destruct (noise_covariance_dim1 p (DNum (fsub t t0)) s1 mrfsquared Hp Hd Hs1 He2)
    as (s' & Hnc & _).
  destruct (expm_neg_scaled_shape _ _ _ He1) as (Hmr & Hmc & _).
  destruct (ov_transition p Hp) as (Htr & Htc & _).
  destruct (ov_mean p Hp) as (Hpr & Hpc & _).
  destruct (square_call_ok _ _ _ _ Hch) as (Hlr & Hlc & _).
  assert (Hnr : nrow (noise_covariance_spec p mrfsquared) = 1)
    by (unfold noise_covariance_spec, npu.unvec; now rewrite Hd).
  assert (Hncol : ncol (noise_covariance_spec p mrfsquared) = 1).
  { destruct (ov_inv_shape p Hp) as (Hir & _).
    unfold noise_covariance_spec, npu.unvec, mat_mul, mat_T, size. rewrite Hd.
    cbn [nrow ncol tabulate]. rewrite ?Hir, ?Hd. simpl. lia. }
  unfold OrnsteinUhlenbeckProcess.propagate, time_eqb, time_sub. rewrite Hne.
  unfold bind at 1, lift at 1.
  rewrite (bind_ok _ _ _ _ _ Hcall).
  rewrite Hd in *.
  unfold bind at 1, lift at 1.
  rewrite np_sub_same by (simpl; lia).
  unfold bind at 1, lift at 1.
  rewrite np_dot_conformable by (simpl; lia). simpl rbind.
  rewrite np_dot_conformable by (simpl; lia). simpl rbind.
  rewrite np_add_same by (simpl; lia).
  rewrite (bind_ok _ _ _ _ _ Hnc).
  unfold lift. rewrite Hch. simpl rbind.
  rewrite np_dot_conformable by lia. simpl rbind.
  rewrite np_add_same by (simpl; lia).
  reflexivity.
Qed.

(** [propagate] raises from dimension two on, whatever the memos hold. *)
Lemma OrnsteinUhlenbeckProcess_propagate_raises
  (time time0 : pytime) (variate value0 : npu.array_like) (s : caches) :
  2 <= dim -> mrfsq_shape p s -> time_eqb time time0 = false ->
  exists e s',
    OrnsteinUhlenbeckProcess.propagate p time variate time0 value0 s = (Raise e, s').
Proof.
  intros Hd Hs Hne. unfold OrnsteinUhlenbeckProcess.propagate. rewrite Hne.
  unfold bind at 1, lift at 1.
  destruct (time_sub time time0) as [dt|e]; [|eauto].
  pose proof (mean_reversion_factor_frame p dt s) as Hframe.
  unfold bind at 1.
  destruct (OrnsteinUhlenbeckProcess.mean_reversion_factor p dt s)
    as [[[mrf|]|e] s1]; simpl in Hframe; [| unfold raise; eauto | eauto].
  assert (Hs1 : mrfsq_shape p s1) by (intros m Hm; apply Hs; congruence).
  unfold bind at 1, lift at 1.
  destruct (np_sub (np_eye dim) mrf) as [a|e]; [|eauto].
  unfold bind at 1, lift at 1.
  match goal with |- context [match ?r with Ok _ => _ | Raise _ => _ end] =>
    destruct r as [m|e] end; [|eauto].
  destruct (noise_covariance_raises p dt s1 Hp Hd Hs1) as (e & s' & Hnc & _).
  rewrite (bind_raise _ _ _ _ _ Hnc). eauto.
Qed.

(** From dimension two on, nothing is ever stored in the cache of
    [propagate_distr]. *)
Lemma ou_reachable_dim2_cache_empty (s : MarkovProcess.state caches) :
  2 <= dim -> ou_reachable s -> MarkovProcess._cached_time s = None.
Proof.
  intros Hd. induction 1 as [| s time time0 distr0 Hs IH | A c s Hc Hs IH].
  - reflexivity.
  - destruct (time_eqb time time0) eqn:Hne.
    + unfold OrnsteinUhlenbeckProcess.propagate_distr.
      now rewrite propagate_distr_equal_times.
    + destruct (ou_reachable_memo_inv s Hs) as [_ Hsh].
      destruct (OrnsteinUhlenbeckProcess_propagate_distr_raises p time time0 distr0 s
                  Hp Hd IH Hsh Hne) as (e & s' & -> & Hnone & _).
      exact Hnone.
  - unfold MarkovProcess.on_ext. destruct (c (MarkovProcess.ext s)). exact IH.
Qed.

(** X13.  From process dimension two on, an instance never computes
    anything: in every state it can reach, [noise_covariance] raises for
    every [time_delta], [propagate] and [propagate_distr] raise whenever
    [time != time0], and the cache of [propagate_distr] is still empty. *)
Theorem OrnsteinUhlenbeckProcess_dim2_never_returns (s : MarkovProcess.state caches) :
  ou_reachable s -> 2 <= dim ->
  MarkovProcess._cached_time s = None /\
  (forall dt, exists e s',
      OrnsteinUhlenbeckProcess.noise_covariance p dt (MarkovProcess.ext s) = (Raise e, s')) /\
  (forall time variate time0 value0,
      time_eqb time time0 = false ->
      exists e s',
        OrnsteinUhlenbeckProcess.propagate p time variate time0 value0 (MarkovProcess.ext s)
          = (Raise e, s')) /\
  (forall time time0 distr0,
      time_eqb time time0 = false ->
      exists e s',
        OrnsteinUhlenbeckProcess.propagate_distr p time time0 distr0 s = (Raise e, s')).
Proof.
  intros Hs Hd.
  pose proof (ou_reachable_dim2_cache_empty s Hd Hs) as Hnone.
  destruct (ou_reachable_memo_inv s Hs) as [_ Hsh].
  split; [assumption|]. split; [|split].
  - intros dt.
    destruct (noise_covariance_raises p dt _ Hp Hd Hsh) as (e & s' & H & _). eauto.
  - intros time variate time0 value0 Hne.
    now apply OrnsteinUhlenbeckProcess_propagate_raises.
  - intros time time0 distr0 Hne.
    destruct (OrnsteinUhlenbeckProcess_propagate_distr_raises p time time0 distr0 s
                Hp Hd Hnone Hsh Hne) as (e & s' & H & _).
    eauto.
Qed.

End OUReachable.

(** ** Construction of an Ornstein-Uhlenbeck process *)

Section OUInit.
Context {SC : Scalar} {LA : LinAlg}.

Local Abbreviation to2 := (fun x : npu.array_like => npu.to_ndim_2 x true).

(** X14.  What the constructor builds: [process_dim] is the number of rows
    of [vol] if given, else of [mean], else of [transition], and 1 when
    none is; each argument is kept as a two-dimensional array, a missing
    [transition] or [vol] is the identity and a missing [mean] the zero
    column of that dimension; [noise_dim] is the number of columns of
    [vol]; [transition_x_2] is the Kronecker sum of [transition] with
    itself and [transition_x_2_inverse] its inverse; [cov] is
    [vol . vol^T], [cov_vec] its vectorisation, and the time unit is one
    day. *)
Theorem OrnsteinUhlenbeckProcess_init_builds
  (transition mean vol : option npu.array_like) (p : OrnsteinUhlenbeckProcess.t) :
  OrnsteinUhlenbeckProcess.__init__ transition mean vol = Ok p ->
  OrnsteinUhlenbeckProcess.process_dim p =
    match vol, mean, transition with
    | Some v, _, _ => nrow (to2 v)
    | None, Some m, _ => nrow (to2 m)
    | None, None, Some a => nrow (to2 a)
    | None, None, None => 1
    end /\
  OrnsteinUhlenbeckProcess._transition p =
    match transition with
    | Some a => to2 a
    | None => np_eye (OrnsteinUhlenbeckProcess.process_dim p)
    end /\
  OrnsteinUhlenbeckProcess._mean p =
    match mean with
    | Some m => to2 m
    | None => npu.col_of (OrnsteinUhlenbeckProcess.process_dim p) f0
    end /\
  OrnsteinUhlenbeckProcess._vol p =
    match vol with
    | Some v => to2 v
    | None => np_eye (OrnsteinUhlenbeckProcess.process_dim p)
    end /\
  OrnsteinUhlenbeckProcess.noise_dim p = ncol (OrnsteinUhlenbeckProcess._vol p) /\
  npu.kron_sum (OrnsteinUhlenbeckProcess._transition p) (OrnsteinUhlenbeckProcess._transition p)
    = Ok (OrnsteinUhlenbeckProcess._transition_x_2 p) /\
  np_linalg_inv (OrnsteinUhlenbeckProcess._transition_x_2 p)
    = Ok (OrnsteinUhlenbeckProcess._transition_x_2_inverse p) /\
  OrnsteinUhlenbeckProcess._cov p =
    mat_mul (OrnsteinUhlenbeckProcess._vol p) (mat_T (OrnsteinUhlenbeckProcess._vol p)) /\
  OrnsteinUhlenbeckProcess._cov_vec p = npu.vec (OrnsteinUhlenbeckProcess._cov p) /\
  MarkovProcess._time_unit
    (SolvedItoMarkovProcess.markov (OrnsteinUhlenbeckProcess.base p)) = 86400000000%Z.
Proof.
  intros H. unfold OrnsteinUhlenbeckProcess.__init__ in H.
  destruct transition as [a|], mean as [m|], vol as [v|];
    cbv beta iota zeta delta [option_map rbind] in H.
  all: repeat match type of H with
         | match ?r with Ok _ => _ | Raise _ => _ end = Ok _ =>
             let a := fresh "a" in
             let Ha := fresh "Ha" in
             destruct r as [a|] eqn:Ha; [|discriminate H]
         end.
  all: injection H as <-.
  all: repeat match goal with
         | H : npc.check_col _ = Ok _ |- _ => check_inv H
         | H : npc.check_nrow _ _ = Ok _ |- _ => check_inv H
         | H : npc.check_square _ = Ok _ |- _ => check_inv H
         | H : np_dot _ _ = Ok _ |- _ => apply np_dot_ok in H; destruct H as [_ ->]
         end.
  all: unfold OrnsteinUhlenbeckProcess.process_dim, OrnsteinUhlenbeckProcess.noise_dim,
         SolvedItoMarkovProcess.process_dim, SolvedItoMarkovProcess.noise_dim.
  all: cbn [OrnsteinUhlenbeckProcess.base OrnsteinUhlenbeckProcess._transition
            OrnsteinUhlenbeckProcess._mean OrnsteinUhlenbeckProcess._vol
            OrnsteinUhlenbeckProcess._transition_x_2
            OrnsteinUhlenbeckProcess._transition_x_2_inverse
            OrnsteinUhlenbeckProcess._cov OrnsteinUhlenbeckProcess._cov_vec].
  all: repeat split; try assumption; try reflexivity.
Qed.

(** X15.  The constructor fails in two ways only: a shape check raises a
    configuration error, or the inversion of [transition_x_2] fails in the
    linear-algebra routine.  The Kronecker sum and [vol . vol^T] cannot
    fail once the checks have passed, and [process_dim] is always
    assigned. *)
Theorem OrnsteinUhlenbeckProcess_init_errors
  (transition mean vol : option npu.array_like) (e : exn) :
  OrnsteinUhlenbeckProcess.__init__ transition mean vol = Raise e ->
  (exists msg, e = ConfigurationError msg) \/
  (exists a k,
      match transition with
      | Some t => a = to2 t
      | None => exists n, a = np_eye n
      end /\
      nrow a = ncol a /\
      npu.kron_sum a a = Ok k /\
      inv_entries k = Raise e).
Proof.
  intros H. unfold OrnsteinUhlenbeckProcess.__init__ in H.
  destruct transition as [a|], mean as [m|], vol as [v|];
    cbv beta iota zeta delta [option_map rbind] in H.
  all: unfold npc.check_col, npc.check_nrow, npc.check_square in H.
  all: repeat match type of H with
         | context [if ?x =? ?y then Ok tt else Raise ?c] =>
             destruct (Nat.eqb_spec x y);
               [| injection H as <-; left; eexists; reflexivity]
         end.
  all: match type of H with
       | context [npu.kron_sum ?a ?a] =>
           let k := fresh "k" in let Hk := fresh "Hk" in let Hs := fresh "Hs" in
           let Hsq := fresh "Hsq" in
           assert (Hsq : ncol a = nrow a) by (simpl in *; lia);
           destruct (kron_sum_square a (nrow a) eq_refl Hsq) as (k & Hk & Hs);
           rewrite Hk in H; right; exists a, k
       end.
  all: destruct Hs as (Hkr & Hkc & _).
  all: (split; [first [reflexivity | exists 1; reflexivity | eexists; reflexivity]|]).
  all: (split; [simpl in *; lia|]); (split; [exact Hk|]).
  all: unfold np_linalg_inv, square_call in H.
  all: rewrite Hkr, Hkc, Nat.eqb_refl in H.
  all: destruct (inv_entries k) as [f|e'] eqn:Hinv; cbn [rbind] in H;
         [| now injection H as <-].
  all: rewrite np_dot_conformable in H by reflexivity; discriminate H.
Qed.

(** X16.  The drift handed to [ItoProcess], at a point [x] that is a
    column of [process_dim] rows, is [-(transition . (x - mean))], again
    such a column, at every time. *)
Theorem OrnsteinUhlenbeckProcess_drift_formula
  (p : OrnsteinUhlenbeckProcess.t) (t : pytime) (x : arr) :
  ou_valid p ->
  has_shape x (OrnsteinUhlenbeckProcess.process_dim p) 1 ->
  OrnsteinUhlenbeckProcess.drift p t x =
    Ok (np_neg (mat_mul (OrnsteinUhlenbeckProcess._transition p)
                        (mat_sub x (OrnsteinUhlenbeckProcess._mean p)))) /\
  forall d, OrnsteinUhlenbeckProcess.drift p t x = Ok d ->
            has_shape d (OrnsteinUhlenbeckProcess.process_dim p) 1.
Proof.
  intros Hp (Hxr & Hxc & _).
  destruct (ov_transition p Hp) as (Htr & Htc & _).
  destruct (ov_mean p Hp) as (Hmr & Hmc & _).
  assert (H : OrnsteinUhlenbeckProcess.drift p t x =
              Ok (np_neg (mat_mul (OrnsteinUhlenbeckProcess._transition p)
                                  (mat_sub x (OrnsteinUhlenbeckProcess._mean p))))).
  { unfold OrnsteinUhlenbeckProcess.drift.
    rewrite np_sub_same by lia. cbn [rbind].
    rewrite np_dot_conformable by (simpl; lia). reflexivity. }
  split; [exact H|].
  intros d Hd. rewrite H in Hd. injection Hd as <-.
  unfold has_shape, wf, size, np_neg, amap, mat_mul, mat_sub, tabulate. simpl.
  rewrite !length_map, length_seq. repeat split; lia.
Qed.

End OUInit.

(** ** Equality, in general *)

Section EqualityMore.
Context {SC : Scalar} {LA : LinAlg}.

(** Comparing two rows of [n >= 2] entries gives an array of [n] booleans,
    which has no truth value. *)
Lemma np_eq_rows_no_truth (a b : arr) (n : nat) :
  2 <= n -> nrow a = 1 -> ncol a = n -> nrow b = 1 -> ncol b = n ->
  exists m, np_eq a b = Ok m /\ np_bool m = Raise (ValueError ambiguous_msg).
Proof.
  intros Hn Har Hac Hbr Hbc. unfold np_eq.
  rewrite np_broadcast2_same by lia.
  eexists; split; [reflexivity|].
  apply np_bool_raises. simpl. rewrite length_map, length_seq. nia.
Qed.

(** X19.  From process dimension two on, [==] and [!=] between two
    processes of one class and one dimension raise [ValueError]: the
    elementwise comparison of the means has no truth value.  This holds of
    Wiener and of Ornstein-Uhlenbeck processes, equal or not. *)
Theorem eq_raises_from_dim2 :
  (forall p q : WienerProcess.t,
      wiener_valid p -> wiener_valid q ->
      WienerProcess.process_dim p = WienerProcess.process_dim q ->
      2 <= WienerProcess.process_dim p ->
      WienerProcess.__eq__ p (Some q) = Raise (ValueError ambiguous_msg) /\
      WienerProcess.__ne__ p (Some q) = Raise (ValueError ambiguous_msg)) /\
  (forall p q : OrnsteinUhlenbeckProcess.t,
      ou_valid p -> ou_valid q ->
      OrnsteinUhlenbeckProcess.process_dim p = OrnsteinUhlenbeckProcess.process_dim q ->
      2 <= OrnsteinUhlenbeckProcess.process_dim p ->
      OrnsteinUhlenbeckProcess.__eq__ p (Some q) = Raise (ValueError ambiguous_msg) /\
      OrnsteinUhlenbeckProcess.__ne__ p (Some q) = Raise (ValueError ambiguous_msg)).
Proof.
  split; intros p q Hp Hq Hdim Hd.
  - now apply WienerProcess_eq_raises.
  - now apply OrnsteinUhlenbeckProcess_eq_raises.
Qed.

(** X20.  A one-dimensional Wiener process driven by two or more noise
    factors: [p == q] on equal means returns the array of the entrywise
    comparison of the volatilities, which has no truth value, and [p != q]
    raises; on different means [p == q] is falsy and [p != q] is [True].
    Such a process is never found equal to itself. *)
Theorem WienerProcess_eq_wide_noise (p q : WienerProcess.t) :
  wiener_valid p -> wiener_valid q ->
  WienerProcess.process_dim p = 1 -> WienerProcess.process_dim q = 1 ->
  WienerProcess.noise_dim p = WienerProcess.noise_dim q ->
  2 <= WienerProcess.noise_dim p ->
  (arr_eqb (WienerProcess._mean p) (WienerProcess._mean q) = true ->
   exists v,
     WienerProcess.__eq__ p (Some q) = Ok (PyBoolArr v) /\
     np_eq (WienerProcess._vol p) (WienerProcess._vol q) = Ok v /\
     truth (PyBoolArr v) = Raise (ValueError ambiguous_msg) /\
     WienerProcess.__ne__ p (Some q) = Raise (ValueError ambiguous_msg)) /\
  (arr_eqb (WienerProcess._mean p) (WienerProcess._mean q) = false ->
   exists v,
     WienerProcess.__eq__ p (Some q) = Ok v /\ truth v = Ok false /\
     WienerProcess.__ne__ p (Some q) = Ok true).
Proof.
  intros [Hpm Hpv _ _] [Hqm Hqv _ _] Hp1 Hq1 Hn Hn2.
  rewrite Hp1 in Hpm, Hpv. rewrite Hq1 in Hqm, Hqv.
  destruct (np_eq_1x1 _ _ Hpm Hqm) as (m & Hm & Hmb).
  destruct Hpv as (Hpr & Hpc & _). destruct Hqv as (Hqr & Hqc & _).
  destruct (np_eq_rows_no_truth (WienerProcess._vol p) (WienerProcess._vol q)
              (WienerProcess.noise_dim p) Hn2 Hpr Hpc Hqr ltac:(lia)) as (v & Hv & Hvb).
  split; intros Hsame; rewrite Hsame in Hmb.
  - exists v.
    assert (He : WienerProcess.__eq__ p (Some q) = Ok (PyBoolArr v)).
    { unfold WienerProcess.__eq__. rewrite Hm. cbn [rbind]. rewrite Hmb. cbn [rbind].
      now rewrite Hv. }
    split; [exact He|]. split; [exact Hv|]. split; [exact Hvb|].
    unfold WienerProcess.__ne__. rewrite He. cbn [rbind truth]. now rewrite Hvb.
  - exists (PyBoolArr m).
    assert (He : WienerProcess.__eq__ p (Some q) = Ok (PyBoolArr m)).
    { unfold WienerProcess.__eq__. rewrite Hm. cbn [rbind]. now rewrite Hmb. }
    split; [exact He|]. split; [exact Hmb|].
    unfold WienerProcess.__ne__. rewrite He. cbn [rbind truth]. now rewrite Hmb.
Qed.

End EqualityMore.

(** ** The further properties on concrete runs *)

Section FurtherRuns.
Import QArith.
Local Open Scope nat_scope.
#[local] Existing Instance Rational.QScalar.
#[local] Existing Instance Rational.QLinAlg.

Definition qvec (l : list Q) : npu.array_like := @npu.AVec Rational.QScalar l.

Definition qmat (r c : nat) (l : list Q) : npu.array_like :=
  @npu.AMat Rational.QScalar (qarr r c l).

(** The engine of [WienerProcess()]. *)
Definition wiener_engine : MarkovProcess.t :=
  SolvedItoMarkovProcess.markov (WienerProcess.base wiener_std).

Definition wiener_impl (time_delta : @F Rational.QScalar) (d : distrs.NormalDistr)
  : M unit distrs.NormalDistr :=
  lift (WienerProcess._propagate_distr_impl wiener_std time_delta d).

Lemma wiener_std_valid : wiener_valid wiener_std.
Proof. exact (WienerProcess_init_valid None None wiener_std I I wiener_std_init). Qed.

Lemma ou_std_valid : ou_valid ou_std.
Proof.
  exact (@OrnsteinUhlenbeckProcess_init_valid Rational.QScalar Rational.QLinAlg
           None None None ou_std I I I ou_std_init).
Qed.

Lemma ou_eye2_valid : ou_valid ou_eye2.
Proof.
  exact (@OrnsteinUhlenbeckProcess_init_valid Rational.QScalar Rational.QLinAlg
           (Some (npu.AMat (np_eye 2))) None None ou_eye2 (tabulate_wf _ _ _) I I
           ou_eye2_init).
Qed.

(** [WienerProcess()], a first call from [time0 = 0] to [time = 1]: the
    cache goes from empty to complete, and a Gaussian is returned. *)
Lemma propagate_distr_never_none_witness :
  engine_reachable wiener_engine wiener_impl (MarkovProcess.fresh tt) /\
  MarkovProcess.propagate_distr wiener_engine wiener_impl (qtime 1) (qtime 0) (dirac1 0)
    (MarkovProcess.fresh tt) = (Ok (Some gauss_0_1), wiener_after_1_0) /\
  cache_complete (MarkovProcess.fresh tt) /\ cache_complete wiener_after_1_0 /\
  exists d, Some gauss_0_1 = Some d.
Proof.
  split; [apply er_fresh|]. split; [reflexivity|].
  exact (@propagate_distr_never_none Rational.QScalar unit wiener_engine wiener_impl
           (MarkovProcess.fresh tt) (qtime 1) (qtime 0) (dirac1 0)
           (Some gauss_0_1) wiener_after_1_0 (er_fresh _ _ tt) eq_refl).
Defined.

(** A number against a datetime: [TypeError], the state untouched. *)
Lemma propagate_distr_step_errors_witness :
  MarkovProcess.cache_miss (MarkovProcess.fresh tt) (qtime 1) (qdate 0) (dirac1 0) = true /\
  MarkovProcess.propagate_distr wiener_engine wiener_impl (qtime 1) (qdate 0) (dirac1 0)
    (MarkovProcess.fresh tt) =
  (Raise (TypeError "unsupported operand type(s) for -"), MarkovProcess.fresh tt).
Proof.
  split; [reflexivity|].
  apply (proj1 (@propagate_distr_step_errors Rational.QScalar unit wiener_engine wiener_impl
                  (MarkovProcess.fresh tt) (qtime 1) (qdate 0) (dirac1 0) eq_refl)
           1%Q 0%Z).
  left. split; reflexivity.
Defined.

(** The abstract process, just constructed. *)
Lemma abstract_propagate_distr_raises_witness :
  engine_reachable (SolvedItoMarkovProcess.markov generic_1_1) abstract_impl
    (MarkovProcess.fresh tt) /\
  time_eqb (qtime 1) (qtime 0) = false /\
  exists e s',
    MarkovProcess.propagate_distr (SolvedItoMarkovProcess.markov generic_1_1)
      abstract_impl (qtime 1) (qtime 0) (dirac1 0) (MarkovProcess.fresh tt) = (Raise e, s').
Proof.
  split; [apply er_fresh|]. split; [reflexivity|].
  destruct (@abstract_propagate_distr_raises Rational.QScalar unit
              (SolvedItoMarkovProcess.markov generic_1_1) (MarkovProcess.fresh tt)
              (qtime 1) (qtime 0) (dirac1 0) (er_fresh _ _ tt) eq_refl)
    as (_ & e & s' & H & _).
  exists e, s'. exact H.
Defined.

(** The generic [propagate] on the engine of [WienerProcess()]: after the
    draw with variate 1 the draw with variate 2 leaves the state alone. *)
Lemma generic_propagate_reuses_cache_witness :
  SolvedItoMarkovProcess.propagate (WienerProcess.base wiener_std) wiener_impl
    (qtime 1) (qnum 1) (qtime 0) (qnum 0) (MarkovProcess.fresh tt)
    = (Ok (qarr 1 1 [1%Q]), wiener_after_1_0) /\
  snd (SolvedItoMarkovProcess.propagate (WienerProcess.base wiener_std) wiener_impl
         (qtime 1) (qnum 2) (qtime 0) (qnum 0) wiener_after_1_0) = wiener_after_1_0.
Proof.
  split; [reflexivity|].
  exact (@generic_propagate_reuses_cache Rational.QScalar Rational.QLinAlg unit
           (WienerProcess.base wiener_std) wiener_impl (qtime 1) (qtime 0)
           (qnum 1) (qnum 2) (qnum 0) (MarkovProcess.fresh tt) wiener_after_1_0
           (qarr 1 1 [1%Q]) eq_refl).
Defined.

(** [WienerProcess()] is constructed; [WienerProcess(mean=[[0, 0]])], a
    row for a mean, is refused with a configuration error. *)
Lemma WienerProcess_init_succeeds_iff_witness :
  (exists p, WienerProcess.__init__ None None = Ok p) /\
  WienerProcess.__init__ (Some (qmat 1 2 [0%Q; 0%Q])) None
    = Raise (ConfigurationError "not a column") /\
  exists msg, ConfigurationError "not a column" = ConfigurationError msg.
Proof.
  split; [|split; [reflexivity|]].
  - exact (proj2 (proj1 (@WienerProcess_init_succeeds_iff Rational.QScalar None None)) I).
  - exact (proj2 (@WienerProcess_init_succeeds_iff Rational.QScalar
                    (Some (qmat 1 2 [0%Q; 0%Q])) None) _ eq_refl).
Defined.

Lemma WienerProcess_init_builds_witness :
  WienerProcess.__init__ None None = Ok wiener_std /\
  WienerProcess._mean wiener_std = qarr 1 1 [0%Q] /\
  WienerProcess._vol wiener_std = qarr 1 1 [1%Q] /\
  WienerProcess.process_dim wiener_std = 1 /\
  WienerProcess.noise_dim wiener_std = 1.
Proof.
  split; [reflexivity|].
  destruct (@WienerProcess_init_builds Rational.QScalar None None wiener_std eq_refl)
    as (H1 & H2 & H3 & _ & _ & H6 & _).
  split; [exact H1|]. split; [exact H2|]. split; [exact H3 | exact H6].
Defined.

(** On the cache entry of (1, 0, Dirac(0)): the answer is that of the
    uncached computation. *)
Lemma WienerProcess_cache_transparent_witness :
  wiener_reachable wiener_std wiener_after_1_0 /\
  time_eqb (qtime 1) (qtime 0) = false /\
  fst (WienerProcess.propagate_distr wiener_std (qtime 1) (qtime 0) (dirac1 0)
         wiener_after_1_0) = Ok (Some gauss_0_1).
Proof.
  assert (Hr : wiener_reachable wiener_std wiener_after_1_0)
    by exact (wr_call wiener_std _ (qtime 1) (qtime 0) (dirac1 0) (wr_fresh wiener_std)).
  split; [exact Hr|]. split; [reflexivity|].
  etransitivity.
  - exact (@WienerProcess_cache_transparent Rational.QScalar wiener_std wiener_after_1_0
             (qtime 1) (qtime 0) (dirac1 0) Hr eq_refl).
  - reflexivity.
Defined.

(** [WienerProcess()] has one noise factor; a variate of two rows. *)
Lemma WienerProcess_propagate_misaligned_witness :
  WienerProcess.__init__ None None = Ok wiener_std /\
  4%Q <> 0%Q /\
  nrow (npu.to_ndim_2 (qvec [1%Q; 1%Q]) true) <> WienerProcess.noise_dim wiener_std /\
  WienerProcess.propagate wiener_std (qtime 4) (qvec [1%Q; 1%Q]) (qtime 0) (qnum 10) =
  Raise (ValueError "shapes not aligned").
Proof.
  split; [reflexivity|]. split; [discriminate|]. split; [vm_compute; lia|].
  apply (@WienerProcess_propagate_misaligned Rational.QScalar None None wiener_std
           4%Q 0%Q (qvec [1%Q; 1%Q]) (qnum 10) I I eq_refl);
    [discriminate | repeat split | vm_compute; lia].
Defined.

(** [OrnsteinUhlenbeckProcess()], just constructed, at [time_delta = 0]:
    both factors are the exponential of the zero matrix, the identity. *)
Lemma mean_reversion_factors_are_expm_witness :
  ou_valid ou_std /\
  ou_reachable ou_std (MarkovProcess.fresh OrnsteinUhlenbeckProcess.fresh) /\
  fst (OrnsteinUhlenbeckProcess.mean_reversion_factor ou_std (qdelta 0)
         OrnsteinUhlenbeckProcess.fresh) = Ok (Some (qarr 1 1 [1%Q])) /\
  fst (OrnsteinUhlenbeckProcess.mean_reversion_factor_squared ou_std (qdelta 0)
         OrnsteinUhlenbeckProcess.fresh) = Ok (Some (qarr 1 1 [1%Q])).
Proof.
  split; [exact ou_std_valid|]. split; [apply our_fresh|].
  destruct (@mean_reversion_factors_are_expm Rational.QScalar Rational.QLinAlg ou_std
              ou_std_valid (MarkovProcess.fresh OrnsteinUhlenbeckProcess.fresh)
              (qdelta 0) (qarr 1 1 [1%Q]) (our_fresh ou_std)) as [H1 H2].
  split; [exact (H1 eq_refl) | exact (H2 eq_refl)].
Defined.

(** Over no time no noise is added. *)
Lemma noise_covariance_dim1_reachable_witness :
  ou_valid ou_std /\
  ou_reachable ou_std (MarkovProcess.fresh OrnsteinUhlenbeckProcess.fresh) /\
  OrnsteinUhlenbeckProcess.process_dim ou_std = 1 /\
  fst (OrnsteinUhlenbeckProcess.noise_covariance ou_std (qdelta 0)
         OrnsteinUhlenbeckProcess.fresh) = Ok (qarr 1 1 [0%Q]).
Proof.
  split; [exact ou_std_valid|]. split; [apply our_fresh|]. split; [reflexivity|].
  etransitivity.
  - exact (@noise_covariance_dim1_reachable Rational.QScalar Rational.QLinAlg ou_std
             ou_std_valid (MarkovProcess.fresh OrnsteinUhlenbeckProcess.fresh)
             (qdelta 0) (qarr 1 1 [1%Q]) (our_fresh ou_std) eq_refl eq_refl).
  - reflexivity.
Defined.

(** [OrnsteinUhlenbeckProcess(transition=np.eye(2))], just constructed. *)
Lemma OrnsteinUhlenbeckProcess_dim2_never_returns_witness :
  ou_valid ou_eye2 /\
  ou_reachable ou_eye2 (MarkovProcess.fresh OrnsteinUhlenbeckProcess.fresh) /\
  2 <= OrnsteinUhlenbeckProcess.process_dim ou_eye2 /\
  (exists e s',
      OrnsteinUhlenbeckProcess.noise_covariance ou_eye2 (qdelta 1)
        OrnsteinUhlenbeckProcess.fresh = (Raise e, s')) /\
  (exists e s',
      OrnsteinUhlenbeckProcess.propagate ou_eye2 (qtime 1) (qvec [1%Q; 1%Q]) (qtime 0)
        (qvec [0%Q; 0%Q]) OrnsteinUhlenbeckProcess.fresh = (Raise e, s')).
Proof.
  split; [exact ou_eye2_valid|]. split; [apply our_fresh|]. split; [vm_compute; lia|].
  destruct (@OrnsteinUhlenbeckProcess_dim2_never_returns Rational.QScalar Rational.QLinAlg
              ou_eye2 ou_eye2_valid (MarkovProcess.fresh OrnsteinUhlenbeckProcess.fresh)
              (our_fresh ou_eye2) ltac:(vm_compute; lia)) as (_ & H1 & H2 & _).
  split; [exact (H1 (qdelta 1))|].
  exact (H2 (qtime 1) (qvec [1%Q; 1%Q]) (qtime 0) (qvec [0%Q; 0%Q]) eq_refl).
Defined.

Lemma OrnsteinUhlenbeckProcess_init_builds_witness :
  OrnsteinUhlenbeckProcess.__init__ (Some (npu.AMat (np_eye 2))) None None = Ok ou_eye2 /\
  OrnsteinUhlenbeckProcess.process_dim ou_eye2 = 2 /\
  OrnsteinUhlenbeckProcess._mean ou_eye2 = npu.col_of 2 f0 /\
  OrnsteinUhlenbeckProcess._vol ou_eye2 = np_eye 2.
Proof.
  split; [reflexivity|].
  destruct (@OrnsteinUhlenbeckProcess_init_builds Rational.QScalar Rational.QLinAlg
              (Some (npu.AMat (np_eye 2))) None None ou_eye2 eq_refl)
    as (H1 & _ & H3 & H4 & _).
  split; [exact H1|]. split; [exact H3 | exact H4].
Defined.

(** [OrnsteinUhlenbeckProcess(transition=0.)]: the Kronecker sum is the zero
    matrix, which has no inverse. *)
Lemma OrnsteinUhlenbeckProcess_init_errors_witness :
  OrnsteinUhlenbeckProcess.__init__ (Some (qnum 0)) None None
    = Raise (LinAlgError "Singular matrix") /\
  ((exists msg, LinAlgError "Singular matrix" = ConfigurationError msg) \/
   (exists a k,
      a = npu.to_ndim_2 (qnum 0) true /\
      nrow a = ncol a /\
      npu.kron_sum a a = Ok k /\
      inv_entries k = Raise (LinAlgError "Singular matrix"))).
Proof.
  split; [reflexivity|].
  exact (@OrnsteinUhlenbeckProcess_init_errors Rational.QScalar Rational.QLinAlg
           (Some (qnum 0)) None None (LinAlgError "Singular matrix") eq_refl).
Defined.

(** [OrnsteinUhlenbeckProcess()] at [x = 3]: the drift is -3. *)
Lemma OrnsteinUhlenbeckProcess_drift_formula_witness :
  ou_valid ou_std /\
  has_shape (qarr 1 1 [3%Q]) (OrnsteinUhlenbeckProcess.process_dim ou_std) 1 /\
  OrnsteinUhlenbeckProcess.drift ou_std (qtime 0) (qarr 1 1 [3%Q])
    = Ok (qarr 1 1 [(-3)%Q]).
Proof.
  split; [exact ou_std_valid|]. split; [repeat split|].
  etransitivity.
  - exact (proj1 (@OrnsteinUhlenbeckProcess_drift_formula Rational.QScalar Rational.QLinAlg
                    ou_std (qtime 0) (qarr 1 1 [3%Q]) ou_std_valid
                    (conj eq_refl (conj eq_refl eq_refl)))).
  - reflexivity.
Defined.

(** [WienerProcess(mean=[0., 0.])]. *)
Definition wiener_zero2 : WienerProcess.t :=
  WienerProcess.mk (SolvedItoMarkovProcess.__init__ 2 (Some 2) None)
    (qarr 2 1 [0%Q; 0%Q]) eye2 eye2.

Example wiener_zero2_init :
  WienerProcess.__init__ (Some (qvec [0%Q; 0%Q])) None = Ok wiener_zero2.
Proof. reflexivity. Qed.

Lemma wiener_zero2_valid : wiener_valid wiener_zero2.
Proof.
  exact (WienerProcess_init_valid (Some (qvec [0%Q; 0%Q])) None wiener_zero2 I I
           wiener_zero2_init).
Qed.

(** [WienerProcess(vol=[[1., 1.]])]: one dimension, two noise factors. *)
Definition wiener_wide : WienerProcess.t :=
  WienerProcess.mk (SolvedItoMarkovProcess.__init__ 1 (Some 2) None)
    (qarr 1 1 [0%Q]) (qarr 1 2 [1%Q; 1%Q]) (qarr 1 1 [2%Q]).

Example wiener_wide_init :
  WienerProcess.__init__ None (Some (qmat 1 2 [1%Q; 1%Q])) = Ok wiener_wide.
Proof. reflexivity. Qed.

Lemma wiener_wide_valid : wiener_valid wiener_wide.
Proof.
  exact (WienerProcess_init_valid None (Some (qmat 1 2 [1%Q; 1%Q])) wiener_wide I
           eq_refl wiener_wide_init).
Qed.

(** [OrnsteinUhlenbeckProcess(transition=2.)]: the mean and the volatility
    of [OrnsteinUhlenbeckProcess()], another transition. *)
Definition ou_fast : OrnsteinUhlenbeckProcess.t :=
  OrnsteinUhlenbeckProcess.mk (SolvedItoMarkovProcess.__init__ 1 (Some 1) None)
    (qarr 1 1 [2%Q]) (qarr 1 1 [0%Q]) (qarr 1 1 [1%Q])
    (qarr 1 1 [4%Q]) (qarr 1 1 [(1 # 4)%Q]) (qarr 1 1 [1%Q]) (qarr 1 1 [1%Q]).

Example ou_fast_init :
  OrnsteinUhlenbeckProcess.__init__ (Some (qnum 2)) None None = Ok ou_fast.
Proof. reflexivity. Qed.

Lemma ou_fast_valid : ou_valid ou_fast.
Proof.
  exact (@OrnsteinUhlenbeckProcess_init_valid Rational.QScalar Rational.QLinAlg
           (Some (qnum 2)) None None ou_fast I I I ou_fast_init).
Qed.

(** [WienerProcess() == WienerProcess()]. *)
Lemma WienerProcess_eq_dim1_witness :
  wiener_valid wiener_std /\
  (exists v, WienerProcess.__eq__ wiener_std (Some wiener_std) = Ok v /\ truth v = Ok true) /\
  WienerProcess.__ne__ wiener_std (Some wiener_std) = Ok false.
Proof.
  split; [exact wiener_std_valid|].
  exact (@WienerProcess_eq_dim1 Rational.QScalar wiener_std wiener_std
           wiener_std_valid wiener_std_valid eq_refl eq_refl eq_refl eq_refl).
Defined.

(** Two processes that differ in the transition only are found equal. *)
Lemma OrnsteinUhlenbeckProcess_eq_dim1_witness :
  ou_valid ou_std /\ ou_valid ou_fast /\
  OrnsteinUhlenbeckProcess._transition ou_std <> OrnsteinUhlenbeckProcess._transition ou_fast /\
  (exists v, OrnsteinUhlenbeckProcess.__eq__ ou_std (Some ou_fast) = Ok v /\
             truth v = Ok true) /\
  OrnsteinUhlenbeckProcess.__ne__ ou_std (Some ou_fast) = Ok false.
Proof.
  split; [exact ou_std_valid|]. split; [exact ou_fast_valid|]. split; [discriminate|].
  exact (@OrnsteinUhlenbeckProcess_eq_dim1 Rational.QScalar Rational.QLinAlg ou_std ou_fast
           ou_std_valid ou_fast_valid eq_refl eq_refl eq_refl eq_refl).
Defined.

Lemma eq_raises_from_dim2_witness :
  wiener_valid wiener_zero2 /\ 2 <= WienerProcess.process_dim wiener_zero2 /\
  ou_valid ou_eye2 /\ 2 <= OrnsteinUhlenbeckProcess.process_dim ou_eye2 /\
  WienerProcess.__ne__ wiener_zero2 (Some wiener_zero2) = Raise (ValueError ambiguous_msg) /\
  OrnsteinUhlenbeckProcess.__eq__ ou_eye2 (Some ou_eye2) = Raise (ValueError ambiguous_msg).
Proof.
  split; [exact wiener_zero2_valid|]. split; [vm_compute; lia|].
  split; [exact ou_eye2_valid|]. split; [vm_compute; lia|].
  destruct (@eq_raises_from_dim2 Rational.QScalar Rational.QLinAlg) as [HW HO].
  split.
  - exact (proj2 (HW wiener_zero2 wiener_zero2 wiener_zero2_valid wiener_zero2_valid
                    eq_refl ltac:(vm_compute; lia))).
  - exact (proj1 (HO ou_eye2 ou_eye2 ou_eye2_valid ou_eye2_valid
                    eq_refl ltac:(vm_compute; lia))).
Defined.

(** [p = WienerProcess(vol=[[1., 1.]])]: [p != p] raises. *)
Lemma WienerProcess_eq_wide_noise_witness :
  wiener_valid wiener_wide /\
  WienerProcess.process_dim wiener_wide = 1 /\
  2 <= WienerProcess.noise_dim wiener_wide /\
  arr_eqb (WienerProcess._mean wiener_wide) (WienerProcess._mean wiener_wide) = true /\
  exists v,
    WienerProcess.__eq__ wiener_wide (Some wiener_wide) = Ok (PyBoolArr v) /\
    np_eq (WienerProcess._vol wiener_wide) (WienerProcess._vol wiener_wide) = Ok v /\
    truth (PyBoolArr v) = Raise (ValueError ambiguous_msg) /\
    WienerProcess.__ne__ wiener_wide (Some wiener_wide) = Raise (ValueError ambiguous_msg).
Proof.
  split; [exact wiener_wide_valid|]. split; [reflexivity|]. split; [vm_compute; lia|].
  split; [reflexivity|].
  exact (proj1 (@WienerProcess_eq_wide_noise Rational.QScalar wiener_wide wiener_wide
                  wiener_wide_valid wiener_wide_valid eq_refl eq_refl eq_refl
                  ltac:(vm_compute; lia)) eq_refl).
Defined.

End FurtherRuns.

(** ** The Ornstein-Uhlenbeck transition over the reals *)

Section FurtherRealRuns.
Import Reals Lra.
#[local] Existing Instance Real.RScalar.
#[local] Existing Instance Real.RLinAlg.
Local Open Scope nat_scope.

Ltac rcompute :=
  cbv -[IZR Rplus Rmult Rinv Rminus Ropp Rdiv exp ln sqrt Real.Reqb Rlt_dec].

Definition rnum (x : R) : npu.array_like := @npu.AScalar Real.RScalar x.

Lemma ou_std_R_valid : ou_valid ou_std_R.
Proof.
  exact (@OrnsteinUhlenbeckProcess_init_valid Real.RScalar Real.RLinAlg
           (Some (rnum 1)) (Some (rnum 0)) (Some (rnum 1)) ou_std_R I I I ou_std_R_init).
Qed.

(** The factors of [OrnsteinUhlenbeckProcess(1, 0, 1)] over one unit of
    time, [exp(-1)] and [exp(-2)], and the variance it adds,
    [(1 - exp(-2)) / 2]. *)
Definition ou_mrf_1 : arr := rarr 1 1 [exp (1 * - (1 - 0))].

Definition ou_mrfsq_1 : arr := rarr 1 1 [exp (2 * - (1 - 0))].

Definition ou_noise_1 : R :=
  (0 + (0 + 1 / 2 * (1 - exp (2 * - (1 - 0)))) * (0 + 1 * 1))%R.

Lemma ou_noise_1_pos : (0 < ou_noise_1)%R.
Proof.
  unfold ou_noise_1.
  pose proof (exp_increasing (2 * - (1 - 0)) 0 ltac:(lra)) as H. rewrite exp_0 in H.
  lra.
Qed.

Lemma ou_mrf_1_expm :
  OrnsteinUhlenbeckProcess.expm_neg_scaled (OrnsteinUhlenbeckProcess._transition ou_std_R)
    (rdelta (1 - 0)) = Ok ou_mrf_1.
Proof. reflexivity. Qed.

Lemma ou_mrfsq_1_expm :
  OrnsteinUhlenbeckProcess.expm_neg_scaled (OrnsteinUhlenbeckProcess._transition_x_2 ou_std_R)
    (rdelta (1 - 0)) = Ok ou_mrfsq_1.
Proof. reflexivity. Qed.

Lemma ou_noise_1_cholesky :
  np_linalg_cholesky (noise_covariance_spec ou_std_R ou_mrfsq_1)
    = Ok (rarr 1 1 [sqrt ou_noise_1]).
Proof.
  rcompute. destruct (Rlt_dec _ _) as [_|n]; [reflexivity|].
  exfalso. apply n. exact ou_noise_1_pos.
Qed.

(** From [Dirac(1)] at time 0 to time 1. *)
Lemma propagate_distr_dim1_reachable_witness :
  ou_valid ou_std_R /\
  ou_reachable ou_std_R (MarkovProcess.fresh OrnsteinUhlenbeckProcess.fresh) /\
  OrnsteinUhlenbeckProcess.process_dim ou_std_R = 1 /\
  time_eqb (rtime 1) (rtime 0) = false /\
  fst (OrnsteinUhlenbeckProcess.propagate_distr ou_std_R (rtime 1) (rtime 0)
         (distrs.create_dirac_delta (rarr 1 1 [1%R]))
         (MarkovProcess.fresh OrnsteinUhlenbeckProcess.fresh)) =
  Ok (Some (propagate_distr_spec ou_std_R ou_mrf_1 ou_mrfsq_1
              (distrs.create_dirac_delta (rarr 1 1 [1%R])))).
Proof.
  assert (Hne : time_eqb (rtime 1) (rtime 0) = false)
    by (apply (Reqb_false 1 0); lra).
  split; [exact ou_std_R_valid|]. split; [apply our_fresh|]. split; [reflexivity|].
  split; [exact Hne|].
  exact (@propagate_distr_dim1_reachable Real.RScalar Real.RLinAlg ou_std_R ou_std_R_valid
           (MarkovProcess.fresh OrnsteinUhlenbeckProcess.fresh) (rtime 1) (rtime 0)
           (1 - 0)%R (distrs.create_dirac_delta (rarr 1 1 [1%R])) ou_mrf_1 ou_mrfsq_1
           (our_fresh ou_std_R) eq_refl Hne eq_refl ou_mrf_1_expm ou_mrfsq_1_expm
           (conj eq_refl (conj eq_refl eq_refl)) (conj eq_refl (conj eq_refl eq_refl))).
Defined.

(** A draw from value 1 at time 0 to time 1, with variate 1. *)
Lemma OrnsteinUhlenbeckProcess_propagate_dim1_witness :
  ou_valid ou_std_R /\
  ou_reachable ou_std_R (MarkovProcess.fresh OrnsteinUhlenbeckProcess.fresh) /\
  OrnsteinUhlenbeckProcess.process_dim ou_std_R = 1 /\
  feqb 1%R 0%R = false /\
  np_linalg_cholesky (noise_covariance_spec ou_std_R ou_mrfsq_1)
    = Ok (rarr 1 1 [sqrt ou_noise_1]) /\
  fst (OrnsteinUhlenbeckProcess.propagate ou_std_R (rtime 1) (rnum 1) (rtime 0) (rnum 1)
         OrnsteinUhlenbeckProcess.fresh) =
  Ok (mat_add
        (mat_add (mat_mul ou_mrf_1 (rarr 1 1 [1%R]))
                 (mat_mul (mat_sub (mat_I 1) ou_mrf_1) (rarr 1 1 [0%R])))
        (mat_mul (rarr 1 1 [sqrt ou_noise_1]) (rarr 1 1 [1%R]))).
Proof.
  assert (Hne : feqb 1%R 0%R = false) by (apply (Reqb_false 1 0); lra).
  split; [exact ou_std_R_valid|]. split; [apply our_fresh|]. split; [reflexivity|].
  split; [exact Hne|]. split; [exact ou_noise_1_cholesky|].
  exact (@OrnsteinUhlenbeckProcess_propagate_dim1 Real.RScalar Real.RLinAlg ou_std_R
           ou_std_R_valid (MarkovProcess.fresh OrnsteinUhlenbeckProcess.fresh)
           1%R 0%R (rnum 1) (rnum 1) ou_mrf_1 ou_mrfsq_1 (rarr 1 1 [sqrt ou_noise_1])
           (our_fresh ou_std_R) eq_refl Hne ou_mrf_1_expm ou_mrfsq_1_expm
           ou_noise_1_cholesky
           (conj eq_refl (conj eq_refl eq_refl)) (conj eq_refl (conj eq_refl eq_refl))).
Defined.

(** Twelve hours, in microseconds, with the unit of one day. *)
Lemma elapsed_step_is_quotient_witness :
  86400000000%Z <> 0%Z /\
  MarkovProcess.elapsed_step (MarkovProcess.mk 1 86400000000)
    (@TDate Real.RScalar 43200000000) (@TDate Real.RScalar 0) =
  Ok (IZR (43200000000 - 0) / IZR 86400000000)%R.
Proof.
  split; [lia|].
  apply (elapsed_step_is_quotient 1 86400000000 43200000000 0). lia.
Defined.

End FurtherRealRuns.
